(** * DefectDojo import scripts: a shallow embedding and its properties

    The repository holds two Python scripts that upload HCL AppScan SAST
    reports to a DefectDojo server:

    - [defect_dojo_reimporter_v1.2.py] resolves product type, product,
      engagement and test, and chooses between an initial import and a
      reimport (module [Reimporter] below);
    - [defect_dojo_importer-reimporter/defect_dojo_importer.py] always
      imports (module [Importer] below).

    The scripts are sequential programs that talk to an HTTP server, print
    lines and raise exceptions.  They are embedded as computations of a
    state-and-exception monad over a [world]: the server's state, the
    session headers, the list of requests sent, the lines printed and the
    files written.  The server and the file system are parameters. *)

From Stdlib Require Import ZArith List String Ascii Bool Lia Permutation.
Import ListNotations.

Open Scope string_scope.
Open Scope Z_scope.

(** ** Python exceptions *)

(** The exception classes the scripts raise, catch or can receive from the
    libraries they call. *)
Inductive exn_class : Type :=
| Exception_          (* Exception *)
| ValueError
| LookupError         (* codecs.lookup on an unknown encoding *)
| KeyError
| OSError             (* open, ET.parse on an unreadable path *)
| FileNotFoundError
| ConnectionError     (* requests.exceptions.ConnectionError *)
| JSONDecodeError     (* requests.exceptions.JSONDecodeError *)
| ParseError.         (* xml.etree.ElementTree.ParseError *)

Definition exn_class_eqb (c d : exn_class) : bool :=
  match c, d with
  | Exception_, Exception_ | ValueError, ValueError | LookupError, LookupError
  | KeyError, KeyError
  | OSError, OSError | FileNotFoundError, FileNotFoundError
  | ConnectionError, ConnectionError | JSONDecodeError, JSONDecodeError
  | ParseError, ParseError => true
  | _, _ => false
  end.

(** [issubclass c d]: the class hierarchy of Python and of [requests]. *)
Definition issubclass (c d : exn_class) : bool :=
  match d with
  | Exception_ => true
  | ValueError => match c with ValueError | JSONDecodeError => true | _ => false end
  | LookupError => match c with LookupError | KeyError => true | _ => false end
  | OSError =>
      match c with OSError | FileNotFoundError | ConnectionError => true | _ => false end
  | _ => exn_class_eqb c d
  end.

(** What [str(e)] shows.  The f-strings of the scripts are kept as
    constructors with their arguments instead of being rendered. *)
Inductive message : Type :=
| AuthenticationFailed (status : Z) (content : string)
| ProductTypeNotFound (product_type_name : string)
| FailedToCreateFindProduct (status : Z) (content : string)
| CouldNotFind (element xml_file_path : string)
| FailedToParse (xml_file_path : string) (reason : message)
| SettingsNotFound
| MissingCredentials
| MissingProductTypeName
| DirectoryNotFound (reports_dir : string)
| MissingKey (key : string)
| External (detail : string).

Record exn : Type := mk_exn { class_of : exn_class; str : message }.

Definition isinstance (e : exn) (c : exn_class) : bool := issubclass (class_of e) c.

(** ** Printed lines *)

Inductive line : Type :=
| NoXmlFilesFound (reports_dir : string)
| Processing (xml_file product_name engagement_name : string)
| Importing (xml_file product_name engagement_name : string)
| SuccessfullyImported (xml_file_path : string)
| FailedToImport (xml_file_path : string) (status : Z) (content : string)
| SuccessfullyReimported (xml_file_path : string) (test_id : Z)
| FailedToReimport (xml_file_path : string) (status : Z) (content : string)
| ErrorProcessing (xml_file : string) (reason : message)
| UnexpectedErrorProcessing (xml_file : string) (reason : message)
| AnErrorOccurred (reason : message).

(** ** HTTP requests and responses *)

Inductive value : Type := Str (s : string) | Int (z : Z).

(** A Python dict literal used as query parameters or form data. *)
Definition form : Type := list (string * value).

Fixpoint lookup (key : string) (d : form) : option value :=
  match d with
  | [] => None
  | (k, v) :: rest => if String.eqb k key then Some v else lookup key rest
  end.

Inductive request : Type :=
| GET (url : string) (params : form)
| POST (url : string) (data : form) (files : list (string * string)).

(** The attributes the scripts read from the objects of the API. *)
Record obj : Type := mk_obj {
  id : Z;
  prod_type : Z;
  updated : string;
  token : string
}.

(** A decoded body: a page of results [{'results': [...]}] or one object. *)
Inductive json : Type :=
| Page (results : list obj)
| Object (o : obj).

(** [body = None]: the body is not JSON, [response.json()] raises. *)
Record response : Type := mk_response {
  status_code : Z;
  content : string;
  body : option json
}.

(** ** The world *)

Inductive result (A : Type) : Type :=
| Return (a : A)
| Raise (e : exn).
Arguments Return {A} a.
Arguments Raise {A} e.

Section World.

(** The state of the server, and how it answers a request sent with the
    session's headers: with a response, or with a failure of the
    transport (an exception of [requests]). *)
Variable S : Type.
Variable serve : list (string * string) -> request -> S -> result response * S.

Record world : Type := mk_world {
  server : S;
  headers : list (string * string);     (* session.headers *)
  sent : list request;                  (* requests issued so far *)
  stdout : list line;                   (* lines printed so far *)
  written : list (string * string)      (* files written: name, content *)
}.

Definition M (A : Type) : Type := world -> result A * world.

Definition ret {A} (a : A) : M A := fun w => (Return a, w).

Definition raise {A} (c : exn_class) (m : message) : M A :=
  fun w => (Raise (mk_exn c m), w).

Definition bind {A B} (m : M A) (f : A -> M B) : M B :=
  fun w =>
    match m w with
    | (Return a, w') => f a w'
    | (Raise e, w') => (Raise e, w')
    end.

(** [try: body  except c1 as e: h1 e  except c2 as e: h2 e ...]: the first
    clause whose class the exception is an instance of handles it. *)
Definition try_ {A} (body : M A) (handlers : list (exn_class * (exn -> M A))) : M A :=
  fun w =>
    match body w with
    | (Return a, w') => (Return a, w')
    | (Raise e, w') =>
        match find (fun h => isinstance e (fst h)) handlers with
        | Some h => snd h e w'
        | None => (Raise e, w')
        end
    end.

Definition print (l : line) : M unit :=
  fun w => (Return tt,
            mk_world (server w) (headers w) (sent w) (stdout w ++ [l]) (written w)).

Definition write_file (name text : string) : M unit :=
  fun w => (Return tt,
            mk_world (server w) (headers w) (sent w) (stdout w)
                     (written w ++ [(name, text)])).

(** [session.get] and [session.post]: the request is recorded, the server
    answers and moves to its next state. *)
Definition send (r : request) : M response :=
  fun w =>
    let (answer, s') := serve (headers w) r (server w) in
    (answer, mk_world s' (headers w) (sent w ++ [r]) (stdout w) (written w)).

Definition session_get (url : string) (params : form) : M response :=
  send (GET url params).

Definition session_post (url : string) (data : form) (files : list (string * string))
  : M response :=
  send (POST url data files).

(** [response.json()['results']] *)
Definition json_results (r : response) : M (list obj) :=
  match body r with
  | None => raise JSONDecodeError (External "response.json()")
  | Some (Page rs) => ret rs
  | Some (Object _) => raise KeyError (MissingKey "results")
  end.

(** [response.json()[key]] for the keys ['id'] and ['token'] of one object:
    the object that has the key. *)
Definition json_object (r : response) (key : string) : M obj :=
  match body r with
  | None => raise JSONDecodeError (External "response.json()")
  | Some (Object o) => ret o
  | Some (Page _) => raise KeyError (MissingKey key)
  end.

Fixpoint for_ {A} (xs : list A) (body : A -> M unit) : M unit :=
  match xs with
  | [] => ret tt
  | x :: rest => bind (body x) (fun _ => for_ rest body)
  end.

End World.

Arguments mk_world {S}.
Arguments server {S}.
Arguments headers {S}.
Arguments sent {S}.
Arguments stdout {S}.
Arguments written {S}.
Arguments ret {S A}.
Arguments raise {S A}.
Arguments bind {S A B}.
Arguments try_ {S A}.
Arguments print {S}.
Arguments write_file {S}.
Arguments send {S}.
Arguments session_get {S}.
Arguments session_post {S}.
Arguments json_results {S}.
Arguments json_object {S}.
Arguments for_ {S A}.

Declare Scope py_scope.
Delimit Scope py_scope with py.
Notation "x <- m ;; k" := (bind m (fun x => k))
  (at level 61, m at next level, right associativity) : py_scope.
Notation "m ;; k" := (bind m (fun _ => k))
  (at level 61, right associativity) : py_scope.
Open Scope py_scope.

(** ** Python values and library functions used by the scripts *)

(** [if v:] on an identity that may be [None]: [None] and [0] are falsy. *)
Definition if_truthy {A} (v : option Z) (then_ : Z -> A) (else_ : A) : A :=
  match v with
  | Some z => if Z.eqb z 0 then else_ else then_ z
  | None => else_
  end.

(** [not s] on a string that may be [None]: [None] and [''] are falsy. *)
Definition falsy_text (s : option string) : bool :=
  match s with
  | None => true
  | Some t => String.eqb t ""
  end.

(** The text of a string known not to be [None]. *)
Definition text_of (s : option string) : string :=
  match s with Some t => t | None => "" end.

(** [s.endswith(suffix)] *)
Definition endswith (s suffix : string) : bool :=
  let n := String.length s in
  let k := String.length suffix in
  if Nat.ltb n k then false
  else String.eqb (substring (n - k) k s) suffix.

(** [os.path.join(a, b)] for a relative [b] *)
Definition os_path_join (a b : string) : string := a ++ "/" ++ b.

(** [d[k]] on the sections and keys of a [ConfigParser]. *)
Fixpoint assoc {A} (key : string) (d : list (string * A)) : option A :=
  match d with
  | [] => None
  | (k, v) :: rest => if String.eqb k key then Some v else assoc key rest
  end.

(** [headers.update({k: v})] *)
Fixpoint update (key v : string) (d : list (string * string)) : list (string * string) :=
  match d with
  | [] => [(key, v)]
  | (k, v') :: rest =>
      if String.eqb k key then (k, v) :: rest else (k, v') :: update key v rest
  end.

(** [sorted(xs, key=lambda x: x['updated'], reverse=True)]: Python's sort is
    stable, also with [reverse=True]: the keys descend and elements with
    equal keys keep their order.  Strings compare by code point. *)
Fixpoint insert_desc (x : obj) (sorted : list obj) : list obj :=
  match sorted with
  | [] => [x]
  | y :: rest =>
      if String.ltb (updated x) (updated y) then y :: insert_desc x rest
      else x :: y :: rest
  end.

Fixpoint sorted_by_updated_reverse (xs : list obj) : list obj :=
  match xs with
  | [] => []
  | x :: rest => insert_desc x (sorted_by_updated_reverse rest)
  end.

(** ** Timestamps *)

(** The scripts never read the [updated] field as a time: they compare the
    strings.  What the field says is defined here, to compare the two.  The
    server writes an instant in UTC as [YYYY-MM-DDTHH:MM:SS.ffffffZ], and
    as [YYYY-MM-DDTHH:MM:SSZ] when the microseconds are zero. *)
Definition is_digit (c : ascii) : bool :=
  ((48 <=? N_of_ascii c) && (N_of_ascii c <=? 57))%N.

Definition digit_value (c : ascii) : Z := Z.of_N (N_of_ascii c) - 48.

(** [shape pattern s]: [s] has a digit where [pattern] has the letter [d]
    and the character of [pattern] elsewhere. *)
Fixpoint shape (pattern s : string) : bool :=
  match pattern, s with
  | EmptyString, EmptyString => true
  | String p pattern, String c s =>
      (if Ascii.eqb p "d" then is_digit c else Ascii.eqb p c) && shape pattern s
  | _, _ => false
  end.

Definition whole_seconds : string := "dddd-dd-ddTdd:dd:ddZ".
Definition microseconds : string := "dddd-dd-ddTdd:dd:dd.ddddddZ".

(** The digits of [s] read as one decimal number, after the digits [n]. *)
Fixpoint decimal (n : Z) (s : string) : Z :=
  match s with
  | EmptyString => n
  | String c s => decimal (if is_digit c then 10 * n + digit_value c else n) s
  end.

Fixpoint ndigits (s : string) : nat :=
  match s with
  | EmptyString => O
  | String c s => if is_digit c then Datatypes.S (ndigits s) else ndigits s
  end.

(** [instant s]: the instant that the timestamp [s] names, as the number
    [YYYYMMDDHHMMSSffffff]: of two instants the later has the greater
    number. *)
Definition instant (s : string) : option Z :=
  if shape whole_seconds s then Some (decimal 0 s * 1000000)
  else if shape microseconds s then Some (decimal 0 s)
  else None.

(** ** Files *)

(** An element found by [root.find]; [text] is [None] for an empty element. *)
Record element : Type := mk_element { text : option string }.

(** What the scripts look at in a parsed report: the first
    [application-name] and the first [asoc-scan-name] element, if any. *)
Record document : Type := mk_document {
  application_name : option element;
  asoc_scan_name : option element
}.

(** What [ET.parse(path)] does.  On a file that opens the parser raises
    [ET.ParseError] when the text is not well-formed, and it can raise an
    exception of another class: a [LookupError] when the XML declaration
    names an encoding that Python does not know. *)
Inductive parsed : Type :=
| Unreadable (detail : string)        (* raises OSError *)
| NotWellFormed (detail : string)     (* raises ET.ParseError *)
| Raising (e : exn)                   (* the file opens, the parser raises e *)
| Tree (root : document).

Definition ini : Type := list (string * list (string * string)).

Record filesystem : Type := mk_filesystem {
  settings_ini : option ini;                  (* None: no such file *)
  listdir : string -> option (list string);   (* None: no such directory *)
  ET_parse : string -> parsed
}.

(** [open(path, 'rb')]: the file opens unless the path cannot be read, the
    case in which [ET.parse] raises its [OSError]. *)
Definition opens (fs : filesystem) (path : string) : bool :=
  match ET_parse fs path with
  | Unreadable _ => false
  | _ => true
  end.

Definition open_rb {S} (fs : filesystem) (path : string) : M S unit :=
  match ET_parse fs path with
  | Unreadable detail => raise OSError (External detail)
  | _ => ret tt
  end.

Definition base_url : string := "http://127.0.0.1:8080".

Definition scan_type_name : string := "HCL AppScan on Cloud SAST XML".

(** ** defect_dojo_reimporter_v1.2.py *)

Module Reimporter.
Section Script.

Variable S : Type.
Variable serve : list (string * string) -> request -> S -> result response * S.
Variable fs : filesystem.

Local Abbreviation M := (M S).

(** *** class DefectDojoImporter *)

(** [response.status_code == 200 and response.json()['results']]: the
    results when the status is 200 (decoding the body may raise), and the
    falsy [[]] otherwise, the body not being looked at. *)
Definition ok_results (response : response) : M (list obj) :=
  if status_code response =? 200 then json_results response else ret [].

Definition get_auth_token (username password : string) : M string :=
  let url := base_url ++ "/api/v2/api-token-auth/" in
  let data := [("username", Str username); ("password", Str password)] in
  response <- session_post serve url data [];;
  if status_code response =? 200 then
    o <- json_object response "token";;
    let token := token o in
    write_file "auth_token.json" token;;
    ret token
  else
    raise Exception_ (AuthenticationFailed (status_code response) (content response)).

Definition set_auth_token (token : string) : M unit :=
  fun w => (Return tt,
            mk_world (server w) (update "Authorization" ("Token " ++ token) (headers w))
                     (sent w) (stdout w) (written w)).

Definition get_product_type_id (product_type_name : string) : M Z :=
  let url := base_url ++ "/api/v2/product_types/" in
  let params := [("name", Str product_type_name)] in
  response <- session_get serve url params;;
  results <- ok_results response;;
  match results with
  | first :: _ => ret (id first)
  | [] => raise Exception_ (ProductTypeNotFound product_type_name)
  end.

Definition product_description : string := "Automatically created by import script".

Definition get_product_id (product_type_name product_name : string) : M Z :=
  prod_type_id <- get_product_type_id product_type_name;;
  let url := base_url ++ "/api/v2/products/" in
  let params := [("name", Str product_name)] in
  response <- session_get serve url params;;
  results <- ok_results response;;
  match find (fun product => prod_type product =? prod_type_id) results with
  | Some product => ret (id product)
  | None =>
      let data := [("name", Str product_name);
                   ("prod_type", Int prod_type_id);
                   ("description", Str product_description)] in
      response <- session_post serve url data [];;
      if status_code response =? 201 then
        o <- json_object response "id";;
        ret (id o)
      else
        raise Exception_
              (FailedToCreateFindProduct (status_code response) (content response))
  end.

Definition get_engagement_id (product_id : Z) (engagement_name : string)
  : M (option Z) :=
  let url := base_url ++ "/api/v2/engagements/" in
  let params := [("product", Int product_id); ("name", Str engagement_name)] in
  response <- session_get serve url params;;
  results <- ok_results response;;
  match results with
  | first :: _ => ret (Some (id first))
  | [] => ret None
  end.

Definition get_latest_test_id (engagement_id : Z) (scan_type : string)
  : M (option Z) :=
  let url := base_url ++ "/api/v2/tests/" in
  let params := [("engagement", Int engagement_id); ("test_type_name", Str scan_type)] in
  response <- session_get serve url params;;
  results <- ok_results response;;
  match results with
  | _ :: _ =>
      match sorted_by_updated_reverse results with
      | first :: _ => ret (Some (id first))
      | [] => raise Exception_ (External "IndexError")
      end
  | [] => ret None
  end.

Definition import_data (product_type_name product_name engagement_name : string)
  : form :=
  [("scan_type", Str scan_type_name);
   ("product_type_name", Str product_type_name);
   ("product_name", Str product_name);
   ("engagement_name", Str engagement_name);
   ("auto_create_context", Str "true");
   ("deduplication_on_engagement", Str "false");
   ("close_old_findings", Str "false")].

Definition import_scan
  (xml_file_path product_type_name product_name engagement_name : string) : M unit :=
  let url := base_url ++ "/api/v2/import-scan/" in
  let data := import_data product_type_name product_name engagement_name in
  open_rb fs xml_file_path;;
  let files := [("file", xml_file_path)] in
  response <- session_post serve url data files;;
  if status_code response =? 201 then
    print (SuccessfullyImported xml_file_path)
  else
    print (FailedToImport xml_file_path (status_code response) (content response)).

Definition reimport_data (test_id : Z)
  (product_type_name product_name engagement_name : string) : form :=
  [("scan_type", Str scan_type_name);
   ("product_type_name", Str product_type_name);
   ("product_name", Str product_name);
   ("engagement_name", Str engagement_name);
   ("test", Int test_id);
   ("auto_create_context", Str "true");
   ("deduplication_on_engagement", Str "false");
   ("close_old_findings", Str "false");
   ("do_not_reactivate", Str "true")].

Definition reimport_scan (xml_file_path : string) (test_id : Z)
  (product_type_name product_name engagement_name : string) : M unit :=
  let url := base_url ++ "/api/v2/reimport-scan/" in
  let data := reimport_data test_id product_type_name product_name engagement_name in
  open_rb fs xml_file_path;;
  let files := [("file", xml_file_path)] in
  response <- session_post serve url data files;;
  if status_code response =? 201 then
    print (SuccessfullyReimported xml_file_path test_id)
  else
    print (FailedToReimport xml_file_path (status_code response) (content response)).

(** *** extract_xml_data *)

Definition extract_xml_data (xml_file_path : string) : M (string * string) :=
  try_
    (root <- match ET_parse fs xml_file_path with
             | Unreadable detail => raise OSError (External detail)
             | NotWellFormed detail => raise ParseError (External detail)
             | Raising e => raise (class_of e) (str e)
             | Tree root => ret root
             end;;
     let product_name :=
       match application_name root with Some el => text el | None => None end in
     let engagement_name :=
       match asoc_scan_name root with Some el => text el | None => None end in
     if falsy_text product_name then
       raise ValueError (CouldNotFind "application-name" xml_file_path)
     else if falsy_text engagement_name then
       raise ValueError (CouldNotFind "asoc-scan-name" xml_file_path)
     else ret (text_of product_name, text_of engagement_name))
    [(ParseError, fun e => raise ValueError (FailedToParse xml_file_path (str e)))].

(** *** main *)

(** [config[section][key]] *)
Definition config_get (config : ini) (section key : string) : M string :=
  match assoc section config with
  | None => raise KeyError (MissingKey section)
  | Some keys =>
      match assoc key keys with
      | None => raise KeyError (MissingKey key)
      | Some v => ret v
      end
  end.

(** Lines 200-214: the engagement is looked up, then the test, and the
    report is imported or reimported. *)
Definition main_dispatch
  (xml_file_path product_type_name product_name engagement_name : string)
  (product_id : Z) : M unit :=
  engagement_id <- get_engagement_id product_id engagement_name;;
  if_truthy engagement_id
    (fun engagement_id =>
       test_id <- get_latest_test_id engagement_id scan_type_name;;
       if_truthy test_id
         (fun test_id =>
            reimport_scan xml_file_path test_id
                          product_type_name product_name engagement_name)
         (import_scan xml_file_path product_type_name product_name engagement_name))
    (import_scan xml_file_path product_type_name product_name engagement_name).

(** Lines 193-214: the body of the [try] of the loop. *)
Definition main_process
  (reports_dir product_type_name xml_file : string) : M unit :=
  let xml_file_path := os_path_join reports_dir xml_file in
  names <- extract_xml_data xml_file_path;;
  let (product_name, engagement_name) := names in
  print (Processing xml_file product_name engagement_name);;
  product_id <- get_product_id product_type_name product_name;;
  main_dispatch xml_file_path product_type_name product_name engagement_name
                product_id.

(** Lines 190-220: one turn of the loop. *)
Definition main_iteration (reports_dir product_type_name xml_file : string) : M unit :=
  try_ (main_process reports_dir product_type_name xml_file)
       [(ValueError, fun e => print (ErrorProcessing xml_file (str e)));
        (Exception_, fun e => print (UnexpectedErrorProcessing xml_file (str e)))].

(** Lines 159-172: the API key of the settings, or else a token obtained
    with the user name and password. *)
Definition main_authenticate (config : ini) : M unit :=
  try_
    (api_key <- config_get config "credentials" "api_key";;
     write_file "auth_token.json" api_key;;
     set_auth_token api_key)
    [(KeyError, fun _ =>
        try_
          (username <- config_get config "credentials" "username";;
           password <- config_get config "credentials" "password";;
           token <- get_auth_token username password;;
           set_auth_token token)
          [(KeyError, fun _ => raise KeyError MissingCredentials)])].

Definition main : M unit :=
  match settings_ini fs with
  | None => raise FileNotFoundError SettingsNotFound
  | Some config =>
      main_authenticate config;;
      product_type_name <-
        try_ (config_get config "configuration" "product_type_name")
             [(KeyError, fun _ => raise KeyError MissingProductTypeName)];;
      let reports_dir := "asoc_sast_reports" in
      match listdir fs reports_dir with
      | None => raise FileNotFoundError (DirectoryNotFound reports_dir)
      | Some entries =>
          let xml_files := filter (fun f => endswith f ".xml") entries in
          match xml_files with
          | [] => print (NoXmlFilesFound reports_dir)
          | _ :: _ => for_ xml_files (main_iteration reports_dir product_type_name)
          end
      end
  end.

(** The [if __name__ == '__main__'] block. *)
Definition script : M unit :=
  try_ main [(Exception_, fun e => print (AnErrorOccurred (str e)))].

End Script.

Arguments ok_results {S}.
Arguments get_auth_token {S}.
Arguments set_auth_token {S}.
Arguments get_product_type_id {S}.
Arguments get_product_id {S}.
Arguments get_engagement_id {S}.
Arguments get_latest_test_id {S}.
Arguments import_scan {S}.
Arguments reimport_scan {S}.
Arguments extract_xml_data {S}.
Arguments config_get {S}.
Arguments main_dispatch {S}.
Arguments main_authenticate {S}.
Arguments main_process {S}.
Arguments main_iteration {S}.
Arguments main {S}.
Arguments script {S}.

End Reimporter.

(** ** Running a script *)

(** The exit status of the interpreter: 0 when the script runs to its end,
    1 when an exception reaches the top level. *)
Definition exit_status {S} (script : M S unit) (w : world S) : Z :=
  match fst (script w) with
  | Return _ => 0
  | Raise _ => 1
  end.

(** ** defect_dojo_importer-reimporter/defect_dojo_importer.py *)

Module Importer.
Section Script.

Variable S : Type.
Variable serve : list (string * string) -> request -> S -> result response * S.
Variable fs : filesystem.

Local Abbreviation M := (M S).

(** *** class DefectDojoImporter *)

Definition get_auth_token (username password : string) : M string :=
  let url := base_url ++ "/api/v2/api-token-auth/" in
  let data := [("username", Str username); ("password", Str password)] in
  response <- session_post serve url data [];;
  if status_code response =? 200 then
    o <- json_object response "token";;
    let token := token o in
    write_file "auth_token.json" token;;
    ret token
  else
    raise Exception_ (AuthenticationFailed (status_code response) (content response)).

Definition set_auth_token (token : string) : M unit :=
  fun w => (Return tt,
            mk_world (server w) (update "Authorization" ("Token " ++ token) (headers w))
                     (sent w) (stdout w) (written w)).

Definition import_data (product_type_name product_name engagement_name : string)
  : form :=
  [("scan_type", Str scan_type_name);
   ("product_type_name", Str product_type_name);
   ("product_name", Str product_name);
   ("engagement_name", Str engagement_name);
   ("auto_create_context", Str "true");
   ("deduplication_on_engagement", Str "true");
   ("close_old_findings", Str "true")].

Definition import_scan
  (xml_file_path product_type_name product_name engagement_name : string) : M unit :=
  let url := base_url ++ "/api/v2/import-scan/" in
  let data := import_data product_type_name product_name engagement_name in
  open_rb fs xml_file_path;;
  let files := [("file", xml_file_path)] in
  response <- session_post serve url data files;;
  if status_code response =? 201 then
    print (SuccessfullyImported xml_file_path)
  else
    print (FailedToImport xml_file_path (status_code response) (content response)).

(** *** extract_xml_data *)

Definition extract_xml_data (xml_file_path : string) : M (string * string) :=
  try_
    (root <- match ET_parse fs xml_file_path with
             | Unreadable detail => raise OSError (External detail)
             | NotWellFormed detail => raise ParseError (External detail)
             | Raising e => raise (class_of e) (str e)
             | Tree root => ret root
             end;;
     let product_name :=
       match application_name root with Some el => text el | None => None end in
     let engagement_name :=
       match asoc_scan_name root with Some el => text el | None => None end in
     if falsy_text product_name then
       raise ValueError (CouldNotFind "application-name" xml_file_path)
     else if falsy_text engagement_name then
       raise ValueError (CouldNotFind "asoc-scan-name" xml_file_path)
     else ret (text_of product_name, text_of engagement_name))
    [(ParseError, fun e => raise ValueError (FailedToParse xml_file_path (str e)))].

(** *** main *)

Definition config_get (config : ini) (section key : string) : M string :=
  match assoc section config with
  | None => raise KeyError (MissingKey section)
  | Some keys =>
      match assoc key keys with
      | None => raise KeyError (MissingKey key)
      | Some v => ret v
      end
  end.

(** Lines 123-126: the body of the [try] of the loop. *)
Definition main_process
  (reports_dir product_type_name xml_file : string) : M unit :=
  let xml_file_path := os_path_join reports_dir xml_file in
  names <- extract_xml_data xml_file_path;;
  let (product_name, engagement_name) := names in
  print (Importing xml_file product_name engagement_name);;
  import_scan xml_file_path product_type_name product_name engagement_name.

(** Lines 120-129: one turn of the loop; [ValueError] is the only class
    caught. *)
Definition main_iteration (reports_dir product_type_name xml_file : string) : M unit :=
  try_ (main_process reports_dir product_type_name xml_file)
       [(ValueError, fun e => print (ErrorProcessing xml_file (str e)))].

(** Lines 89-102: the API key of the settings, or else a token obtained
    with the user name and password. *)
Definition main_authenticate (config : ini) : M unit :=
  try_
    (api_key <- config_get config "credentials" "api_key";;
     write_file "auth_token.json" api_key;;
     set_auth_token api_key)
    [(KeyError, fun _ =>
        try_
          (username <- config_get config "credentials" "username";;
           password <- config_get config "credentials" "password";;
           token <- get_auth_token username password;;
           set_auth_token token)
          [(KeyError, fun _ => raise KeyError MissingCredentials)])].

Definition main : M unit :=
  match settings_ini fs with
  | None => raise FileNotFoundError SettingsNotFound
  | Some config =>
      main_authenticate config;;
      product_type_name <-
        try_ (config_get config "configuration" "product_type_name")
             [(KeyError, fun _ => raise KeyError MissingProductTypeName)];;
      let reports_dir := "asoc_sast_reports" in
      match listdir fs reports_dir with
      | None => raise FileNotFoundError (DirectoryNotFound reports_dir)
      | Some entries =>
          let xml_files := filter (fun f => endswith f ".xml") entries in
          match xml_files with
          | [] => print (NoXmlFilesFound reports_dir)
          | _ :: _ => for_ xml_files (main_iteration reports_dir product_type_name)
          end
      end
  end.

Definition script : M unit :=
  try_ main [(Exception_, fun e => print (AnErrorOccurred (str e)))].

End Script.

Arguments get_auth_token {S}.
Arguments set_auth_token {S}.
Arguments import_scan {S}.
Arguments extract_xml_data {S}.
Arguments config_get {S}.
Arguments main_authenticate {S}.
Arguments main_process {S}.
Arguments main_iteration {S}.
Arguments main {S}.
Arguments script {S}.

End Importer.

(** ** Servers *)

Definition world0 {S} (s : S) : world S := mk_world s [] [] [] [].

(** *** A server with fixed answers

    Each route gives the answer to a method ([true] for POST) and a URL;
    the first matching route answers, and 404 is the answer to anything
    else. *)
Module Canned.

Definition route : Type := (bool * string * result response)%type.

Definition is_post (r : request) : bool :=
  match r with GET _ _ => false | POST _ _ _ => true end.

Definition url_of (r : request) : string :=
  match r with GET u _ => u | POST u _ _ => u end.

Fixpoint answer (routes : list route) (r : request) : result response :=
  match routes with
  | [] => Return (mk_response 404 "Not Found" None)
  | (post, url, a) :: rest =>
      if Bool.eqb post (is_post r) && String.eqb url (url_of r) then a
      else answer rest r
  end.

Definition serve (routes : list route)
  : list (string * string) -> request -> unit -> result response * unit :=
  fun _ r s => (answer routes r, s).

Definition page (status : Z) (results : list obj) : result response :=
  Return (mk_response status "" (Some (Page results))).

Definition object (status : Z) (o : obj) : result response :=
  Return (mk_response status "" (Some (Object o))).

Definition error (status : Z) (content : string) : result response :=
  Return (mk_response status content None).

End Canned.

(** *** A server that stores what it is given

    The reference backend: named product types, products, engagements and
    tests.  A search answers 200 with the stored objects that match the
    filter, in the order they were stored; creating a product stores it
    under the next free identity and answers 201 with it.  Uploads are
    answered 201; what they add to the store is left out. *)
Module Dojo.

Record store : Type := mk_store {
  product_types : list (string * obj);          (* name, object *)
  products : list (string * obj);               (* name, object *)
  engagements : list (Z * string * obj);        (* product, name, object *)
  tests : list (Z * string * obj);              (* engagement, test type, object *)
  next_id : Z
}.

Definition named (name : string) (l : list (string * obj)) : list obj :=
  map snd (filter (fun e => String.eqb (fst e) name) l).

Definition under (parent : Z) (name : string) (l : list (Z * string * obj)) : list obj :=
  map snd
      (filter (fun e => Z.eqb (fst (fst e)) parent && String.eqb (snd (fst e)) name) l).

Definition ok (results : list obj) : result response :=
  Return (mk_response 200 "" (Some (Page results))).

Definition bad_request : result response :=
  Return (mk_response 400 "Bad Request" None).

Definition not_found : result response :=
  Return (mk_response 404 "Not Found" None).

Definition add_product (st : store) (name : string) (o : obj) : store :=
  mk_store (product_types st) (products st ++ [(name, o)])
           (engagements st) (tests st) (next_id st + 1).

Definition serve (_ : list (string * string)) (r : request) (st : store)
  : result response * store :=
  match r with
  | GET url params =>
      if String.eqb url (base_url ++ "/api/v2/product_types/") then
        match lookup "name" params with
        | Some (Str n) => (ok (named n (product_types st)), st)
        | _ => (bad_request, st)
        end
      else if String.eqb url (base_url ++ "/api/v2/products/") then
        match lookup "name" params with
        | Some (Str n) => (ok (named n (products st)), st)
        | _ => (bad_request, st)
        end
      else if String.eqb url (base_url ++ "/api/v2/engagements/") then
        match lookup "product" params, lookup "name" params with
        | Some (Int p), Some (Str n) => (ok (under p n (engagements st)), st)
        | _, _ => (bad_request, st)
        end
      else if String.eqb url (base_url ++ "/api/v2/tests/") then
        match lookup "engagement" params, lookup "test_type_name" params with
        | Some (Int e), Some (Str n) => (ok (under e n (tests st)), st)
        | _, _ => (bad_request, st)
        end
      else (not_found, st)
  | POST url data files =>
      if String.eqb url (base_url ++ "/api/v2/products/") then
        match lookup "name" data, lookup "prod_type" data with
        | Some (Str n), Some (Int t) =>
            let o := mk_obj (next_id st) t "" "" in
            (Return (mk_response 201 "" (Some (Object o))), add_product st n o)
        | _, _ => (bad_request, st)
        end
      else if String.eqb url (base_url ++ "/api/v2/import-scan/") then
        (Return (mk_response 201 "" None), st)
      else if String.eqb url (base_url ++ "/api/v2/reimport-scan/") then
        (Return (mk_response 201 "" None), st)
      else (not_found, st)
  end.

End Dojo.

(** ** The requests of the scripts, by name *)

Definition product_types_search (name : string) : request :=
  GET (base_url ++ "/api/v2/product_types/") [("name", Str name)].

Definition products_search (name : string) : request :=
  GET (base_url ++ "/api/v2/products/") [("name", Str name)].

Definition products_create (name : string) (prod_type_id : Z) : request :=
  POST (base_url ++ "/api/v2/products/")
       [("name", Str name); ("prod_type", Int prod_type_id);
        ("description", Str Reimporter.product_description)] [].

Definition engagements_search (product_id : Z) (name : string) : request :=
  GET (base_url ++ "/api/v2/engagements/") [("product", Int product_id); ("name", Str name)].

Definition tests_search (engagement_id : Z) (scan_type : string) : request :=
  GET (base_url ++ "/api/v2/tests/")
      [("engagement", Int engagement_id); ("test_type_name", Str scan_type)].

Definition import_upload (xml_file_path : string) (data : form) : request :=
  POST (base_url ++ "/api/v2/import-scan/") data [("file", xml_file_path)].

Definition reimport_upload (xml_file_path : string) (data : form) : request :=
  POST (base_url ++ "/api/v2/reimport-scan/") data [("file", xml_file_path)].

Definition token_exchange (username password : string) : request :=
  POST (base_url ++ "/api/v2/api-token-auth/")
       [("username", Str username); ("password", Str password)] [].

Definition is_POST (r : request) : bool :=
  match r with POST _ _ _ => true | GET _ _ => false end.

(** The world after the server has answered [r] and moved to [s']. *)
Definition answered {S} (w : world S) (r : request) (s' : S) : world S :=
  mk_world s' (headers w) (sent w ++ [r]) (stdout w) (written w).

(** The world after [l] has been printed. *)
Definition printed {S} (w : world S) (l : line) : world S :=
  mk_world (server w) (headers w) (sent w) (stdout w ++ [l]) (written w).

(** ** The fatal conditions of the start

    [setting config section key] is the value of a key of the settings, if
    the section and the key are there.  [fatal_startup serve fs w reason]:
    from the world [w], the start of a script fails for [reason].  The
    settings file is missing; the credentials have no API key and lack the
    user name or the password; the token exchange is answered by another
    status than 200; the product-type name is missing; the directory of the
    reports is missing. *)
Definition setting (config : ini) (section key : string) : option string :=
  match assoc section config with
  | None => None
  | Some keys => assoc key keys
  end.

Inductive fatal_startup {S : Type}
          (serve : list (string * string) -> request -> S -> result response * S)
          (fs : filesystem) (w : world S) : message -> Prop :=
| no_settings :
    settings_ini fs = None ->
    fatal_startup serve fs w SettingsNotFound
| no_credentials config :
    settings_ini fs = Some config ->
    setting config "credentials" "api_key" = None ->
    setting config "credentials" "username" = None
    \/ setting config "credentials" "password" = None ->
    fatal_startup serve fs w MissingCredentials
| token_refused config username password r s' :
    settings_ini fs = Some config ->
    setting config "credentials" "api_key" = None ->
    setting config "credentials" "username" = Some username ->
    setting config "credentials" "password" = Some password ->
    serve (headers w) (token_exchange username password) (server w) = (Return r, s') ->
    status_code r <> 200 ->
    fatal_startup serve fs w (AuthenticationFailed (status_code r) (content r))
| no_product_type_name config w1 :
    settings_ini fs = Some config ->
    Reimporter.main_authenticate serve config w = (Return tt, w1) ->
    setting config "configuration" "product_type_name" = None ->
    fatal_startup serve fs w MissingProductTypeName
| no_reports_dir config w1 product_type_name :
    settings_ini fs = Some config ->
    Reimporter.main_authenticate serve config w = (Return tt, w1) ->
    setting config "configuration" "product_type_name" = Some product_type_name ->
    listdir fs "asoc_sast_reports" = None ->
    fatal_startup serve fs w (DirectoryNotFound "asoc_sast_reports").

(** ** A backend that answers the searches

    [product_types_named] and [products_named] give, for a state of the
    server, the product types and the products stored under a name.
    [answers_searches]: a search of either kind answers 200 with these
    objects and leaves the state as it is.  [lists_created]: when the
    creation of a product is answered 201 with the product, the product has
    the requested product type and is listed among the products of its
    name from then on, the other products and the product types being
    listed as before. *)
Definition answers_searches {S : Type}
           (serve : list (string * string) -> request -> S -> result response * S)
           (product_types_named products_named : string -> S -> list obj) : Prop :=
  forall h name st,
    (exists r, serve h (product_types_search name) st = (Return r, st) /\
               status_code r = 200 /\
               body r = Some (Page (product_types_named name st))) /\
    (exists r, serve h (products_search name) st = (Return r, st) /\
               status_code r = 200 /\
               body r = Some (Page (products_named name st))).

Definition lists_created {S : Type}
           (serve : list (string * string) -> request -> S -> result response * S)
           (product_types_named products_named : string -> S -> list obj) : Prop :=
  forall h name prod_type_id st r st' o,
    serve h (products_create name prod_type_id) st = (Return r, st') ->
    status_code r = 201 ->
    body r = Some (Object o) ->
    prod_type o = prod_type_id /\
    (forall n, product_types_named n st' = product_types_named n st) /\
    exists before after,
      products_named name st = (before ++ after)%list /\
      products_named name st' = (before ++ o :: after)%list.

(** ** Scenarios

    The data of the examples: the report of the specification
    ([PayGateway], [Nightly-SAST]) and servers with fixed answers for the
    rows of the decision table. *)
Module Scenario.

Definition url (path : string) : string := base_url ++ path.

Definition product_type : obj := mk_obj 3 0 "" "".
Definition product : obj := mk_obj 7 3 "" "".
Definition engagement : obj := mk_obj 5 0 "" "".
Definition test_T0 : obj := mk_obj 11 0 "2025-03-01T09:00:00Z" "".
Definition test_T1 : obj := mk_obj 12 0 "2025-03-02T09:00:00Z" "".

(** A test updated half a second after [test_T0]. *)
Definition test_T0_500ms : obj := mk_obj 13 0 "2025-03-01T09:00:00.500000Z" "".

Definition created : result response := Return (mk_response 201 "" None).

Definition resolved : list Canned.route :=
  [(false, url "/api/v2/product_types/", Canned.page 200 [product_type]);
   (false, url "/api/v2/products/", Canned.page 200 [product]);
   (true, url "/api/v2/import-scan/", created);
   (true, url "/api/v2/reimport-scan/", created)].

(** No engagement of that name. *)
Definition no_engagement : list Canned.route :=
  (false, url "/api/v2/engagements/", Canned.page 200 []) :: resolved.

(** The engagement exists, without a test of the scan type. *)
Definition no_test : list Canned.route :=
  (false, url "/api/v2/engagements/", Canned.page 200 [engagement])
    :: (false, url "/api/v2/tests/", Canned.page 200 []) :: resolved.

(** The engagement exists with two tests, updated at T0 and at T1 > T0. *)
Definition two_tests : list Canned.route :=
  (false, url "/api/v2/engagements/", Canned.page 200 [engagement])
    :: (false, url "/api/v2/tests/", Canned.page 200 [test_T0; test_T1]) :: resolved.

(** The engagement exists with the tests of the page [tests]. *)
Definition with_tests (tests : list obj) : list Canned.route :=
  (false, url "/api/v2/engagements/", Canned.page 200 [engagement])
    :: (false, url "/api/v2/tests/", Canned.page 200 tests) :: resolved.

(** The engagement exists with one test, whose identity is 0. *)
Definition test_zero : list Canned.route :=
  (false, url "/api/v2/engagements/", Canned.page 200 [engagement])
    :: (false, url "/api/v2/tests/",
        Canned.page 200 [mk_obj 0 0 "2025-03-01T09:00:00Z" ""]) :: resolved.

(** A product of the name exists under another product type (4, where
    the product type of the run is 3); creating a product answers 201. *)
Definition other_product_type : list Canned.route :=
  [(false, url "/api/v2/product_types/", Canned.page 200 [product_type]);
   (false, url "/api/v2/products/", Canned.page 200 [mk_obj 8 4 "" ""]);
   (true, url "/api/v2/products/", Canned.object 201 (mk_obj 9 3 "" ""))].

Definition reports_dir : string := "asoc_sast_reports".
Definition xml_file : string := "nightly.xml".
Definition xml_file_path : string := os_path_join reports_dir xml_file.

Definition report : document :=
  mk_document (Some (mk_element (Some "PayGateway")))
              (Some (mk_element (Some "Nightly-SAST"))).

(** The uploads are refused. *)
Definition refusing : list Canned.route :=
  [(true, url "/api/v2/import-scan/", Canned.error 400 "invalid scan");
   (true, url "/api/v2/reimport-scan/", Canned.error 400 "invalid scan")].

(** A store with the product type of the run and no product. *)
Definition store : Dojo.store :=
  Dojo.mk_store [("Security", product_type)] [] [] [] 100.

Definition settings : ini :=
  [("credentials", [("api_key", "0123456789abcdef")]);
   ("configuration", [("product_type_name", "Security")])].

(** The product type of the settings does not exist on the server. *)
Definition no_product_type : list Canned.route :=
  [(false, url "/api/v2/product_types/", Canned.page 200 [])].

(** Everything resolves, there is no engagement, and the import endpoint
    cannot be reached. *)
Definition unreachable_import : list Canned.route :=
  (true, url "/api/v2/import-scan/",
   Raise (mk_exn ConnectionError (External "Connection refused")))
    :: no_engagement.

(** The engagement search answers an error. *)
Definition engagement_search_failing : list Canned.route :=
  (false, url "/api/v2/engagements/", Canned.error 500 "Internal Server Error")
    :: resolved.

(** The engagement is found, with two tests; the test search answers an
    error. *)
Definition test_search_failing : list Canned.route :=
  (false, url "/api/v2/engagements/", Canned.page 200 [engagement])
    :: (false, url "/api/v2/tests/", Canned.error 503 "Service Unavailable")
    :: resolved.

(** A directory with, in this order, a report that is not well-formed
    XML, a path that cannot be read (a directory named like a report),
    the report of the specification, a second report of the same names,
    and a file that is not a report. *)
Definition parse (path : string) : parsed :=
  if String.eqb path (os_path_join reports_dir "malformed.xml") then
    NotWellFormed "syntax error: line 1, column 0"
  else if String.eqb path (os_path_join reports_dir "folder.xml") then
    Unreadable "[Errno 21] Is a directory"
  else if String.eqb path (os_path_join reports_dir "nightly.xml") then Tree report
  else if String.eqb path (os_path_join reports_dir "weekly.xml") then Tree report
  else Unreadable "[Errno 2] No such file or directory".

Definition directory (entries : list string) : filesystem :=
  mk_filesystem (Some settings)
                (fun dir => if String.eqb dir reports_dir then Some entries else None)
                parse.

(** File systems for the fatal conditions: no settings file, settings
    without credentials, settings with a user name and a password, no
    directory of reports. *)
Definition no_settings : filesystem :=
  mk_filesystem None
                (fun dir => if String.eqb dir reports_dir then Some ["nightly.xml"]
                            else None)
                parse.

Definition no_credentials : filesystem :=
  mk_filesystem (Some [("credentials", [("username", "importer")]);
                       ("configuration", [("product_type_name", "Security")])])
                (fun dir => if String.eqb dir reports_dir then Some ["nightly.xml"]
                            else None)
                parse.

Definition password_settings : ini :=
  [("credentials", [("username", "importer"); ("password", "wrong")]);
   ("configuration", [("product_type_name", "Security")])].

Definition with_password : filesystem :=
  mk_filesystem (Some password_settings)
                (fun dir => if String.eqb dir reports_dir then Some ["nightly.xml"]
                            else None)
                parse.

Definition no_directory : filesystem :=
  mk_filesystem (Some settings) (fun _ => None) parse.

(** The token exchange is refused; everything else is as in
    [no_engagement]. *)
Definition token_refusing : list Canned.route :=
  (true, url "/api/v2/api-token-auth/",
   Canned.error 400 "Unable to log in with provided credentials.")
    :: no_engagement.

(** The report of the directory declares an encoding that Python does not
    know: the file opens and the parser raises a [LookupError]. *)
Definition unknown_encoding : filesystem :=
  mk_filesystem (Some settings)
                (fun dir => if String.eqb dir reports_dir then Some ["nightly.xml"]
                            else None)
                (fun path =>
                   if String.eqb path xml_file_path
                   then Raising (mk_exn LookupError (External "unknown encoding: klingon"))
                   else parse path).

End Scenario.

(** *** A server whose product search fails

    The product type is found, the product search answers 500, and a
    product is created under the next identity at every request for it.
    The state is that next identity. *)
Module Failing.

Definition serve (_ : list (string * string)) (r : request) (next : Z)
  : result response * Z :=
  match r with
  | GET url _ =>
      if String.eqb url (base_url ++ "/api/v2/product_types/") then
        (Canned.page 200 [Scenario.product_type], next)
      else (Canned.error 500 "Internal Server Error", next)
  | POST url _ _ =>
      if String.eqb url (base_url ++ "/api/v2/products/") then
        (Canned.object 201 (mk_obj next 3 "" ""), next + 1)
      else (Canned.error 404 "Not Found", next)
  end.

End Failing.

(** ** What a computation does to the world

    [frames R m]: the world [m] leaves is related by [R] to the world it is
    run in.  Two relations are of use.  [extends_by P]: requests that all
    satisfy [P] have been sent, lines may have been printed, and what was
    sent and printed before is still there.  [same_session]: the headers of
    the session and the files written are as they were. *)
Definition frames {S A : Type} (R : world S -> world S -> Prop) (m : M S A) : Prop :=
  forall w, R w (snd (m w)).

Definition extends_by {S : Type} (P : request -> Prop) (w w' : world S) : Prop :=
  exists requests lines,
    sent w' = (sent w ++ requests)%list /\ Forall P requests /\
    stdout w' = (stdout w ++ lines)%list.

Definition same_session {S : Type} (w w' : world S) : Prop :=
  headers w' = headers w /\ written w' = written w.

(** The requests of the full script, and those of the import-only script. *)
Inductive full_script_request : request -> Prop :=
| full_token_exchange username password :
    full_script_request (token_exchange username password)
| full_product_types_search name :
    full_script_request (product_types_search name)
| full_products_search name :
    full_script_request (products_search name)
| full_products_create name prod_type_id :
    full_script_request (products_create name prod_type_id)
| full_engagements_search product_id name :
    full_script_request (engagements_search product_id name)
| full_tests_search engagement_id scan_type :
    full_script_request (tests_search engagement_id scan_type)
| full_import_upload path ptn pn en :
    full_script_request (import_upload path (Reimporter.import_data ptn pn en))
| full_reimport_upload path test_id ptn pn en :
    full_script_request
      (reimport_upload path (Reimporter.reimport_data test_id ptn pn en)).

Inductive simple_script_request : request -> Prop :=
| simple_token_exchange username password :
    simple_script_request (token_exchange username password)
| simple_import_upload path ptn pn en :
    simple_script_request (import_upload path (Importer.import_data ptn pn en)).

(** [names_file xml_file l]: the printed line [l] is about [xml_file]. *)
Definition names_file (xml_file : string) (l : line) : bool :=
  match l with
  | Processing f _ _ | Importing f _ _
  | ErrorProcessing f _ | UnexpectedErrorProcessing f _ => String.eqb f xml_file
  | _ => false
  end.

(** The file system with the entries of the directory of the reports
    replaced. *)
Definition with_entries (fs : filesystem) (entries : list string) : filesystem :=
  mk_filesystem (settings_ini fs)
                (fun dir => if String.eqb dir "asoc_sast_reports" then Some entries
                            else listdir fs dir)
                (ET_parse fs).

(** * Properties *)

(** ** Exceptions and strings *)

Lemma ascii_compare_refl (a : ascii) : Ascii.compare a a = Eq.
Proof. unfold Ascii.compare. apply N.compare_refl. Qed.

Lemma string_leb_refl (a : string) : String.leb a a = true.
Proof.
  unfold String.leb.
  assert (H : String.compare a a = Eq).
  { induction a as [|x a IH]; simpl; [reflexivity|].
    rewrite ascii_compare_refl. exact IH. }
  rewrite H. reflexivity.
Qed.

Lemma string_compare_le_trans (a b c : string) :
  String.compare a b <> Gt -> String.compare b c <> Gt -> String.compare a c <> Gt.
Proof.
  revert b c; induction a as [|x a IH]; intros [|y b] [|z c]; simpl; try congruence.
  unfold Ascii.compare.
  destruct (N.compare_spec (N_of_ascii x) (N_of_ascii y)) as [Exy|Lxy|Gxy];
    destruct (N.compare_spec (N_of_ascii y) (N_of_ascii z)) as [Eyz|Lyz|Gyz];
    destruct (N.compare_spec (N_of_ascii x) (N_of_ascii z)) as [Exz|Lxz|Gxz];
    try congruence; try lia.
  apply IH.
Qed.

Lemma string_leb_trans (a b c : string) :
  String.leb a b = true -> String.leb b c = true -> String.leb a c = true.
Proof.
  unfold String.leb; intros Hab Hbc.
  assert (Hac : String.compare a c <> Gt).
  { apply string_compare_le_trans with b.
    - destruct (String.compare a b); congruence.
    - destruct (String.compare b c); congruence. }
  destruct (String.compare a c); congruence.
Qed.

Lemma string_ltb_leb (a b : string) : String.ltb a b = true -> String.leb a b = true.
Proof. unfold String.ltb, String.leb; destruct (String.compare a b); congruence. Qed.

Lemma string_not_ltb_leb (a b : string) : String.ltb a b = false -> String.leb b a = true.
Proof.
  unfold String.ltb, String.leb; rewrite (String.compare_antisym a b).
  destruct (String.compare b a); simpl; congruence.
Qed.

(** ** The model at work *)

Example endswith_xml :
  endswith "nightly.xml" ".xml" = true /\ endswith "notes.txt" ".xml" = false /\
  endswith "xml" ".xml" = false /\ endswith ".xml" ".xml" = true.
Proof. repeat split. Qed.

(** The scenario of the specification: no engagement [Nightly-SAST] under
    [PayGateway]; the names are extracted, the product is found, the
    engagement is not, and the report is imported. *)
Example script_imports_new_engagement :
  let run := Reimporter.script (Canned.serve Scenario.no_engagement)
                               (Scenario.directory ["notes.txt"; "nightly.xml"])
                               (world0 tt) in
  fst run = Return tt /\
  stdout (snd run)
  = [Processing "nightly.xml" "PayGateway" "Nightly-SAST";
     SuccessfullyImported Scenario.xml_file_path] /\
  sent (snd run)
  = [product_types_search "Security"; products_search "PayGateway";
     engagements_search 7 "Nightly-SAST";
     import_upload Scenario.xml_file_path
       (Reimporter.import_data "Security" "PayGateway" "Nightly-SAST")] /\
  headers (snd run) = [("Authorization", "Token 0123456789abcdef")] /\
  written (snd run) = [("auth_token.json", "0123456789abcdef")].
Proof. repeat split. Qed.

(** The second scenario: the engagement has tests updated at T0 and at
    T1 > T0, and the report is reimported into the test updated at T1. *)
Example script_reimports_into_latest_test :
  let run := Reimporter.script (Canned.serve Scenario.two_tests)
                               (Scenario.directory ["nightly.xml"]) (world0 tt) in
  stdout (snd run)
  = [Processing "nightly.xml" "PayGateway" "Nightly-SAST";
     SuccessfullyReimported Scenario.xml_file_path 12] /\
  sent (snd run)
  = [product_types_search "Security"; products_search "PayGateway";
     engagements_search 7 "Nightly-SAST"; tests_search 5 scan_type_name;
     reimport_upload Scenario.xml_file_path
       (Reimporter.reimport_data 12 "Security" "PayGateway" "Nightly-SAST")].
Proof. repeat split. Qed.

(** A directory without a report is not an error. *)
Example script_no_xml_files :
  stdout (snd (Reimporter.script (Canned.serve Scenario.no_engagement)
                                 (Scenario.directory ["notes.txt"]) (world0 tt)))
  = [NoXmlFilesFound "asoc_sast_reports"].
Proof. reflexivity. Qed.

(** ** The sort of [get_latest_test_id] *)

(** The head of the sorted list is the first element of the input whose
    [updated] is the greatest: the elements before it are strictly older,
    the elements after it are not newer. *)
Lemma sorted_by_updated_reverse_head (xs : list obj) :
  xs <> [] ->
  exists t rest before after,
    sorted_by_updated_reverse xs = t :: rest /\
    xs = (before ++ t :: after)%list /\
    (forall x, In x before -> String.ltb (updated x) (updated t) = true) /\
    (forall x, In x after -> String.leb (updated x) (updated t) = true).
Proof.
  induction xs as [|x xs IH]; [congruence|]; intros _.
  destruct xs as [|y ys].
  - exists x, [], [], []. simpl. repeat split; intros ? [].
  - destruct IH as (t & rest & before & after & Hs & Hxs & Hb & Ha); [congruence|].
    change (sorted_by_updated_reverse (x :: y :: ys))
      with (insert_desc x (sorted_by_updated_reverse (y :: ys))).
    rewrite Hs, Hxs. simpl.
    destruct (String.ltb (updated x) (updated t)) eqn:Hlt.
    + exists t, (insert_desc x rest), (x :: before), after.
      repeat split; auto.
      intros z [<-|Hz]; auto.
    + exists x, (t :: rest), [], (before ++ t :: after)%list.
      split; [reflexivity|]. split; [reflexivity|]. split; [intros ? []|].
      intros z Hz. apply in_app_or in Hz.
      apply string_not_ltb_leb in Hlt.
      destruct Hz as [Hz|[<-|Hz]]; auto.
      * apply string_leb_trans with (updated t); auto using string_ltb_leb.
      * apply string_leb_trans with (updated t); auto.
Qed.

(** ** Running the monad *)

Ltac run :=
  cbv beta iota zeta delta
    [bind ret raise try_ print write_file send session_get session_post
     json_results json_object].

Ltac answer_with H :=
  cbv beta delta
    [product_types_search products_search products_create engagements_search
     tests_search import_upload reimport_upload token_exchange] in H;
  run; rewrite H; run.

Section Methods.

Variable S : Type.
Variable serve : list (string * string) -> request -> S -> result response * S.

(** What a search method makes of the page of results of a response: the
    results when the status is 200, nothing otherwise. *)
Lemma ok_results_200 (r : response) (rs : list obj) (w : world S) :
  status_code r = 200 -> body r = Some (Page rs) ->
  Reimporter.ok_results r w = (Return rs, w).
Proof.
  intros Hs Hb. unfold Reimporter.ok_results, json_results.
  rewrite Hs, Hb. reflexivity.
Qed.

Lemma ok_results_not_200 (r : response) (w : world S) :
  status_code r <> 200 -> Reimporter.ok_results r w = (Return [], w).
Proof.
  intros Hs. unfold Reimporter.ok_results.
  destruct (Z.eqb_spec (status_code r) 200); [contradiction|reflexivity].
Qed.

(** *** The searches *)

Lemma get_product_type_id_found product_type_name (w : world S) r s' first rest :
  serve (headers w) (product_types_search product_type_name) (server w) = (Return r, s') ->
  status_code r = 200 -> body r = Some (Page (first :: rest)) ->
  Reimporter.get_product_type_id serve product_type_name w
  = (Return (id first), answered w (product_types_search product_type_name) s').
Proof.
  intros H Hs Hb. unfold Reimporter.get_product_type_id.
  answer_with H. rewrite (ok_results_200 _ _ _ Hs Hb). reflexivity.
Qed.

Lemma get_product_type_id_empty product_type_name (w : world S) r s' :
  serve (headers w) (product_types_search product_type_name) (server w) = (Return r, s') ->
  status_code r = 200 -> body r = Some (Page []) ->
  Reimporter.get_product_type_id serve product_type_name w
  = (Raise (mk_exn Exception_ (ProductTypeNotFound product_type_name)),
     answered w (product_types_search product_type_name) s').
Proof.
  intros H Hs Hb. unfold Reimporter.get_product_type_id.
  answer_with H. rewrite (ok_results_200 _ _ _ Hs Hb). reflexivity.
Qed.

Lemma get_product_type_id_not_200 product_type_name (w : world S) r s' :
  serve (headers w) (product_types_search product_type_name) (server w) = (Return r, s') ->
  status_code r <> 200 ->
  Reimporter.get_product_type_id serve product_type_name w
  = (Raise (mk_exn Exception_ (ProductTypeNotFound product_type_name)),
     answered w (product_types_search product_type_name) s').
Proof.
  intros H Hs. unfold Reimporter.get_product_type_id.
  answer_with H. rewrite (ok_results_not_200 _ _ Hs). reflexivity.
Qed.

Lemma get_engagement_id_found product_id name (w : world S) r s' first rest :
  serve (headers w) (engagements_search product_id name) (server w) = (Return r, s') ->
  status_code r = 200 -> body r = Some (Page (first :: rest)) ->
  Reimporter.get_engagement_id serve product_id name w
  = (Return (Some (id first)), answered w (engagements_search product_id name) s').
Proof.
  intros H Hs Hb. unfold Reimporter.get_engagement_id.
  answer_with H. rewrite (ok_results_200 _ _ _ Hs Hb). reflexivity.
Qed.

Lemma get_engagement_id_empty product_id name (w : world S) r s' :
  serve (headers w) (engagements_search product_id name) (server w) = (Return r, s') ->
  status_code r = 200 -> body r = Some (Page []) ->
  Reimporter.get_engagement_id serve product_id name w
  = (Return None, answered w (engagements_search product_id name) s').
Proof.
  intros H Hs Hb. unfold Reimporter.get_engagement_id.
  answer_with H. rewrite (ok_results_200 _ _ _ Hs Hb). reflexivity.
Qed.

Lemma get_engagement_id_not_200 product_id name (w : world S) r s' :
  serve (headers w) (engagements_search product_id name) (server w) = (Return r, s') ->
  status_code r <> 200 ->
  Reimporter.get_engagement_id serve product_id name w
  = (Return None, answered w (engagements_search product_id name) s').
Proof.
  intros H Hs. unfold Reimporter.get_engagement_id.
  answer_with H. rewrite (ok_results_not_200 _ _ Hs). reflexivity.
Qed.

Lemma get_latest_test_id_not_200 engagement_id scan_type (w : world S) r s' :
  serve (headers w) (tests_search engagement_id scan_type) (server w) = (Return r, s') ->
  status_code r <> 200 ->
  Reimporter.get_latest_test_id serve engagement_id scan_type w
  = (Return None, answered w (tests_search engagement_id scan_type) s').
Proof.
  intros H Hs. unfold Reimporter.get_latest_test_id.
  answer_with H. rewrite (ok_results_not_200 _ _ Hs). reflexivity.
Qed.

(** A search prints nothing and sends its one request, whatever the
    answer. *)
Lemma ok_results_world (r : response) (w : world S) :
  snd (Reimporter.ok_results r w) = w.
Proof.
  unfold Reimporter.ok_results, json_results.
  destruct (status_code r =? 200); [|reflexivity].
  destruct (body r) as [[rs|o]|]; reflexivity.
Qed.

Lemma get_engagement_id_world product_id name (w : world S) :
  snd (Reimporter.get_engagement_id serve product_id name w)
  = answered w (engagements_search product_id name)
             (snd (serve (headers w) (engagements_search product_id name) (server w))).
Proof.
  unfold Reimporter.get_engagement_id, engagements_search. run.
  destruct (serve _ _ _) as [[r|e] s']; [|reflexivity]. run.
  pose proof (ok_results_world r (mk_world s' (headers w)
    (sent w ++ [GET (base_url ++ "/api/v2/engagements/")
                    [("product", Int product_id); ("name", Str name)]])
    (stdout w) (written w))) as Hw.
  destruct (Reimporter.ok_results r _) as [[[|first rest]|e] w1];
    simpl in Hw; subst w1; reflexivity.
Qed.

Lemma get_latest_test_id_world engagement_id scan_type (w : world S) :
  snd (Reimporter.get_latest_test_id serve engagement_id scan_type w)
  = answered w (tests_search engagement_id scan_type)
             (snd (serve (headers w) (tests_search engagement_id scan_type) (server w))).
Proof.
  unfold Reimporter.get_latest_test_id, tests_search. run.
  destruct (serve _ _ _) as [[r|e] s']; [|reflexivity]. run.
  pose proof (ok_results_world r (mk_world s' (headers w)
    (sent w ++ [GET (base_url ++ "/api/v2/tests/")
                    [("engagement", Int engagement_id); ("test_type_name", Str scan_type)]])
    (stdout w) (written w))) as Hw.
  destruct (Reimporter.ok_results r _) as [[[|first rest]|e] w1];
    simpl in Hw; subst w1; try reflexivity.
  destruct (sorted_by_updated_reverse (first :: rest)); reflexivity.
Qed.

Lemma get_product_type_id_world product_type_name (w : world S) :
  snd (Reimporter.get_product_type_id serve product_type_name w)
  = answered w (product_types_search product_type_name)
             (snd (serve (headers w) (product_types_search product_type_name) (server w))).
Proof.
  unfold Reimporter.get_product_type_id, product_types_search. run.
  destruct (serve _ _ _) as [[r|e] s']; [|reflexivity]. run.
  pose proof (ok_results_world r (mk_world s' (headers w)
    (sent w ++ [GET (base_url ++ "/api/v2/product_types/") [("name", Str product_type_name)]])
    (stdout w) (written w))) as Hw.
  destruct (Reimporter.ok_results r _) as [[[|first rest]|e] w1];
    simpl in Hw; subst w1; reflexivity.
Qed.

(** *** The uploads *)

Variable fs : filesystem.

Lemma open_rb_opens path (w : world S) :
  opens fs path = true -> open_rb fs path w = (Return tt, w).
Proof.
  unfold opens, open_rb. destruct (ET_parse fs path); [discriminate| | |]; reflexivity.
Qed.

Lemma import_scan_answered path ptn pn en (w : world S) r s' :
  opens fs path = true ->
  serve (headers w) (import_upload path (Reimporter.import_data ptn pn en)) (server w)
  = (Return r, s') ->
  Reimporter.import_scan serve fs path ptn pn en w
  = (Return tt,
     printed (answered w (import_upload path (Reimporter.import_data ptn pn en)) s')
             (if status_code r =? 201 then SuccessfullyImported path
              else FailedToImport path (status_code r) (content r))).
Proof.
  intros Hopen H. unfold Reimporter.import_scan. unfold bind at 1.
  rewrite (open_rb_opens path w Hopen). answer_with H.
  destruct (status_code r =? 201); reflexivity.
Qed.

Lemma import_scan_sent path ptn pn en (w : world S) :
  opens fs path = true ->
  sent (snd (Reimporter.import_scan serve fs path ptn pn en w))
  = (sent w ++ [import_upload path (Reimporter.import_data ptn pn en)])%list.
Proof.
  intros Hopen. unfold Reimporter.import_scan, import_upload. unfold bind at 1.
  rewrite (open_rb_opens path w Hopen). run.
  destruct (serve _ _ _) as [[r|e] s']; [|reflexivity]. run.
  destruct (status_code r =? 201); reflexivity.
Qed.

Lemma reimport_scan_answered path test_id ptn pn en (w : world S) r s' :
  opens fs path = true ->
  serve (headers w)
        (reimport_upload path (Reimporter.reimport_data test_id ptn pn en)) (server w)
  = (Return r, s') ->
  Reimporter.reimport_scan serve fs path test_id ptn pn en w
  = (Return tt,
     printed (answered w (reimport_upload path
                            (Reimporter.reimport_data test_id ptn pn en)) s')
             (if status_code r =? 201 then SuccessfullyReimported path test_id
              else FailedToReimport path (status_code r) (content r))).
Proof.
  intros Hopen H. unfold Reimporter.reimport_scan. unfold bind at 1.
  rewrite (open_rb_opens path w Hopen). answer_with H.
  destruct (status_code r =? 201); reflexivity.
Qed.

Lemma reimport_scan_sent path test_id ptn pn en (w : world S) :
  opens fs path = true ->
  sent (snd (Reimporter.reimport_scan serve fs path test_id ptn pn en w))
  = (sent w ++ [reimport_upload path (Reimporter.reimport_data test_id ptn pn en)])%list.
Proof.
  intros Hopen. unfold Reimporter.reimport_scan, reimport_upload. unfold bind at 1.
  rewrite (open_rb_opens path w Hopen). run.
  destruct (serve _ _ _) as [[r|e] s']; [|reflexivity]. run.
  destruct (status_code r =? 201); reflexivity.
Qed.

(** A file that does not open: the upload raises and sends nothing. *)
Lemma import_scan_unreadable path ptn pn en (w : world S) detail :
  ET_parse fs path = Unreadable detail ->
  Reimporter.import_scan serve fs path ptn pn en w
  = (Raise (mk_exn OSError (External detail)), w).
Proof.
  intros H. unfold Reimporter.import_scan, open_rb. unfold bind at 1.
  rewrite H. reflexivity.
Qed.

End Methods.

(** [get_latest_test_id] answers [None] when the test search returns no
    result, and otherwise the identity of the first test of the page whose
    [updated] is the greatest string of all, by code point. *)
Lemma get_latest_test_id_latest :
  forall (S : Type) (serve : list (string * string) -> request -> S -> result response * S)
         (w : world S) (engagement_id : Z) (scan_type : string)
         (r : response) (s' : S) (results : list obj),
    serve (headers w) (tests_search engagement_id scan_type) (server w) = (Return r, s') ->
    status_code r = 200 ->
    body r = Some (Page results) ->
    let out := fst (Reimporter.get_latest_test_id serve engagement_id scan_type w) in
    (results = [] -> out = Return None) /\
    (results <> [] ->
     exists t before after,
       out = Return (Some (id t)) /\
       In t results /\
       (forall t', In t' results -> String.leb (updated t') (updated t) = true) /\
       results = (before ++ t :: after)%list /\
       (forall x, In x before -> String.ltb (updated x) (updated t) = true)).
Proof.
  intros S serve w engagement_id scan_type r s' results Hserve Hstatus Hbody out.
  subst out. unfold Reimporter.get_latest_test_id.
  answer_with Hserve. rewrite (ok_results_200 _ _ _ _ Hstatus Hbody).
  split.
  - intros ->. reflexivity.
  - intros Hne.
    destruct results as [|x xs]; [congruence|].
    destruct (sorted_by_updated_reverse_head (x :: xs) Hne)
      as (t & rest & before & after & Hsorted & Hsplit & Hbefore & Hafter).
    cbv iota. rewrite Hsorted.
    exists t, before, after. cbn [fst].
    split; [reflexivity|]. split; [rewrite Hsplit; apply in_elt|].
    split; [|split; assumption].
    intros t' Ht'. rewrite Hsplit in Ht'. apply in_app_or in Ht'.
    destruct Ht' as [Hin|[<-|Hin]]; auto using string_ltb_leb, string_leb_refl.
Qed.

(** Two tests, updated at T0 and at T1 > T0: the test updated at T1 is
    located, though it comes second in the page. *)
Example get_latest_test_id_two_tests :
  let serve := Canned.serve Scenario.two_tests in
  fst (serve [] (tests_search 5 scan_type_name) tt)
  = Return (mk_response 200 "" (Some (Page [Scenario.test_T0; Scenario.test_T1]))) /\
  exists t before after,
    fst (Reimporter.get_latest_test_id serve 5 scan_type_name (world0 tt))
    = Return (Some (id t)) /\
    In t [Scenario.test_T0; Scenario.test_T1] /\
    (forall t', In t' [Scenario.test_T0; Scenario.test_T1] ->
                String.leb (updated t') (updated t) = true) /\
    [Scenario.test_T0; Scenario.test_T1] = (before ++ t :: after)%list /\
    (forall x, In x before -> String.ltb (updated x) (updated t) = true).
Proof.
  intros serve. split; [reflexivity|].
  apply (get_latest_test_id_latest
           unit serve (world0 tt) 5 scan_type_name
           (mk_response 200 "" (Some (Page [Scenario.test_T0; Scenario.test_T1]))) tt
           [Scenario.test_T0; Scenario.test_T1] eq_refl eq_refl eq_refl).
  discriminate.
Qed.

Example get_latest_test_id_T1 :
  fst (Reimporter.get_latest_test_id (Canned.serve Scenario.two_tests)
                                     5 scan_type_name (world0 tt))
  = Return (Some 12).
Proof. reflexivity. Qed.

(** *** Timestamps of one precision *)

Lemma decimal_digits (s : string) (n : Z) :
  decimal n s = n * 10 ^ Z.of_nat (ndigits s) + decimal 0 s.
Proof.
  revert n. induction s as [|c s IH]; intros n; cbn [decimal ndigits].
  - rewrite Z.pow_0_r. lia.
  - destruct (is_digit c).
    + rewrite (IH (10 * n + digit_value c)), (IH (10 * 0 + digit_value c)).
      rewrite Nat2Z.inj_succ, Z.pow_succ_r by lia. ring.
    + apply IH.
Qed.

Lemma digit_value_bounds (c : ascii) :
  is_digit c = true -> 0 <= digit_value c <= 9.
Proof.
  unfold is_digit, digit_value. intros H. apply andb_prop in H as [Hlow Hhigh].
  apply N.leb_le in Hlow, Hhigh. lia.
Qed.

Lemma decimal_bounds (s : string) :
  0 <= decimal 0 s < 10 ^ Z.of_nat (ndigits s).
Proof.
  induction s as [|c s IH]; cbn [decimal ndigits].
  - rewrite Z.pow_0_r. lia.
  - destruct (is_digit c) eqn:Hc; [|exact IH].
    rewrite decimal_digits, Nat2Z.inj_succ, Z.pow_succ_r by lia.
    pose proof (digit_value_bounds c Hc). nia.
Qed.

Lemma shape_ndigits (pattern a b : string) :
  shape pattern a = true -> shape pattern b = true -> ndigits a = ndigits b.
Proof.
  revert a b. induction pattern as [|p pattern IH]; intros [|c a] [|c' b];
    cbn [shape ndigits]; try discriminate; [reflexivity|].
  intros Ha Hb. apply andb_prop in Ha as [Hc Ha], Hb as [Hc' Hb].
  rewrite (IH a b Ha Hb).
  destruct (Ascii.eqb p "d").
  - rewrite Hc, Hc'. reflexivity.
  - apply Ascii.eqb_eq in Hc, Hc'. subst c c'. reflexivity.
Qed.

Lemma shape_length (pattern s : string) :
  shape pattern s = true -> String.length s = String.length pattern.
Proof.
  revert s. induction pattern as [|p pattern IH]; intros [|c s];
    cbn [shape String.length]; try discriminate; [reflexivity|].
  intros H. apply andb_prop in H as [_ H]. rewrite (IH s H). reflexivity.
Qed.

(** Two strings of one shape compare by code point as their digits compare
    as numbers. *)
Lemma shape_compare (pattern a b : string) :
  shape pattern a = true -> shape pattern b = true ->
  String.compare a b = (decimal 0 a ?= decimal 0 b).
Proof.
  revert a b. induction pattern as [|p pattern IH]; intros [|c a] [|c' b];
    cbn [shape]; try discriminate; [reflexivity|].
  intros Ha Hb. apply andb_prop in Ha as [Hc Ha], Hb as [Hc' Hb].
  pose proof (shape_ndigits pattern a b Ha Hb) as Hdigits.
  pose proof (decimal_bounds a) as Hbound. pose proof (decimal_bounds b) as Hbound'.
  specialize (IH a b Ha Hb). rewrite <- Hdigits in Hbound'.
  cbn [String.compare decimal].
  destruct (Ascii.eqb p "d").
  - rewrite Hc, Hc'.
    rewrite (decimal_digits a (10 * 0 + digit_value c)),
      (decimal_digits b (10 * 0 + digit_value c')), <- Hdigits.
    pose proof (digit_value_bounds c Hc). pose proof (digit_value_bounds c' Hc').
    unfold Ascii.compare, digit_value in *.
    set (k := 10 ^ Z.of_nat (ndigits a)) in *.
    destruct (N.compare_spec (N_of_ascii c) (N_of_ascii c')) as [Heq|Hlt|Hgt].
    + rewrite Heq, IH. symmetry. apply Z.add_compare_mono_l.
    + symmetry. apply Z.compare_lt_iff.
      assert (Z.of_N (N_of_ascii c) + 1 <= Z.of_N (N_of_ascii c')) by lia. nia.
    + symmetry. apply Z.compare_gt_iff.
      assert (Z.of_N (N_of_ascii c') + 1 <= Z.of_N (N_of_ascii c)) by lia. nia.
  - apply Ascii.eqb_eq in Hc, Hc'. subst c c'.
    rewrite ascii_compare_refl, IH.
    destruct (is_digit p); [|reflexivity].
    rewrite (decimal_digits a (10 * 0 + digit_value p)),
      (decimal_digits b (10 * 0 + digit_value p)), <- Hdigits.
    symmetry. apply Z.add_compare_mono_l.
Qed.

Lemma shape_leb (pattern a b : string) :
  shape pattern a = true -> shape pattern b = true ->
  String.leb a b = (decimal 0 a <=? decimal 0 b).
Proof.
  intros Ha Hb. unfold String.leb, Z.leb. rewrite (shape_compare pattern a b Ha Hb).
  reflexivity.
Qed.

(** The instants of two timestamps of one precision are in the order of
    the strings. *)
Lemma instant_leb (a b : string) :
  (shape whole_seconds a = true /\ shape whole_seconds b = true)
  \/ (shape microseconds a = true /\ shape microseconds b = true) ->
  exists i j, instant a = Some i /\ instant b = Some j /\
              String.leb a b = (i <=? j).
Proof.
  assert (Hother : forall s, shape microseconds s = true -> shape whole_seconds s = false).
  { intros s Hs. destruct (shape whole_seconds s) eqn:Hwhole; [|reflexivity].
    apply shape_length in Hs, Hwhole. rewrite Hs in Hwhole. discriminate. }
  intros [[Ha Hb]|[Ha Hb]]; unfold instant.
  - rewrite Ha, Hb. eexists _, _. split; [reflexivity|]. split; [reflexivity|].
    rewrite (shape_leb whole_seconds a b Ha Hb).
    apply eq_true_iff_eq. rewrite !Z.leb_le. lia.
  - rewrite (Hother a Ha), (Hother b Hb), Ha, Hb.
    eexists _, _. split; [reflexivity|]. split; [reflexivity|].
    apply (shape_leb microseconds a b Ha Hb).
Qed.

(** When the timestamps of the page are all written with the same
    precision, the test that [get_latest_test_id] locates is one that was
    updated last. *)
Lemma get_latest_test_id_one_precision :
  forall (S : Type) (serve : list (string * string) -> request -> S -> result response * S)
         (w : world S) (engagement_id : Z) (scan_type : string)
         (r : response) (s' : S) (results : list obj),
    serve (headers w) (tests_search engagement_id scan_type) (server w) = (Return r, s') ->
    status_code r = 200 ->
    body r = Some (Page results) ->
    results <> [] ->
    (forall t, In t results -> shape whole_seconds (updated t) = true)
    \/ (forall t, In t results -> shape microseconds (updated t) = true) ->
    exists t i,
      fst (Reimporter.get_latest_test_id serve engagement_id scan_type w)
      = Return (Some (id t)) /\
      In t results /\ instant (updated t) = Some i /\
      forall t', In t' results ->
                 exists i', instant (updated t') = Some i' /\ i' <= i.
Proof.
  intros S serve w engagement_id scan_type r s' results Hserve Hstatus Hbody Hne Hshape.
  destruct (proj2 (get_latest_test_id_latest S serve w engagement_id scan_type r s'
                     results Hserve Hstatus Hbody) Hne)
    as (t & before & after & Hout & Hin & Hgreatest & _).
  assert (Hpair : forall t', In t' results ->
            (shape whole_seconds (updated t') = true
             /\ shape whole_seconds (updated t) = true)
            \/ (shape microseconds (updated t') = true
                /\ shape microseconds (updated t) = true)).
  { intros t' Hin'. destruct Hshape as [Hshape|Hshape]; [left|right]; auto. }
  destruct (instant_leb _ _ (Hpair t Hin)) as (i & _ & Hi & _).
  exists t, i. split; [exact Hout|]. split; [exact Hin|]. split; [exact Hi|].
  intros t' Hin'.
  destruct (instant_leb _ _ (Hpair t' Hin')) as (i' & j & Hi' & Hj & Hle).
  rewrite Hi in Hj. injection Hj as <-.
  exists i'. split; [exact Hi'|].
  rewrite (Hgreatest t' Hin') in Hle. symmetry in Hle. apply Z.leb_le in Hle. exact Hle.
Qed.

(** C2. [get_latest_test_id] does not always locate the test updated last.
    The server writes the timestamp of a test updated at 09:00:00 sharp
    without a fraction and that of a test updated half a second later with
    one.  The strings are compared by code point, where [Z] comes after the
    full stop, and the test updated first is located, whatever the order of
    the page. *)
Theorem get_latest_test_id_mixed_precision :
  let first := Scenario.test_T0 in
  let last := Scenario.test_T0_500ms in
  let locate page :=
    fst (Reimporter.get_latest_test_id (Canned.serve (Scenario.with_tests page))
                                       5 scan_type_name (world0 tt)) in
  instant (updated first) = Some 20250301090000000000 /\
  instant (updated last) = Some 20250301090000500000 /\
  locate [first; last] = Return (Some (id first)) /\
  locate [last; first] = Return (Some (id first)) /\
  id first <> id last.
Proof. repeat split. discriminate. Qed.

(** ** The dispatcher *)

(** C1. The dispatcher follows the decision table.  When the engagement
    lookup returns [None] the report is imported and the tests are not
    searched; when the engagement is found and the test lookup returns
    [None] the report is imported; when both are found the report is
    reimported into the located test.  The report is one that has reached
    the dispatcher, so it opens, and the identities are those of objects of
    the server, which numbers them from 1: an identity is not 0. *)
Theorem main_dispatch_decision_table :
  forall (S : Type) (serve : list (string * string) -> request -> S -> result response * S)
         (fs : filesystem) (w : world S) (path ptn pn en : string) (product_id : Z),
    opens fs path = true ->
    (forall w1,
        Reimporter.get_engagement_id serve product_id en w = (Return None, w1) ->
        Reimporter.main_dispatch serve fs path ptn pn en product_id w
        = Reimporter.import_scan serve fs path ptn pn en w1 /\
        sent (snd (Reimporter.main_dispatch serve fs path ptn pn en product_id w))
        = (sent w ++ [engagements_search product_id en;
                      import_upload path (Reimporter.import_data ptn pn en)])%list) /\
    (forall engagement_id w1 w2,
        engagement_id <> 0 ->
        Reimporter.get_engagement_id serve product_id en w
        = (Return (Some engagement_id), w1) ->
        Reimporter.get_latest_test_id serve engagement_id scan_type_name w1
        = (Return None, w2) ->
        Reimporter.main_dispatch serve fs path ptn pn en product_id w
        = Reimporter.import_scan serve fs path ptn pn en w2 /\
        sent (snd (Reimporter.main_dispatch serve fs path ptn pn en product_id w))
        = (sent w ++ [engagements_search product_id en;
                      tests_search engagement_id scan_type_name;
                      import_upload path (Reimporter.import_data ptn pn en)])%list) /\
    (forall engagement_id test_id w1 w2,
        engagement_id <> 0 -> test_id <> 0 ->
        Reimporter.get_engagement_id serve product_id en w
        = (Return (Some engagement_id), w1) ->
        Reimporter.get_latest_test_id serve engagement_id scan_type_name w1
        = (Return (Some test_id), w2) ->
        Reimporter.main_dispatch serve fs path ptn pn en product_id w
        = Reimporter.reimport_scan serve fs path test_id ptn pn en w2 /\
        sent (snd (Reimporter.main_dispatch serve fs path ptn pn en product_id w))
        = (sent w ++ [engagements_search product_id en;
                      tests_search engagement_id scan_type_name;
                      reimport_upload path
                        (Reimporter.reimport_data test_id ptn pn en)])%list).
Proof.
  intros S serve fs w path ptn pn en product_id Hopen.
  assert (Heng : forall v w1,
             Reimporter.get_engagement_id serve product_id en w = (Return v, w1) ->
             sent w1 = (sent w ++ [engagements_search product_id en])%list).
  { intros v w1 H. pose proof (get_engagement_id_world S serve product_id en w) as Hw.
    rewrite H in Hw. simpl in Hw. subst w1. reflexivity. }
  assert (Htest : forall e v w1 w2,
             Reimporter.get_latest_test_id serve e scan_type_name w1 = (Return v, w2) ->
             sent w2 = (sent w1 ++ [tests_search e scan_type_name])%list).
  { intros e v w1 w2 H.
    pose proof (get_latest_test_id_world S serve e scan_type_name w1) as Hw.
    rewrite H in Hw. simpl in Hw. subst w2. reflexivity. }
  split; [|split].
  - intros w1 Hnone.
    assert (Hstep : Reimporter.main_dispatch serve fs path ptn pn en product_id w
                    = Reimporter.import_scan serve fs path ptn pn en w1).
    { unfold Reimporter.main_dispatch, bind. rewrite Hnone. reflexivity. }
    split; [exact Hstep|].
    rewrite Hstep, import_scan_sent, (Heng _ _ Hnone), <- app_assoc by assumption.
    reflexivity.
  - intros engagement_id w1 w2 Hengagement Hfound Hnone.
    assert (Hstep : Reimporter.main_dispatch serve fs path ptn pn en product_id w
                    = Reimporter.import_scan serve fs path ptn pn en w2).
    { unfold Reimporter.main_dispatch, bind. rewrite Hfound. unfold if_truthy at 1.
      destruct (Z.eqb_spec engagement_id 0); [contradiction|].
      rewrite Hnone. reflexivity. }
    split; [exact Hstep|].
    rewrite Hstep, import_scan_sent, (Htest _ _ _ _ Hnone), (Heng _ _ Hfound),
      <- !app_assoc by assumption.
    reflexivity.
  - intros engagement_id test_id w1 w2 Hengagement Htest_id Hfound Hlocated.
    assert (Hstep : Reimporter.main_dispatch serve fs path ptn pn en product_id w
                    = Reimporter.reimport_scan serve fs path test_id ptn pn en w2).
    { unfold Reimporter.main_dispatch, bind. rewrite Hfound. unfold if_truthy at 1.
      destruct (Z.eqb_spec engagement_id 0); [contradiction|].
      rewrite Hlocated. unfold if_truthy.
      destruct (Z.eqb_spec test_id 0); [contradiction|]. reflexivity. }
    split; [exact Hstep|].
    rewrite Hstep, reimport_scan_sent, (Htest _ _ _ _ Hlocated), (Heng _ _ Hfound),
      <- !app_assoc by assumption.
    reflexivity.
Qed.

(** The row of the reimport on the server of the two tests: the engagement
    is found with identity 5, the test updated last with identity 12. *)
Lemma main_dispatch_decision_table_witness :
  let w := world0 tt in
  let fs := Scenario.directory ["nightly.xml"] in
  let serve := Canned.serve Scenario.two_tests in
  let w1 := answered w (engagements_search 7 "Nightly-SAST") tt in
  let w2 := answered w1 (tests_search 5 scan_type_name) tt in
  opens fs Scenario.xml_file_path = true /\
  5 <> 0 /\ 12 <> 0 /\
  Reimporter.get_engagement_id serve 7 "Nightly-SAST" w = (Return (Some 5), w1) /\
  Reimporter.get_latest_test_id serve 5 scan_type_name w1 = (Return (Some 12), w2) /\
  Reimporter.main_dispatch serve fs Scenario.xml_file_path
                           "Security" "PayGateway" "Nightly-SAST" 7 w
  = Reimporter.reimport_scan serve fs Scenario.xml_file_path 12
                             "Security" "PayGateway" "Nightly-SAST" w2 /\
  sent (snd (Reimporter.main_dispatch serve fs Scenario.xml_file_path
               "Security" "PayGateway" "Nightly-SAST" 7 w))
  = ([] ++ [engagements_search 7 "Nightly-SAST";
            tests_search 5 scan_type_name;
            reimport_upload Scenario.xml_file_path
              (Reimporter.reimport_data 12 "Security" "PayGateway" "Nightly-SAST")])%list.
Proof.
  intros w fs serve w1 w2.
  assert (Hengagement : 5 <> 0) by discriminate.
  assert (Htest : 12 <> 0) by discriminate.
  split; [reflexivity|]. split; [exact Hengagement|]. split; [exact Htest|].
  split; [reflexivity|]. split; [reflexivity|].
  exact (proj2 (proj2 (main_dispatch_decision_table
                         unit serve fs w Scenario.xml_file_path
                         "Security" "PayGateway" "Nightly-SAST" 7 eq_refl))
               5 12 w1 w2 Hengagement Htest eq_refl eq_refl).
Defined.

(** The three rows on the servers of [Scenario]: reimport into the test
    updated last, import into the existing engagement, import when there is
    no engagement. *)
Example main_dispatch_decision_table_rows :
  let w := world0 tt in
  let fs := Scenario.directory ["nightly.xml"] in
  let dispatch routes :=
    Reimporter.main_dispatch (Canned.serve routes) fs Scenario.xml_file_path
                             "Security" "PayGateway" "Nightly-SAST" 7 w in
  sent (snd (dispatch Scenario.two_tests))
  = [engagements_search 7 "Nightly-SAST";
     tests_search 5 scan_type_name;
     reimport_upload Scenario.xml_file_path
       (Reimporter.reimport_data 12 "Security" "PayGateway" "Nightly-SAST")] /\
  sent (snd (dispatch Scenario.no_test))
  = [engagements_search 7 "Nightly-SAST";
     tests_search 5 scan_type_name;
     import_upload Scenario.xml_file_path
       (Reimporter.import_data "Security" "PayGateway" "Nightly-SAST")] /\
  sent (snd (dispatch Scenario.no_engagement))
  = [engagements_search 7 "Nightly-SAST";
     import_upload Scenario.xml_file_path
       (Reimporter.import_data "Security" "PayGateway" "Nightly-SAST")].
Proof. repeat split. Qed.

(** The dispatcher tests the identities with [if engagement_id:] and
    [if test_id:], so an identity 0 takes the row of [None]. *)
Remark main_dispatch_zero_identity :
  forall (S : Type) (serve : list (string * string) -> request -> S -> result response * S)
         (fs : filesystem) (w w1 : world S) (path ptn pn en : string) (product_id : Z),
    Reimporter.get_engagement_id serve product_id en w = (Return (Some 0), w1) ->
    Reimporter.main_dispatch serve fs path ptn pn en product_id w
    = Reimporter.import_scan serve fs path ptn pn en w1.
Proof.
  intros S serve fs w w1 path ptn pn en product_id H.
  unfold Reimporter.main_dispatch, bind. rewrite H. reflexivity.
Qed.

(** On a server that would give a test the identity 0, which the server of
    the scripts does not: [get_latest_test_id] returns that identity,
    [if test_id:] takes it for [None], and the report is imported. *)
Example main_dispatch_test_zero :
  let w := world0 tt in
  let serve := Canned.serve Scenario.test_zero in
  let fs := Scenario.directory ["nightly.xml"] in
  fst (Reimporter.get_engagement_id serve 7 "Nightly-SAST" w) = Return (Some 5) /\
  fst (Reimporter.get_latest_test_id serve 5 scan_type_name w) = Return (Some 0) /\
  sent (snd (Reimporter.main_dispatch serve fs Scenario.xml_file_path
               "Security" "PayGateway" "Nightly-SAST" 7 w))
  = [engagements_search 7 "Nightly-SAST";
     tests_search 5 scan_type_name;
     import_upload Scenario.xml_file_path
       (Reimporter.import_data "Security" "PayGateway" "Nightly-SAST")] /\
  stdout (snd (Reimporter.main_dispatch serve fs Scenario.xml_file_path
                 "Security" "PayGateway" "Nightly-SAST" 7 w))
  = [SuccessfullyImported Scenario.xml_file_path].
Proof. repeat split. Qed.

(** ** The product *)

Section Product.

Variable S : Type.
Variable serve : list (string * string) -> request -> S -> result response * S.

Variables (ptn pn : string) (w w1 : world S) (prod_type_id : Z).
Hypothesis Htype :
  Reimporter.get_product_type_id serve ptn w = (Return prod_type_id, w1).

Variables (r : response) (s2 : S) (candidates : list obj).
Hypothesis Hsearch :
  serve (headers w1) (products_search pn) (server w1) = (Return r, s2).
Hypothesis Hresults :
  forall w' : world S, Reimporter.ok_results r w' = (Return candidates, w').

Let w2 : world S := answered w1 (products_search pn) s2.

Lemma get_product_id_steps :
  Reimporter.get_product_id serve ptn pn w
  = match find (fun product => prod_type product =? prod_type_id) candidates with
    | Some product => (Return (id product), w2)
    | None =>
        match serve (headers w2) (products_create pn prod_type_id) (server w2) with
        | (Raise e, s3) => (Raise e, answered w2 (products_create pn prod_type_id) s3)
        | (Return r', s3) =>
            (if status_code r' =? 201 then
               match body r' with
               | Some (Object o) => Return (id o)
               | Some (Page _) => Raise (mk_exn KeyError (MissingKey "id"))
               | None => Raise (mk_exn JSONDecodeError (External "response.json()"))
               end
             else Raise (mk_exn Exception_
                           (FailedToCreateFindProduct (status_code r') (content r'))),
             answered w2 (products_create pn prod_type_id) s3)
        end
    end.
Proof.
  unfold Reimporter.get_product_id. unfold bind at 1. rewrite Htype.
  pose proof Hsearch as H. answer_with H. rewrite Hresults.
  destruct (find _ candidates) as [product|]; [reflexivity|].
  run. unfold w2, products_create, products_search, answered. cbn [headers server].
  match goal with
  | |- context [serve ?h (POST ?u ?d ?f) ?s] =>
      destruct (serve h (POST u d f) s) as [[r'|e] s3]
  end; [|reflexivity].
  destruct (status_code r' =? 201); [|reflexivity].
  destruct (body r') as [[rs|o]|]; reflexivity.
Qed.

End Product.

Lemma find_none_iff {A} (f : A -> bool) (l : list A) :
  (forall x, In x l -> f x = false) -> find f l = None.
Proof.
  induction l as [|a l IH]; intros H; [reflexivity|]. simpl.
  rewrite (H a (or_introl eq_refl)). apply IH. intros x Hx. apply H. now right.
Qed.

Lemma find_first {A} (f : A -> bool) (before after : list A) (c : A) :
  (forall x, In x before -> f x = false) -> f c = true ->
  find f (before ++ c :: after) = Some c.
Proof.
  induction before as [|a l IH]; intros H Hc; simpl.
  - now rewrite Hc.
  - rewrite (H a (or_introl eq_refl)). apply IH; [|assumption].
    intros x Hx. apply H. now right.
Qed.

(** C3. With the product type resolved and the product search answered by
    a page of candidates: when every candidate is of another product type,
    none is reused and a product is created, with the name, the resolved
    product type and the fixed description, its identity being the one of
    the answer; a candidate is returned only if its product type is the
    resolved one, and it is then the first such candidate. *)
Theorem get_product_id_scoped_to_product_type :
  forall (S : Type) (serve : list (string * string) -> request -> S -> result response * S)
         (ptn pn : string) (w w1 : world S) (prod_type_id : Z)
         (r : response) (s2 : S) (candidates : list obj),
    Reimporter.get_product_type_id serve ptn w = (Return prod_type_id, w1) ->
    serve (headers w1) (products_search pn) (server w1) = (Return r, s2) ->
    status_code r = 200 ->
    body r = Some (Page candidates) ->
    let w2 := answered w1 (products_search pn) s2 in
    let create :=
      POST (base_url ++ "/api/v2/products/")
           [("name", Str pn); ("prod_type", Int prod_type_id);
            ("description", Str "Automatically created by import script")] [] in
    ((forall c, In c candidates -> prod_type c <> prod_type_id) ->
     sent (snd (Reimporter.get_product_id serve ptn pn w)) = (sent w2 ++ [create])%list /\
     forall r' s3,
       serve (headers w2) create (server w2) = (Return r', s3) ->
       (status_code r' = 201 ->
        forall o, body r' = Some (Object o) ->
                  Reimporter.get_product_id serve ptn pn w
                  = (Return (id o), answered w2 create s3)) /\
       (status_code r' <> 201 ->
        Reimporter.get_product_id serve ptn pn w
        = (Raise (mk_exn Exception_
                    (FailedToCreateFindProduct (status_code r') (content r'))),
           answered w2 create s3))) /\
    (forall before c after,
        candidates = (before ++ c :: after)%list ->
        (forall x, In x before -> prod_type x <> prod_type_id) ->
        prod_type c = prod_type_id ->
        Reimporter.get_product_id serve ptn pn w = (Return (id c), w2)) /\
    (forall product_id,
        Reimporter.get_product_id serve ptn pn w = (Return product_id, w2) ->
        exists c, In c candidates /\ prod_type c = prod_type_id /\ id c = product_id).
Proof.
  intros S serve ptn pn w w1 prod_type_id r s2 candidates Htype Hsearch Hstatus Hbody
         w2 create.
  pose proof (get_product_id_steps S serve ptn pn w w1 prod_type_id Htype r s2 candidates
                Hsearch (fun w' => ok_results_200 S r candidates w' Hstatus Hbody))
    as Hsteps.
  change (products_create pn prod_type_id) with create in Hsteps.
  change (answered w1 (products_search pn) s2) with w2 in Hsteps.
  split; [|split].
  - intros Hother.
    rewrite find_none_iff in Hsteps
      by (intros x Hx; apply Z.eqb_neq; auto).
    split.
    + rewrite Hsteps.
      destruct (serve (headers w2) create (server w2)) as [[r'|e] s3];
        destruct (status_code r' =? 201) || idtac; reflexivity.
    + intros r' s3 Hcreate. rewrite Hcreate in Hsteps. split.
      * intros H201 o Ho. rewrite Hsteps, H201, Ho. reflexivity.
      * intros Hnot. rewrite Hsteps.
        destruct (Z.eqb_spec (status_code r') 201); [contradiction|reflexivity].
  - intros before c after -> Hbefore Hc.
    rewrite (find_first _ before after c) in Hsteps; auto.
    + intros x Hx. apply Z.eqb_neq; auto.
    + apply Z.eqb_eq; assumption.
  - intros product_id Hret. rewrite Hsteps in Hret.
    destruct (find _ candidates) as [c|] eqn:Hfind.
    + apply find_some in Hfind. destruct Hfind as [Hin Heq].
      exists c. repeat split; [assumption|now apply Z.eqb_eq|congruence].
    + exfalso. destruct (serve (headers w2) create (server w2)) as [[r'|e] s3].
      * assert (Hsent : sent (answered w2 create s3) = sent w2) by congruence.
        simpl in Hsent. apply (f_equal (@List.length _)) in Hsent.
        rewrite length_app in Hsent. simpl in Hsent. lia.
      * congruence.
Qed.

(** A product named [PayGateway] exists under product type 4; resolving it
    under product type 3 creates product 9 and does not return product 8. *)
Lemma get_product_id_scoped_to_product_type_witness :
  let serve := Canned.serve Scenario.other_product_type in
  Reimporter.get_product_type_id serve "Security" (world0 tt)
  = (Return 3, answered (world0 tt) (product_types_search "Security") tt) /\
  fst (Reimporter.get_product_id serve "Security" "PayGateway" (world0 tt)) = Return 9 /\
  sent (snd (Reimporter.get_product_id serve "Security" "PayGateway" (world0 tt)))
  = [product_types_search "Security"; products_search "PayGateway";
     products_create "PayGateway" 3].
Proof.
  intros serve.
  pose (w1 := answered (world0 tt) (product_types_search "Security") tt).
  pose proof (get_product_id_scoped_to_product_type
                unit serve "Security" "PayGateway" (world0 tt) w1 3
                (mk_response 200 "" (Some (Page [mk_obj 8 4 "" ""]))) tt
                [mk_obj 8 4 "" ""] eq_refl eq_refl eq_refl eq_refl) as H.
  cbv zeta in H. destruct H as (Hcreate & _ & _).
  destruct Hcreate as [Hsent Hanswer].
  { intros c [<-|[]]. discriminate. }
  destruct (Hanswer (mk_response 201 "" (Some (Object (mk_obj 9 3 "" "")))) tt eq_refl)
    as [H201 _].
  specialize (H201 eq_refl _ eq_refl).
  split; [reflexivity|]. split.
  - rewrite H201. reflexivity.
  - rewrite Hsent. reflexivity.
Defined.

(** ** The loop over the reports *)

Section Loop.

Variable S : Type.
Variable serve : list (string * string) -> request -> S -> result response * S.
Variable fs : filesystem.

(** Reading a report changes nothing in the world. *)
Lemma extract_xml_data_world (path : string) (w : world S) :
  snd (Reimporter.extract_xml_data fs path w) = w.
Proof.
  unfold Reimporter.extract_xml_data. run.
  destruct (ET_parse fs path) as [detail|detail|e|root]; try reflexivity.
  { cbn. destruct (exn_class_eqb (class_of e) ParseError); reflexivity. }
  destruct (falsy_text _); [reflexivity|].
  destruct (falsy_text _); reflexivity.
Qed.

(** A report that has been read opens. *)
Lemma extract_xml_data_opens (path : string) (w : world S) (names : string * string) :
  fst (Reimporter.extract_xml_data fs path w) = Return names ->
  opens fs path = true.
Proof.
  unfold Reimporter.extract_xml_data, opens. run.
  destruct (ET_parse fs path) as [detail|detail|e|root];
    [discriminate|discriminate| |reflexivity].
  cbn. destruct (exn_class_eqb (class_of e) ParseError); discriminate.
Qed.

(** One turn of the loop of the reimporter never raises: an exception of
    the processing is printed with the file name and [str(e)]. *)
Lemma main_iteration_catches (dir ptn xml_file : string) (w : world S) :
  Reimporter.main_iteration serve fs dir ptn xml_file w
  = match Reimporter.main_process serve fs dir ptn xml_file w with
    | (Return _, w') => (Return tt, w')
    | (Raise e, w') =>
        (Return tt,
         printed w' (if isinstance e ValueError
                     then ErrorProcessing xml_file (str e)
                     else UnexpectedErrorProcessing xml_file (str e)))
    end.
Proof.
  unfold Reimporter.main_iteration, try_.
  destruct (Reimporter.main_process serve fs dir ptn xml_file w) as [[[]|e] w'];
    [reflexivity|].
  cbn [find fst snd]. destruct (isinstance e ValueError); reflexivity.
Qed.

Lemma main_iteration_returns (dir ptn xml_file : string) (w : world S) :
  fst (Reimporter.main_iteration serve fs dir ptn xml_file w) = Return tt.
Proof.
  rewrite main_iteration_catches.
  destruct (Reimporter.main_process serve fs dir ptn xml_file w) as [[[]|e] w'];
    reflexivity.
Qed.

(** The loop goes from one file to the next with the world the turn has
    left, and ends without an exception. *)
Lemma for_main_iteration_cons (dir ptn xml_file : string) (rest : list string)
      (w : world S) :
  for_ (xml_file :: rest) (Reimporter.main_iteration serve fs dir ptn) w
  = for_ rest (Reimporter.main_iteration serve fs dir ptn)
         (snd (Reimporter.main_iteration serve fs dir ptn xml_file w)).
Proof.
  cbn [for_]. unfold bind at 1.
  pose proof (main_iteration_returns dir ptn xml_file w) as H.
  destruct (Reimporter.main_iteration serve fs dir ptn xml_file w) as [[[]|e] w'];
    [reflexivity|discriminate].
Qed.

Lemma for_main_iteration_returns (dir ptn : string) (xml_files : list string)
      (w : world S) :
  fst (for_ xml_files (Reimporter.main_iteration serve fs dir ptn) w) = Return tt.
Proof.
  revert w. induction xml_files as [|xml_file rest IH]; intros w; [reflexivity|].
  rewrite for_main_iteration_cons. apply IH.
Qed.

End Loop.

(** ** The product type *)

(** C5. When the product-type search returns no result, the lookup raises
    "product type not found" after its one GET request: nothing is created.
    The product lookup raises with it, and in the loop the exception is
    printed for the report, no upload is made, and the loop goes on with
    the next report. *)
Theorem get_product_type_id_not_found :
  forall (S : Type) (serve : list (string * string) -> request -> S -> result response * S)
         (fs : filesystem) (w : world S) (ptn : string) (r : response) (s' : S),
    serve (headers w) (product_types_search ptn) (server w) = (Return r, s') ->
    status_code r = 200 ->
    body r = Some (Page []) ->
    let not_found := mk_exn Exception_ (ProductTypeNotFound ptn) in
    Reimporter.get_product_type_id serve ptn w
    = (Raise not_found, answered w (product_types_search ptn) s') /\
    (forall pn,
        Reimporter.get_product_id serve ptn pn w
        = (Raise not_found, answered w (product_types_search ptn) s')) /\
    (forall dir xml_file rest pn en,
        fst (Reimporter.extract_xml_data fs (os_path_join dir xml_file) w)
        = Return (pn, en) ->
        let w' :=
          printed (answered (printed w (Processing xml_file pn en))
                            (product_types_search ptn) s')
                  (UnexpectedErrorProcessing xml_file (ProductTypeNotFound ptn)) in
        Reimporter.main_iteration serve fs dir ptn xml_file w = (Return tt, w') /\
        for_ (xml_file :: rest) (Reimporter.main_iteration serve fs dir ptn) w
        = for_ rest (Reimporter.main_iteration serve fs dir ptn) w').
Proof.
  intros S serve fs w ptn r s' Hserve Hstatus Hbody not_found.
  pose proof (get_product_type_id_empty S serve ptn w r s' Hserve Hstatus Hbody) as Htype.
  assert (Hproduct : forall pn (w0 : world S),
             headers w0 = headers w -> server w0 = server w ->
             Reimporter.get_product_id serve ptn pn w0
             = (Raise not_found, answered w0 (product_types_search ptn) s')).
  { intros pn w0 Hh Hs. unfold Reimporter.get_product_id. unfold bind at 1.
    rewrite (get_product_type_id_empty S serve ptn w0 r s'); auto.
    rewrite Hh, Hs. exact Hserve. }
  split; [exact Htype|]. split; [intros pn; apply Hproduct; reflexivity|].
  intros dir xml_file rest pn en Hextract w'.
  assert (Hturn : Reimporter.main_iteration serve fs dir ptn xml_file w = (Return tt, w')).
  { rewrite main_iteration_catches. unfold Reimporter.main_process. unfold bind at 1.
    pose proof (extract_xml_data_world S fs (os_path_join dir xml_file) w) as Hworld.
    destruct (Reimporter.extract_xml_data fs (os_path_join dir xml_file) w)
      as [names w0].
    cbn [fst snd] in Hextract, Hworld. subst names w0.
    unfold bind at 1. unfold print at 1. unfold bind at 1.
    rewrite (Hproduct pn (mk_world (server w) (headers w) (sent w)
                                   (stdout w ++ [Processing xml_file pn en])
                                   (written w)) eq_refl eq_refl).
    reflexivity. }
  split; [exact Hturn|].
  rewrite for_main_iteration_cons, Hturn. reflexivity.
Qed.

(** The report of the specification on a server without the product type:
    the turn prints the error and sends nothing but the search. *)
Lemma get_product_type_id_not_found_witness :
  let serve := Canned.serve Scenario.no_product_type in
  let fs := Scenario.directory ["nightly.xml"; "weekly.xml"] in
  let turn := Reimporter.main_iteration serve fs Scenario.reports_dir "Security" in
  stdout (snd (turn "nightly.xml" (world0 tt)))
  = [Processing "nightly.xml" "PayGateway" "Nightly-SAST";
     UnexpectedErrorProcessing "nightly.xml" (ProductTypeNotFound "Security")] /\
  sent (snd (turn "nightly.xml" (world0 tt))) = [product_types_search "Security"] /\
  stdout (snd (for_ ["nightly.xml"; "weekly.xml"] turn (world0 tt)))
  = [Processing "nightly.xml" "PayGateway" "Nightly-SAST";
     UnexpectedErrorProcessing "nightly.xml" (ProductTypeNotFound "Security");
     Processing "weekly.xml" "PayGateway" "Nightly-SAST";
     UnexpectedErrorProcessing "weekly.xml" (ProductTypeNotFound "Security")].
Proof.
  intros serve fs turn.
  destruct (get_product_type_id_not_found
              unit serve fs (world0 tt) "Security"
              (mk_response 200 "" (Some (Page []))) tt eq_refl eq_refl eq_refl)
    as (_ & _ & Hloop).
  destruct (Hloop Scenario.reports_dir "nightly.xml" ["weekly.xml"]
                  "PayGateway" "Nightly-SAST" eq_refl) as [Hturn Hfor].
  unfold turn. rewrite Hfor, Hturn. repeat split.
Defined.

(** ** The uploads *)

(** C6. A reimport of a report that opens posts it to the reimport
    endpoint with the located test, [do_not_reactivate] set and the
    deduplication on the engagement and the closing of old findings unset.
    When the server answers, status 201 and only 201 is printed as a
    success; another status is printed as a failure with the status and the
    content, and nothing is raised. *)
Theorem reimport_scan_request_and_status :
  forall (S : Type) (serve : list (string * string) -> request -> S -> result response * S)
         (fs : filesystem) (w : world S) (path : string) (test_id : Z)
         (ptn pn en : string),
    opens fs path = true ->
    let data := Reimporter.reimport_data test_id ptn pn en in
    let upload := POST (base_url ++ "/api/v2/reimport-scan/") data [("file", path)] in
    sent (snd (Reimporter.reimport_scan serve fs path test_id ptn pn en w))
    = (sent w ++ [upload])%list /\
    lookup "test" data = Some (Int test_id) /\
    lookup "do_not_reactivate" data = Some (Str "true") /\
    lookup "deduplication_on_engagement" data = Some (Str "false") /\
    lookup "close_old_findings" data = Some (Str "false") /\
    forall r s',
      serve (headers w) upload (server w) = (Return r, s') ->
      (status_code r = 201 ->
       Reimporter.reimport_scan serve fs path test_id ptn pn en w
       = (Return tt, printed (answered w upload s')
                             (SuccessfullyReimported path test_id))) /\
      (status_code r <> 201 ->
       Reimporter.reimport_scan serve fs path test_id ptn pn en w
       = (Return tt, printed (answered w upload s')
                             (FailedToReimport path (status_code r) (content r)))).
Proof.
  intros S serve fs w path test_id ptn pn en Hopen data upload.
  split; [apply reimport_scan_sent; assumption|].
  repeat (split; [reflexivity|]).
  intros r s' Hserve.
  pose proof (reimport_scan_answered S serve fs path test_id ptn pn en w r s'
                Hopen Hserve) as H.
  split; intros Hstatus; rewrite H.
  - rewrite Hstatus. reflexivity.
  - destruct (Z.eqb_spec (status_code r) 201); [contradiction|reflexivity].
Qed.

(** A reimport into test 12, accepted by one server and refused by
    another. *)
Lemma reimport_scan_request_and_status_witness :
  let fs := Scenario.directory ["nightly.xml"] in
  let reimport routes :=
    Reimporter.reimport_scan (Canned.serve routes) fs Scenario.xml_file_path 12
                             "Security" "PayGateway" "Nightly-SAST" (world0 tt) in
  opens fs Scenario.xml_file_path = true /\
  (fst (reimport Scenario.two_tests) = Return tt /\
   stdout (snd (reimport Scenario.two_tests))
   = [SuccessfullyReimported Scenario.xml_file_path 12]) /\
  (fst (reimport Scenario.refusing) = Return tt /\
   stdout (snd (reimport Scenario.refusing))
   = [FailedToReimport Scenario.xml_file_path 400 "invalid scan"]).
Proof.
  intros fs reimport. split; [reflexivity|]. split.
  - destruct (reimport_scan_request_and_status
                unit (Canned.serve Scenario.two_tests) fs (world0 tt)
                Scenario.xml_file_path 12 "Security" "PayGateway" "Nightly-SAST"
                eq_refl)
      as (_ & _ & _ & _ & _ & Hanswer).
    destruct (Hanswer (mk_response 201 "" None) tt eq_refl) as [Hcreated _].
    unfold reimport. rewrite (Hcreated eq_refl). split; reflexivity.
  - destruct (reimport_scan_request_and_status
                unit (Canned.serve Scenario.refusing) fs (world0 tt)
                Scenario.xml_file_path 12 "Security" "PayGateway" "Nightly-SAST"
                eq_refl)
      as (_ & _ & _ & _ & _ & Hanswer).
    destruct (Hanswer (mk_response 400 "invalid scan" None) tt eq_refl) as [_ Hother].
    unfold reimport. rewrite Hother by discriminate. split; reflexivity.
Defined.

(** ** Resolving a product twice *)

Lemma find_app_none {A} (f : A -> bool) (l1 l2 : list A) :
  find f (l1 ++ l2) = None -> find f l1 = None /\ find f l2 = None.
Proof.
  induction l1 as [|a l1 IH]; simpl; [auto|].
  destruct (f a); [discriminate|exact IH].
Qed.

Section Backend.

Variable S : Type.
Variable serve : list (string * string) -> request -> S -> result response * S.
Variables product_types_named products_named : string -> S -> list obj.
Hypothesis Hsearches : answers_searches serve product_types_named products_named.
Hypothesis Hcreated : lists_created serve product_types_named products_named.

Variables ptn pn : string.

(** [get_product_id] once the product type is known to be listed first. *)
Lemma get_product_id_listed (w : world S) (type : obj) (rest : list obj) :
  product_types_named ptn (server w) = type :: rest ->
  let w1 := answered w (product_types_search ptn) (server w) in
  let w2 := answered w1 (products_search pn) (server w) in
  Reimporter.get_product_id serve ptn pn w
  = match find (fun product => prod_type product =? id type)
               (products_named pn (server w)) with
    | Some product => (Return (id product), w2)
    | None =>
        match serve (headers w) (products_create pn (id type)) (server w) with
        | (Raise e, s3) => (Raise e, answered w2 (products_create pn (id type)) s3)
        | (Return r', s3) =>
            (if status_code r' =? 201 then
               match body r' with
               | Some (Object o) => Return (id o)
               | Some (Page _) => Raise (mk_exn KeyError (MissingKey "id"))
               | None => Raise (mk_exn JSONDecodeError (External "response.json()"))
               end
             else Raise (mk_exn Exception_
                           (FailedToCreateFindProduct (status_code r') (content r'))),
             answered w2 (products_create pn (id type)) s3)
        end
    end.
Proof.
  intros Htypes w1 w2.
  destruct (Hsearches (headers w) ptn (server w)) as [(r1 & Hserve1 & Hstatus1 & Hbody1) _].
  destruct (Hsearches (headers w) pn (server w)) as [_ (r2 & Hserve2 & Hstatus2 & Hbody2)].
  rewrite Htypes in Hbody1.
  exact (get_product_id_steps S serve ptn pn w w1 (id type)
           (get_product_type_id_found S serve ptn w r1 (server w) type rest
              Hserve1 Hstatus1 Hbody1)
           r2 (server w) (products_named pn (server w)) Hserve2
           (fun w' => ok_results_200 S r2 _ w' Hstatus2 Hbody2)).
Qed.

Lemma get_product_id_unlisted (w : world S) :
  product_types_named ptn (server w) = [] ->
  fst (Reimporter.get_product_id serve ptn pn w)
  = Raise (mk_exn Exception_ (ProductTypeNotFound ptn)).
Proof.
  intros Htypes.
  destruct (Hsearches (headers w) ptn (server w)) as [(r1 & Hserve1 & Hstatus1 & Hbody1) _].
  rewrite Htypes in Hbody1.
  unfold Reimporter.get_product_id. unfold bind at 1.
  rewrite (get_product_type_id_empty S serve ptn w r1 (server w) Hserve1 Hstatus1 Hbody1).
  reflexivity.
Qed.

Lemma get_product_id_twice (w w1 : world S) (product_id : Z) :
  Reimporter.get_product_id serve ptn pn w = (Return product_id, w1) ->
  Reimporter.get_product_id serve ptn pn w1
  = (Return product_id,
     answered (answered w1 (product_types_search ptn) (server w1))
              (products_search pn) (server w1)).
Proof.
  intros Hfirst.
  destruct (product_types_named ptn (server w)) as [|type rest] eqn:Htypes.
  { pose proof (get_product_id_unlisted w Htypes) as Hraise.
    rewrite Hfirst in Hraise. discriminate. }
  rewrite (get_product_id_listed w type rest Htypes) in Hfirst.
  destruct (find _ (products_named pn (server w))) as [product|] eqn:Hfind.
  - injection Hfirst as <- <-.
    match goal with
    | |- Reimporter.get_product_id serve ptn pn ?w0 = _ =>
        rewrite (get_product_id_listed w0 type rest Htypes)
    end.
    cbn [answered server]. rewrite Hfind. reflexivity.
  - destruct (serve (headers w) (products_create pn (id type)) (server w))
      as [[r'|e] s3] eqn:Hcreate; [|discriminate].
    destruct (Z.eqb_spec (status_code r') 201) as [H201|]; [|discriminate].
    destruct (body r') as [[rs|o]|] eqn:Hbody; try discriminate.
    injection Hfirst as <- <-.
    destruct (Hcreated (headers w) pn (id type) (server w) r' s3 o Hcreate H201 Hbody)
      as (Htype & Hsame & before & after & Hbefore & Hafter).
    rewrite Hbefore in Hfind. apply find_app_none in Hfind. destruct Hfind as [Hb Ha].
    assert (Htypes' : product_types_named ptn s3 = type :: rest)
      by (rewrite Hsame; exact Htypes).
    match goal with
    | |- Reimporter.get_product_id serve ptn pn ?w0 = _ =>
        rewrite (get_product_id_listed w0 type rest Htypes')
    end.
    cbn [answered server]. rewrite Hafter.
    rewrite (find_first _ before after o); [reflexivity| |].
    + intros x Hx. destruct (prod_type x =? id type) eqn:Hx'; [|reflexivity].
      pose proof (find_none _ _ Hb x Hx) as Hnone. cbv beta in Hnone. congruence.
    + apply Z.eqb_eq. exact Htype.
Qed.

End Backend.

(** C7, for a backend that answers the searches.  On a backend whose
    searches answer 200 with the stored objects of the name and which lists
    a product once it is created, a second resolution of the same names
    returns the identity of the first one and sends the two searches only:
    no product is created and the backend is left as it was. *)
Theorem get_product_id_idempotent :
  forall (S : Type) (serve : list (string * string) -> request -> S -> result response * S)
         (product_types_named products_named : string -> S -> list obj),
    answers_searches serve product_types_named products_named ->
    lists_created serve product_types_named products_named ->
    forall (ptn pn : string) (w w1 : world S) (product_id : Z),
      Reimporter.get_product_id serve ptn pn w = (Return product_id, w1) ->
      exists w2,
        Reimporter.get_product_id serve ptn pn w1 = (Return product_id, w2) /\
        server w2 = server w1 /\
        sent w2 = (sent w1 ++ [product_types_search ptn; products_search pn])%list /\
        filter is_POST (sent w2) = filter is_POST (sent w1).
Proof.
  intros S serve product_types_named products_named Hsearches Hcreated
         ptn pn w w1 product_id Hfirst.
  eexists. split.
  - exact (get_product_id_twice S serve product_types_named products_named
             Hsearches Hcreated ptn pn w w1 product_id Hfirst).
  - split; [reflexivity|]. cbn [answered sent]. rewrite <- app_assoc.
    split; [reflexivity|].
    rewrite filter_app. cbn. apply app_nil_r.
Qed.

(** The store is such a backend. *)
Lemma store_answers_searches :
  answers_searches Dojo.serve
                   (fun name st => Dojo.named name (Dojo.product_types st))
                   (fun name st => Dojo.named name (Dojo.products st)).
Proof.
  intros h name st. split; eexists; (split; [reflexivity|split; reflexivity]).
Qed.

Lemma named_app (name : string) (l : list (string * obj)) (o : obj) :
  Dojo.named name (l ++ [(name, o)]) = (Dojo.named name l ++ [o])%list.
Proof.
  unfold Dojo.named. rewrite filter_app, map_app. cbn.
  rewrite String.eqb_refl. reflexivity.
Qed.

Lemma store_lists_created :
  lists_created Dojo.serve
                (fun name st => Dojo.named name (Dojo.product_types st))
                (fun name st => Dojo.named name (Dojo.products st)).
Proof.
  intros h name prod_type_id st r st' o Hcreate _ Hbody.
  cbn in Hcreate. injection Hcreate as <- <-. cbn in Hbody. injection Hbody as <-.
  split; [reflexivity|]. split; [reflexivity|].
  exists (Dojo.named name (Dojo.products st)), [].
  split; [symmetry; apply app_nil_r|]. cbn [Dojo.add_product Dojo.products].
  apply named_app.
Qed.

(** On a store without the product, the first resolution creates product
    100 and the second one finds it. *)
Lemma get_product_id_idempotent_witness :
  let resolve := Reimporter.get_product_id Dojo.serve "Security" "PayGateway" in
  let first := resolve (world0 Scenario.store) in
  first
  = (Return 100,
     mk_world (Dojo.add_product Scenario.store "PayGateway" (mk_obj 100 3 "" "")) []
              [product_types_search "Security"; products_search "PayGateway";
               products_create "PayGateway" 3] [] []) /\
  exists w2,
    resolve (snd first) = (Return 100, w2) /\
    server w2 = server (snd first) /\
    sent w2
    = (sent (snd first) ++ [product_types_search "Security";
                            products_search "PayGateway"])%list.
Proof.
  intros resolve first. split; [reflexivity|].
  destruct (get_product_id_idempotent
              Dojo.store Dojo.serve _ _ store_answers_searches store_lists_created
              "Security" "PayGateway" (world0 Scenario.store) (snd first) 100 eq_refl)
    as (w2 & Hsecond & Hserver & Hsent & _).
  exists w2. split; [exact Hsecond|]. split; [exact Hserver|exact Hsent].
Defined.

(** C7 as stated fails on a backend whose product search does not answer
    200: [get_product_id] takes the failed search for an empty one and
    creates a product at each call, 100 at the first and 101 at the second. *)
Lemma get_product_id_twice_search_failing :
  let resolve := Reimporter.get_product_id Failing.serve "Security" "PayGateway" in
  let first := resolve (world0 100) in
  let second := resolve (snd first) in
  fst first = Return 100 /\
  fst second = Return 101 /\
  sent (snd second)
  = [product_types_search "Security"; products_search "PayGateway";
     products_create "PayGateway" 3;
     product_types_search "Security"; products_search "PayGateway";
     products_create "PayGateway" 3] /\
  ~ (fst second = fst first /\
     filter is_POST (sent (snd second)) = filter is_POST (sent (snd first))).
Proof.
  intros resolve first second.
  split; [reflexivity|]. split; [reflexivity|]. split; [reflexivity|].
  intros [Hsame _]. discriminate Hsame.
Qed.

(** ** The import-only script *)

Lemma importer_import_scan_answered :
  forall (S : Type) (serve : list (string * string) -> request -> S -> result response * S)
         (fs : filesystem) (path ptn pn en : string) (w : world S) (r : response) (s' : S),
    opens fs path = true ->
    serve (headers w) (import_upload path (Importer.import_data ptn pn en)) (server w)
    = (Return r, s') ->
    Importer.import_scan serve fs path ptn pn en w
    = (Return tt,
       printed (answered w (import_upload path (Importer.import_data ptn pn en)) s')
               (if status_code r =? 201 then SuccessfullyImported path
                else FailedToImport path (status_code r) (content r))).
Proof.
  intros S serve fs path ptn pn en w r s' Hopen H.
  unfold Importer.import_scan. unfold bind at 1.
  rewrite (open_rb_opens S fs path w Hopen). answer_with H.
  destruct (status_code r =? 201); reflexivity.
Qed.

Lemma importer_import_scan_sent :
  forall (S : Type) (serve : list (string * string) -> request -> S -> result response * S)
         (fs : filesystem) (path ptn pn en : string) (w : world S),
    opens fs path = true ->
    sent (snd (Importer.import_scan serve fs path ptn pn en w))
    = (sent w ++ [import_upload path (Importer.import_data ptn pn en)])%list.
Proof.
  intros S serve fs path ptn pn en w Hopen.
  unfold Importer.import_scan, import_upload. unfold bind at 1.
  rewrite (open_rb_opens S fs path w Hopen). run.
  destruct (serve _ _ _) as [[r|e] s']; [|reflexivity]. run.
  destruct (status_code r =? 201); reflexivity.
Qed.

(** C8, as the scripts have it.  The import-only script reads a report as
    the full script does and always takes the import: for a report with
    both names it sends one request, an upload to the import endpoint, and
    no search.  The form of that upload is the one of the full script's
    import but for two fields: [deduplication_on_engagement] and
    [close_old_findings] are ["true"] where the full script sends
    ["false"].  The answer is printed in the same way. *)
Theorem importer_always_imports :
  forall (S : Type) (serve : list (string * string) -> request -> S -> result response * S)
         (fs : filesystem) (w : world S) (dir ptn xml_file pn en : string),
    fst (Importer.extract_xml_data fs (os_path_join dir xml_file) w) = Return (pn, en) ->
    let path := os_path_join dir xml_file in
    let data := Importer.import_data ptn pn en in
    let full := Reimporter.import_data ptn pn en in
    Importer.extract_xml_data fs path w = Reimporter.extract_xml_data fs path w /\
    sent (snd (Importer.main_process serve fs dir ptn xml_file w))
    = (sent w ++ [import_upload path data])%list /\
    (forall key,
        key <> "deduplication_on_engagement" -> key <> "close_old_findings" ->
        lookup key data = lookup key full) /\
    lookup "deduplication_on_engagement" data = Some (Str "true") /\
    lookup "close_old_findings" data = Some (Str "true") /\
    lookup "deduplication_on_engagement" full = Some (Str "false") /\
    lookup "close_old_findings" full = Some (Str "false") /\
    (forall r s',
        serve (headers w) (import_upload path data) (server w) = (Return r, s') ->
        stdout (snd (Importer.main_process serve fs dir ptn xml_file w))
        = (stdout w ++ [Importing xml_file pn en;
                        if status_code r =? 201 then SuccessfullyImported path
                        else FailedToImport path (status_code r) (content r)])%list).
Proof.
  intros S serve fs w dir ptn xml_file pn en Hextract path data full.
  assert (Hprocess :
            Importer.main_process serve fs dir ptn xml_file w
            = Importer.import_scan serve fs path ptn pn en
                                   (printed w (Importing xml_file pn en))).
  { unfold Importer.main_process. unfold bind at 1.
    change (Importer.extract_xml_data fs (os_path_join dir xml_file) w)
      with (Reimporter.extract_xml_data fs (os_path_join dir xml_file) w) in *.
    pose proof (extract_xml_data_world S fs (os_path_join dir xml_file) w) as Hworld.
    destruct (Reimporter.extract_xml_data fs (os_path_join dir xml_file) w)
      as [names w0].
    cbn [fst snd] in Hextract, Hworld. subst names w0. reflexivity. }
  assert (Hopen : opens fs path = true)
    by exact (extract_xml_data_opens S fs path w (pn, en) Hextract).
  split; [reflexivity|]. split.
  { rewrite Hprocess, importer_import_scan_sent by assumption. reflexivity. }
  split.
  { intros key Hdedup Hclose. subst data full.
    cbn [lookup Importer.import_data Reimporter.import_data].
    repeat match goal with
           | |- context [String.eqb ?k key] =>
               destruct (String.eqb_spec k key); [try reflexivity; congruence|]
           end.
    reflexivity. }
  repeat (split; [reflexivity|]).
  intros r s' Hserve. rewrite Hprocess.
  rewrite (importer_import_scan_answered S serve fs path ptn pn en
             (printed w (Importing xml_file pn en)) r s' Hopen Hserve).
  cbn. rewrite <- app_assoc. reflexivity.
Qed.

(** The report of the specification, imported by the import-only script. *)
Lemma importer_always_imports_witness :
  let fs := Scenario.directory ["nightly.xml"] in
  let process :=
    Importer.main_process (Canned.serve Scenario.no_engagement) fs
                          Scenario.reports_dir "Security" "nightly.xml" (world0 tt) in
  sent (snd process)
  = [import_upload Scenario.xml_file_path
       (Importer.import_data "Security" "PayGateway" "Nightly-SAST")] /\
  stdout (snd process)
  = [Importing "nightly.xml" "PayGateway" "Nightly-SAST";
     SuccessfullyImported Scenario.xml_file_path].
Proof.
  intros fs process.
  destruct (importer_always_imports
              unit (Canned.serve Scenario.no_engagement) fs (world0 tt)
              Scenario.reports_dir "Security" "nightly.xml" "PayGateway" "Nightly-SAST"
              eq_refl)
    as (_ & Hsent & _ & _ & _ & _ & _ & Hprinted).
  split; [exact Hsent|].
  exact (Hprinted (mk_response 201 "" None) tt eq_refl).
Defined.

(** C8 as stated fails: on the report of the specification, with no
    engagement on the server, the full script takes its import path and the
    two scripts do not process the report alike.  The full script resolves
    the product and looks the engagement up before it uploads, and the two
    uploads differ in [deduplication_on_engagement] and
    [close_old_findings]. *)
Lemma importer_differs_from_import_path :
  let serve := Canned.serve Scenario.no_engagement in
  let fs := Scenario.directory ["nightly.xml"] in
  let simple :=
    Importer.main_process serve fs Scenario.reports_dir "Security" "nightly.xml"
                          (world0 tt) in
  let full :=
    Reimporter.main_process serve fs Scenario.reports_dir "Security" "nightly.xml"
                            (world0 tt) in
  sent (snd simple)
  = [import_upload Scenario.xml_file_path
       (Importer.import_data "Security" "PayGateway" "Nightly-SAST")] /\
  sent (snd full)
  = [product_types_search "Security"; products_search "PayGateway";
     engagements_search 7 "Nightly-SAST";
     import_upload Scenario.xml_file_path
       (Reimporter.import_data "Security" "PayGateway" "Nightly-SAST")] /\
  Importer.import_data "Security" "PayGateway" "Nightly-SAST"
  <> Reimporter.import_data "Security" "PayGateway" "Nightly-SAST" /\
  Importer.import_scan serve fs Scenario.xml_file_path
                       "Security" "PayGateway" "Nightly-SAST" (world0 tt)
  <> Reimporter.import_scan serve fs Scenario.xml_file_path
                            "Security" "PayGateway" "Nightly-SAST" (world0 tt) /\
  simple <> full.
Proof.
  intros serve fs simple full.
  split; [reflexivity|]. split; [reflexivity|].
  split; [discriminate|]. split; [discriminate|]. discriminate.
Qed.

(** ** A report that fails, in the two loops *)

(** C4.  The loop of the full script catches every exception of a report
    ([for_main_iteration_returns]); the loop of the import-only script
    catches [ValueError] alone.  A report that is not well-formed is
    skipped by both.  A path that cannot be read (here a directory named
    [folder.xml]) raises an [OSError]: the full script prints it and goes
    on to [nightly.xml], the import-only script leaves the loop and
    [nightly.xml] is never uploaded.  The same happens when the upload of
    the first report fails in the transport. *)
Theorem importer_batch_aborted_by_one_report :
  let accepting := Canned.serve Scenario.no_engagement in
  let failing := Canned.serve Scenario.unreachable_import in
  let nightly := Scenario.xml_file_path in
  let weekly := os_path_join Scenario.reports_dir "weekly.xml" in
  let simple_data := Importer.import_data "Security" "PayGateway" "Nightly-SAST" in
  let full_data := Reimporter.import_data "Security" "PayGateway" "Nightly-SAST" in
  let ran {S} (script : M S unit) (w : world S) := (sent (snd (script w)), stdout (snd (script w))) in
  (* a report that is not well-formed: both go on *)
  ran (Importer.script accepting
         (Scenario.directory ["malformed.xml"; "nightly.xml"])) (world0 tt)
  = ([import_upload nightly simple_data],
     [ErrorProcessing "malformed.xml"
        (FailedToParse (os_path_join Scenario.reports_dir "malformed.xml")
                       (External "syntax error: line 1, column 0"));
      Importing "nightly.xml" "PayGateway" "Nightly-SAST";
      SuccessfullyImported nightly]) /\
  (* a path that cannot be read: the import-only script stops *)
  ran (Importer.script accepting
         (Scenario.directory ["folder.xml"; "nightly.xml"])) (world0 tt)
  = ([], [AnErrorOccurred (External "[Errno 21] Is a directory")]) /\
  ran (Reimporter.script accepting
         (Scenario.directory ["folder.xml"; "nightly.xml"])) (world0 tt)
  = ([product_types_search "Security"; products_search "PayGateway";
      engagements_search 7 "Nightly-SAST"; import_upload nightly full_data],
     [UnexpectedErrorProcessing "folder.xml" (External "[Errno 21] Is a directory");
      Processing "nightly.xml" "PayGateway" "Nightly-SAST";
      SuccessfullyImported nightly]) /\
  (* an upload that fails in the transport: the import-only script stops *)
  ran (Importer.script failing
         (Scenario.directory ["nightly.xml"; "weekly.xml"])) (world0 tt)
  = ([import_upload nightly simple_data],
     [Importing "nightly.xml" "PayGateway" "Nightly-SAST";
      AnErrorOccurred (External "Connection refused")]) /\
  ran (Reimporter.script failing
         (Scenario.directory ["nightly.xml"; "weekly.xml"])) (world0 tt)
  = ([product_types_search "Security"; products_search "PayGateway";
      engagements_search 7 "Nightly-SAST"; import_upload nightly full_data;
      product_types_search "Security"; products_search "PayGateway";
      engagements_search 7 "Nightly-SAST"; import_upload weekly full_data],
     [Processing "nightly.xml" "PayGateway" "Nightly-SAST";
      UnexpectedErrorProcessing "nightly.xml" (External "Connection refused");
      Processing "weekly.xml" "PayGateway" "Nightly-SAST";
      UnexpectedErrorProcessing "weekly.xml" (External "Connection refused")]).
Proof. repeat split. Qed.

(** An exception that is not a [ValueError] leaves the loop of the
    import-only script: the reports that follow are not looked at. *)
Lemma importer_loop_escapes :
  forall (S : Type) (serve : list (string * string) -> request -> S -> result response * S)
         (fs : filesystem) (dir ptn xml_file : string) (rest : list string)
         (w w' : world S) (e : exn),
    Importer.main_process serve fs dir ptn xml_file w = (Raise e, w') ->
    isinstance e ValueError = false ->
    for_ (xml_file :: rest) (Importer.main_iteration serve fs dir ptn) w = (Raise e, w').
Proof.
  intros S serve fs dir ptn xml_file rest w w' e Hprocess Hclass.
  cbn [for_]. unfold bind, Importer.main_iteration, try_.
  rewrite Hprocess. cbn [find fst snd]. rewrite Hclass. reflexivity.
Qed.

(** ** Errors and the log *)

(** C9, as the script has it.  An exception raised while a report is
    processed reaches the handlers of the loop and is printed there with
    the file name and [str(e)]; a product-type search that does not answer
    200 raises; an upload that is not answered 201 is printed as a failure.
    But a search of the engagement or of the tests that does not answer 200
    returns [None] and prints nothing, and a product search that does not
    answer 200 is taken for a search without candidate: a product is
    created and nothing is printed. *)
Theorem errors_logged_or_taken_for_not_found :
  forall (S : Type) (serve : list (string * string) -> request -> S -> result response * S)
         (fs : filesystem) (w : world S),
    (forall dir ptn xml_file e w1,
        Reimporter.main_process serve fs dir ptn xml_file w = (Raise e, w1) ->
        Reimporter.main_iteration serve fs dir ptn xml_file w
        = (Return tt, printed w1 (ErrorProcessing xml_file (str e)))
        \/ Reimporter.main_iteration serve fs dir ptn xml_file w
           = (Return tt, printed w1 (UnexpectedErrorProcessing xml_file (str e)))) /\
    (forall ptn r s',
        serve (headers w) (product_types_search ptn) (server w) = (Return r, s') ->
        status_code r <> 200 ->
        fst (Reimporter.get_product_type_id serve ptn w)
        = Raise (mk_exn Exception_ (ProductTypeNotFound ptn))) /\
    (forall path ptn pn en r s',
        opens fs path = true ->
        serve (headers w) (import_upload path (Reimporter.import_data ptn pn en)) (server w)
        = (Return r, s') ->
        status_code r <> 201 ->
        stdout (snd (Reimporter.import_scan serve fs path ptn pn en w))
        = (stdout w ++ [FailedToImport path (status_code r) (content r)])%list) /\
    (forall path test_id ptn pn en r s',
        opens fs path = true ->
        serve (headers w)
              (reimport_upload path (Reimporter.reimport_data test_id ptn pn en)) (server w)
        = (Return r, s') ->
        status_code r <> 201 ->
        stdout (snd (Reimporter.reimport_scan serve fs path test_id ptn pn en w))
        = (stdout w ++ [FailedToReimport path (status_code r) (content r)])%list) /\
    (forall product_id en r s',
        serve (headers w) (engagements_search product_id en) (server w) = (Return r, s') ->
        status_code r <> 200 ->
        fst (Reimporter.get_engagement_id serve product_id en w) = Return None /\
        stdout (snd (Reimporter.get_engagement_id serve product_id en w)) = stdout w) /\
    (forall engagement_id scan_type r s',
        serve (headers w) (tests_search engagement_id scan_type) (server w) = (Return r, s') ->
        status_code r <> 200 ->
        fst (Reimporter.get_latest_test_id serve engagement_id scan_type w) = Return None /\
        stdout (snd (Reimporter.get_latest_test_id serve engagement_id scan_type w))
        = stdout w) /\
    (forall ptn pn w1 prod_type_id r s2 r' s3 o,
        Reimporter.get_product_type_id serve ptn w = (Return prod_type_id, w1) ->
        serve (headers w1) (products_search pn) (server w1) = (Return r, s2) ->
        status_code r <> 200 ->
        serve (headers w1) (products_create pn prod_type_id) s2 = (Return r', s3) ->
        status_code r' = 201 ->
        body r' = Some (Object o) ->
        fst (Reimporter.get_product_id serve ptn pn w) = Return (id o) /\
        sent (snd (Reimporter.get_product_id serve ptn pn w))
        = (sent w1 ++ [products_search pn; products_create pn prod_type_id])%list /\
        stdout (snd (Reimporter.get_product_id serve ptn pn w)) = stdout w1).
Proof.
  intros S serve fs w.
  split; [|split; [|split; [|split; [|split; [|split]]]]].
  - intros dir ptn xml_file e w1 Hprocess.
    rewrite main_iteration_catches, Hprocess.
    destruct (isinstance e ValueError); [left|right]; reflexivity.
  - intros ptn r s' Hserve Hstatus.
    rewrite (get_product_type_id_not_200 S serve ptn w r s' Hserve Hstatus). reflexivity.
  - intros path ptn pn en r s' Hopen Hserve Hstatus.
    rewrite (import_scan_answered S serve fs path ptn pn en w r s' Hopen Hserve).
    destruct (Z.eqb_spec (status_code r) 201); [contradiction|reflexivity].
  - intros path test_id ptn pn en r s' Hopen Hserve Hstatus.
    rewrite (reimport_scan_answered S serve fs path test_id ptn pn en w r s' Hopen
               Hserve).
    destruct (Z.eqb_spec (status_code r) 201); [contradiction|reflexivity].
  - intros product_id en r s' Hserve Hstatus.
    rewrite (get_engagement_id_not_200 S serve product_id en w r s' Hserve Hstatus).
    split; reflexivity.
  - intros engagement_id scan_type r s' Hserve Hstatus.
    rewrite (get_latest_test_id_not_200 S serve engagement_id scan_type w r s' Hserve
               Hstatus).
    split; reflexivity.
  - intros ptn pn w1 prod_type_id r s2 r' s3 o Htype Hsearch Hstatus Hcreate H201 Hbody.
    rewrite (get_product_id_steps S serve ptn pn w w1 prod_type_id Htype r s2 []
               Hsearch (fun w' => ok_results_not_200 S r w' Hstatus)).
    cbn [find]. cbn [answered headers server].
    rewrite Hcreate, H201, Hbody. cbn. rewrite <- app_assoc. repeat split.
Qed.

(** The two searches answered by an error: [None], and nothing printed. *)
Lemma errors_logged_or_taken_for_not_found_witness :
  let w := world0 tt in
  let engagement :=
    Reimporter.get_engagement_id (Canned.serve Scenario.engagement_search_failing)
                                 7 "Nightly-SAST" w in
  let test :=
    Reimporter.get_latest_test_id (Canned.serve Scenario.test_search_failing)
                                  5 scan_type_name w in
  (fst engagement = Return None /\ stdout (snd engagement) = []) /\
  (fst test = Return None /\ stdout (snd test) = []).
Proof.
  intros w engagement test. split.
  - destruct (errors_logged_or_taken_for_not_found
                unit (Canned.serve Scenario.engagement_search_failing)
                (Scenario.directory []) w)
      as (_ & _ & _ & _ & Hengagement & _ & _).
    apply (Hengagement 7 "Nightly-SAST"
                       (mk_response 500 "Internal Server Error" None) tt eq_refl).
    discriminate.
  - destruct (errors_logged_or_taken_for_not_found
                unit (Canned.serve Scenario.test_search_failing)
                (Scenario.directory []) w)
      as (_ & _ & _ & _ & _ & Htest & _).
    apply (Htest 5 scan_type_name
                 (mk_response 503 "Service Unavailable" None) tt eq_refl).
    discriminate.
Defined.

(** C9 as stated fails.  The engagement search answers 500: the lookup
    does not raise, it returns [None] and prints nothing, and the script
    prints for the report what it prints when the search answers 200 with
    no result, the report being imported as new.  The same with a test
    search that answers 503. *)
Lemma search_error_taken_for_not_found :
  let w := world0 tt in
  let fs := Scenario.directory ["nightly.xml"] in
  let failing := Canned.serve Scenario.engagement_search_failing in
  let empty := Canned.serve Scenario.no_engagement in
  let test_failing := Canned.serve Scenario.test_search_failing in
  fst (failing [] (engagements_search 7 "Nightly-SAST") tt)
  = Return (mk_response 500 "Internal Server Error" None) /\
  Reimporter.get_engagement_id failing 7 "Nightly-SAST" w
  = (Return None, answered w (engagements_search 7 "Nightly-SAST") tt) /\
  stdout (snd (Reimporter.get_engagement_id failing 7 "Nightly-SAST" w)) = stdout w /\
  stdout (snd (Reimporter.script failing fs w))
  = [Processing "nightly.xml" "PayGateway" "Nightly-SAST";
     SuccessfullyImported Scenario.xml_file_path] /\
  stdout (snd (Reimporter.script failing fs w))
  = stdout (snd (Reimporter.script empty fs w)) /\
  fst (test_failing [] (tests_search 5 scan_type_name) tt)
  = Return (mk_response 503 "Service Unavailable" None) /\
  Reimporter.get_latest_test_id test_failing 5 scan_type_name w
  = (Return None, answered w (tests_search 5 scan_type_name) tt) /\
  stdout (snd (Reimporter.script test_failing fs w))
  = [Processing "nightly.xml" "PayGateway" "Nightly-SAST";
     SuccessfullyImported Scenario.xml_file_path].
Proof. repeat split. Qed.

(** ** The start of the scripts *)

Section Startup.

Variable S : Type.
Variable serve : list (string * string) -> request -> S -> result response * S.

Lemma config_get_some (config : ini) (section key v : string) (w : world S) :
  setting config section key = Some v ->
  Reimporter.config_get config section key w = (Return v, w).
Proof.
  unfold setting, Reimporter.config_get.
  destruct (assoc section config) as [keys|]; [|discriminate].
  intros ->. reflexivity.
Qed.

Lemma config_get_none (config : ini) (section key : string) (w : world S) :
  setting config section key = None ->
  exists m, Reimporter.config_get config section key w = (Raise (mk_exn KeyError m), w).
Proof.
  unfold setting, Reimporter.config_get.
  destruct (assoc section config) as [keys|].
  - intros ->. eexists. reflexivity.
  - intros _. eexists. reflexivity.
Qed.

Lemma main_authenticate_no_credentials (config : ini) (w : world S) :
  setting config "credentials" "api_key" = None ->
  setting config "credentials" "username" = None
  \/ setting config "credentials" "password" = None ->
  Reimporter.main_authenticate serve config w
  = (Raise (mk_exn KeyError MissingCredentials), w).
Proof.
  intros Hkey Hmissing.
  destruct (config_get_none config "credentials" "api_key" w Hkey) as [m Hm].
  unfold Reimporter.main_authenticate. run. rewrite Hm.
  cbn [find fst snd isinstance class_of issubclass exn_class_eqb].
  destruct (setting config "credentials" "username") as [username|] eqn:Huser.
  - destruct Hmissing as [Hmissing|Hmissing]; [discriminate|].
    rewrite (config_get_some config _ _ username w Huser).
    destruct (config_get_none config "credentials" "password" w Hmissing) as [m' Hm'].
    rewrite Hm'. reflexivity.
  - destruct (config_get_none config "credentials" "username" w Huser) as [m' Hm'].
    rewrite Hm'. reflexivity.
Qed.

Lemma main_authenticate_token (config : ini) (username password : string)
      (w : world S) :
  setting config "credentials" "api_key" = None ->
  setting config "credentials" "username" = Some username ->
  setting config "credentials" "password" = Some password ->
  Reimporter.main_authenticate serve config w
  = try_ (token <- Reimporter.get_auth_token serve username password;;
          Reimporter.set_auth_token token)
         [(KeyError, fun _ => raise KeyError MissingCredentials)] w.
Proof.
  intros Hkey Huser Hpassword.
  destruct (config_get_none config "credentials" "api_key" w Hkey) as [m Hm].
  unfold Reimporter.main_authenticate. run. rewrite Hm.
  cbn [find fst snd isinstance class_of issubclass exn_class_eqb].
  rewrite (config_get_some config _ _ username w Huser).
  rewrite (config_get_some config _ _ password w Hpassword).
  reflexivity.
Qed.

Lemma main_authenticate_refused (config : ini) (username password : string)
      (w : world S) (r : response) (s' : S) :
  setting config "credentials" "api_key" = None ->
  setting config "credentials" "username" = Some username ->
  setting config "credentials" "password" = Some password ->
  serve (headers w) (token_exchange username password) (server w) = (Return r, s') ->
  status_code r <> 200 ->
  Reimporter.main_authenticate serve config w
  = (Raise (mk_exn Exception_ (AuthenticationFailed (status_code r) (content r))),
     answered w (token_exchange username password) s').
Proof.
  intros Hkey Huser Hpassword Hserve Hstatus.
  rewrite (main_authenticate_token config username password w Hkey Huser Hpassword).
  unfold Reimporter.get_auth_token. answer_with Hserve.
  destruct (Z.eqb_spec (status_code r) 200); [contradiction|reflexivity].
Qed.

(** Authenticating prints nothing and sends at most the token exchange. *)
Lemma main_authenticate_world (config : ini) (w w1 : world S) (out : result unit) :
  Reimporter.main_authenticate serve config w = (out, w1) ->
  stdout w1 = stdout w /\
  (sent w1 = sent w
   \/ exists username password,
       sent w1 = (sent w ++ [token_exchange username password])%list).
Proof.
  destruct (setting config "credentials" "api_key") as [api_key|] eqn:Hkey.
  - unfold Reimporter.main_authenticate. run.
    rewrite (config_get_some config _ _ api_key w Hkey).
    intros [= <- <-]. split; [reflexivity|left; reflexivity].
  - destruct (setting config "credentials" "username") as [username|] eqn:Huser;
      [destruct (setting config "credentials" "password") as [password|] eqn:Hpassword|].
    + rewrite (main_authenticate_token config username password w Hkey Huser Hpassword).
      unfold Reimporter.get_auth_token, token_exchange. run.
      destruct (serve _ _ _) as [[r|e] s'].
      * destruct (status_code r =? 200).
        -- destruct (body r) as [[rs|o]|]; intros [= <- <-];
             (split; [reflexivity|right; exists username, password; reflexivity]).
        -- intros [= <- <-].
           split; [reflexivity|right; exists username, password; reflexivity].
      * cbn [find fst snd]. destruct (isinstance e KeyError); intros [= <- <-];
          (split; [reflexivity|right; exists username, password; reflexivity]).
    + rewrite main_authenticate_no_credentials by auto.
      intros [= <- <-]. split; [reflexivity|left; reflexivity].
    + rewrite main_authenticate_no_credentials by auto.
      intros [= <- <-]. split; [reflexivity|left; reflexivity].
Qed.

End Startup.

(** The start of the full script fails before any report is looked at. *)
Lemma reimporter_main_start_fails :
  forall (S : Type) (serve : list (string * string) -> request -> S -> result response * S)
         (fs : filesystem) (w : world S) (reason : message),
    fatal_startup serve fs w reason ->
    exists class w',
      Reimporter.main serve fs w = (Raise (mk_exn class reason), w') /\
      stdout w' = stdout w /\
      (sent w' = sent w
       \/ exists username password,
           sent w' = (sent w ++ [token_exchange username password])%list).
Proof.
  intros S serve fs w reason Hfatal. unfold Reimporter.main.
  destruct Hfatal
    as [Hset
       | config Hset Hkey Hmissing
       | config username password r s' Hset Hkey Huser Hpassword Hserve Hstatus
       | config w1 Hset Hauth Hname
       | config w1 product_type_name Hset Hauth Hname Hdir];
    rewrite Hset; run.
  - do 2 eexists. split; [reflexivity|]. split; [reflexivity|left; reflexivity].
  - rewrite main_authenticate_no_credentials by assumption.
    do 2 eexists. split; [reflexivity|]. split; [reflexivity|left; reflexivity].
  - rewrite (main_authenticate_refused S serve config username password w r s'
               Hkey Huser Hpassword Hserve Hstatus).
    do 2 eexists. split; [reflexivity|]. split; [reflexivity|].
    right. exists username, password. reflexivity.
  - rewrite Hauth.
    destruct (config_get_none S config "configuration" "product_type_name" w1 Hname)
      as [m Hm].
    rewrite Hm. do 2 eexists. split; [reflexivity|].
    exact (main_authenticate_world S serve config w w1 _ Hauth).
  - rewrite Hauth.
    rewrite (config_get_some S config _ _ product_type_name w1 Hname).
    rewrite Hdir. do 2 eexists. split; [reflexivity|].
    exact (main_authenticate_world S serve config w w1 _ Hauth).
Qed.

(** The same for the import-only script, whose start is the same code. *)
Lemma importer_main_start_fails :
  forall (S : Type) (serve : list (string * string) -> request -> S -> result response * S)
         (fs : filesystem) (w : world S) (reason : message),
    fatal_startup serve fs w reason ->
    exists class w',
      Importer.main serve fs w = (Raise (mk_exn class reason), w') /\
      stdout w' = stdout w /\
      (sent w' = sent w
       \/ exists username password,
           sent w' = (sent w ++ [token_exchange username password])%list).
Proof.
  intros S serve fs w reason Hfatal. unfold Importer.main.
  change (@Importer.main_authenticate S) with (@Reimporter.main_authenticate S).
  change (@Importer.config_get S) with (@Reimporter.config_get S).
  destruct Hfatal
    as [Hset
       | config Hset Hkey Hmissing
       | config username password r s' Hset Hkey Huser Hpassword Hserve Hstatus
       | config w1 Hset Hauth Hname
       | config w1 product_type_name Hset Hauth Hname Hdir];
    rewrite Hset; run.
  - do 2 eexists. split; [reflexivity|]. split; [reflexivity|left; reflexivity].
  - rewrite main_authenticate_no_credentials by assumption.
    do 2 eexists. split; [reflexivity|]. split; [reflexivity|left; reflexivity].
  - rewrite (main_authenticate_refused S serve config username password w r s'
               Hkey Huser Hpassword Hserve Hstatus).
    do 2 eexists. split; [reflexivity|]. split; [reflexivity|].
    right. exists username, password. reflexivity.
  - rewrite Hauth.
    destruct (config_get_none S config "configuration" "product_type_name" w1 Hname)
      as [m Hm].
    rewrite Hm. do 2 eexists. split; [reflexivity|].
    exact (main_authenticate_world S serve config w w1 _ Hauth).
  - rewrite Hauth.
    rewrite (config_get_some S config _ _ product_type_name w1 Hname).
    rewrite Hdir. do 2 eexists. split; [reflexivity|].
    exact (main_authenticate_world S serve config w w1 _ Hauth).
Qed.

(** The top-level handler catches every exception: the scripts always run
    to their end, and the interpreter exits with status 0. *)
Lemma script_exit_status :
  forall (S : Type) (serve : list (string * string) -> request -> S -> result response * S)
         (fs : filesystem) (w : world S),
    exit_status (Reimporter.script serve fs) w = 0 /\
    exit_status (Importer.script serve fs) w = 0.
Proof.
  intros S serve fs w. unfold exit_status, Reimporter.script, Importer.script, try_.
  split.
  - destruct (Reimporter.main serve fs w) as [[[]|e] w']; reflexivity.
  - destruct (Importer.main serve fs w) as [[[]|e] w']; reflexivity.
Qed.

(** C10, as the scripts have it.  On a fatal condition of the start each
    script prints the diagnostic and ends, having sent at most the token
    exchange and no request for a report; the exception is caught by the
    top-level handler, so the exit status is 0. *)
Theorem start_failure_printed_exit_status_zero :
  forall (S : Type) (serve : list (string * string) -> request -> S -> result response * S)
         (fs : filesystem) (w : world S) (reason : message),
    fatal_startup serve fs w reason ->
    (exists w',
        Reimporter.script serve fs w = (Return tt, w') /\
        stdout w' = (stdout w ++ [AnErrorOccurred reason])%list /\
        (sent w' = sent w
         \/ exists username password,
             sent w' = (sent w ++ [token_exchange username password])%list)) /\
    exit_status (Reimporter.script serve fs) w = 0 /\
    (exists w',
        Importer.script serve fs w = (Return tt, w') /\
        stdout w' = (stdout w ++ [AnErrorOccurred reason])%list /\
        (sent w' = sent w
         \/ exists username password,
             sent w' = (sent w ++ [token_exchange username password])%list)) /\
    exit_status (Importer.script serve fs) w = 0.
Proof.
  intros S serve fs w reason Hfatal.
  destruct (script_exit_status S serve fs w) as [Hfull Hsimple].
  destruct (reimporter_main_start_fails S serve fs w reason Hfatal)
    as (c & w' & Hmain & Hout & Hsent).
  destruct (importer_main_start_fails S serve fs w reason Hfatal)
    as (c' & w'' & Hmain' & Hout' & Hsent').
  split; [|split; [exact Hfull|split; [|exact Hsimple]]].
  - exists (printed w' (AnErrorOccurred reason)).
    unfold Reimporter.script, try_. rewrite Hmain. cbn [find fst snd isinstance issubclass].
    split; [reflexivity|]. cbn [printed stdout sent]. rewrite Hout.
    split; [reflexivity|exact Hsent].
  - exists (printed w'' (AnErrorOccurred reason)).
    unfold Importer.script, try_. rewrite Hmain'. cbn [find fst snd isinstance issubclass].
    split; [reflexivity|]. cbn [printed stdout sent]. rewrite Hout'.
    split; [reflexivity|exact Hsent'].
Qed.

(** Without the directory of the reports the full script prints that the
    directory is not found and exits with status 0. *)
Lemma start_failure_printed_exit_status_zero_witness :
  let serve := Canned.serve Scenario.no_engagement in
  let w := world0 tt in
  fatal_startup serve Scenario.no_directory w (DirectoryNotFound "asoc_sast_reports") /\
  (exists w',
      Reimporter.script serve Scenario.no_directory w = (Return tt, w') /\
      stdout w' = [AnErrorOccurred (DirectoryNotFound "asoc_sast_reports")]) /\
  exit_status (Reimporter.script serve Scenario.no_directory) w = 0.
Proof.
  intros serve w.
  assert (Hfatal : fatal_startup serve Scenario.no_directory w
                                 (DirectoryNotFound "asoc_sast_reports")).
  { apply (no_reports_dir serve Scenario.no_directory w Scenario.settings
             (snd (Reimporter.main_authenticate serve Scenario.settings w)) "Security");
      reflexivity. }
  split; [exact Hfatal|].
  destruct (start_failure_printed_exit_status_zero
              unit serve Scenario.no_directory w _ Hfatal)
    as ((w' & Hscript & Hout & _) & Hexit & _).
  split; [|exact Hexit].
  exists w'. split; [exact Hscript|exact Hout].
Defined.

(** C10 as stated fails: on each of the fatal conditions (no settings
    file, no credentials, no directory of reports, a refused token exchange)
    the diagnostic is printed and no request for a report is sent, but the
    exit status is 0 and not another one. *)
Lemma start_failure_exit_status_not_nonzero :
  let serve := Canned.serve Scenario.token_refusing in
  let w := world0 tt in
  let ran (script : M unit unit) :=
    (exit_status script w, stdout (snd (script w)), sent (snd (script w))) in
  ran (Reimporter.script serve Scenario.no_settings)
  = (0, [AnErrorOccurred SettingsNotFound], []) /\
  ran (Reimporter.script serve Scenario.no_credentials)
  = (0, [AnErrorOccurred MissingCredentials], []) /\
  ran (Reimporter.script serve Scenario.no_directory)
  = (0, [AnErrorOccurred (DirectoryNotFound "asoc_sast_reports")], []) /\
  ran (Reimporter.script serve Scenario.with_password)
  = (0, [AnErrorOccurred
           (AuthenticationFailed 400 "Unable to log in with provided credentials.")],
     [token_exchange "importer" "wrong"]) /\
  ran (Importer.script serve Scenario.no_settings)
  = (0, [AnErrorOccurred SettingsNotFound], []) /\
  ~ exit_status (Reimporter.script serve Scenario.no_settings) w <> 0.
Proof.
  intros serve w ran.
  repeat (split; [reflexivity|]).
  intros H. apply H. reflexivity.
Qed.

(** * Further properties of the scripts *)

(** ** Reading a report *)

(** X1. [extract_xml_data] returns a pair of names exactly when the report
    parses and has both elements with a text that is not empty; the names it
    returns are these texts, so neither is empty. *)
Theorem extract_xml_data_returns_names :
  forall (S : Type) (fs : filesystem) (path : string) (w : world S) (pn en : string),
    fst (Reimporter.extract_xml_data fs path w) = Return (pn, en) <->
    exists root,
      ET_parse fs path = Tree root /\
      application_name root = Some (mk_element (Some pn)) /\
      asoc_scan_name root = Some (mk_element (Some en)) /\
      pn <> "" /\ en <> "".
Proof.
  intros S fs path w pn en. unfold Reimporter.extract_xml_data. run.
  split.
  - destruct (ET_parse fs path) as [detail|detail|e|root];
      [discriminate|discriminate| |].
    { cbn. destruct (exn_class_eqb (class_of e) ParseError); discriminate. }
    destruct root as [[[[product|]]|] [[[engagement|]]|]]; cbn;
      try discriminate;
      destruct (String.eqb_spec product ""); cbn; try discriminate;
      try (destruct (String.eqb_spec engagement ""); cbn; try discriminate).
    intros [= <- <-]. eexists. repeat split; assumption.
  - intros (root & -> & Hproduct & Hengagement & Hpn & Hen).
    rewrite Hproduct, Hengagement. cbn.
    destruct (String.eqb_spec pn ""); [contradiction|].
    destruct (String.eqb_spec en ""); [contradiction|]. reflexivity.
Qed.

(** X2. When [extract_xml_data] fails, the world is as it was: nothing has
    been sent or printed.  The exception is an [OSError] when the path
    cannot be read, and a [ValueError] when the report is not well-formed
    or when an element is missing or empty, the product name being checked
    first.  An exception of another class that the parser raises on a file
    that opens is raised as it is.  So an exception that is not a
    [ValueError] comes from the opening of the file or from the parser. *)
Theorem extract_xml_data_failure :
  forall (S : Type) (fs : filesystem) (path : string) (w w' : world S) (e : exn),
    Reimporter.extract_xml_data fs path w = (Raise e, w') ->
    w' = w /\
    match ET_parse fs path with
    | Unreadable detail => e = mk_exn OSError (External detail)
    | NotWellFormed detail =>
        e = mk_exn ValueError (FailedToParse path (External detail))
    | Raising e0 =>
        e = if isinstance e0 ParseError
            then mk_exn ValueError (FailedToParse path (str e0))
            else e0
    | Tree root =>
        let product_name :=
          match application_name root with Some el => text el | None => None end in
        if falsy_text product_name
        then e = mk_exn ValueError (CouldNotFind "application-name" path)
        else e = mk_exn ValueError (CouldNotFind "asoc-scan-name" path)
    end /\
    (opens fs path = false -> isinstance e ValueError = false) /\
    (isinstance e ValueError = false ->
     opens fs path = false \/ exists e0, ET_parse fs path = Raising e0 /\ e = e0).
Proof.
  intros S fs path w w' e. unfold Reimporter.extract_xml_data, opens. run.
  destruct (ET_parse fs path) as [detail|detail|e0|root]; cbn.
  - intros [= <- <-]. repeat split; try discriminate. intros _. left. reflexivity.
  - intros [= <- <-]. repeat split; discriminate.
  - destruct e0 as [c m]. unfold isinstance. cbn [class_of str issubclass].
    destruct (exn_class_eqb c ParseError); cbn.
    + intros [= <- <-]. repeat split; discriminate.
    + intros [= <- <-]. repeat split; try discriminate.
      intros _. right. eexists. split; reflexivity.
  - destruct (falsy_text _); cbn.
    + intros [= <- <-]. repeat split; discriminate.
    + destruct (falsy_text _); cbn; [|discriminate].
      intros [= <- <-]. repeat split; discriminate.
Qed.

(** A report with an unknown encoding: the [LookupError] of the parser
    leaves [extract_xml_data] as it is. *)
Lemma extract_xml_data_failure_witness :
  let fs := Scenario.unknown_encoding in
  let path := Scenario.xml_file_path in
  let e := mk_exn LookupError (External "unknown encoding: klingon") in
  Reimporter.extract_xml_data fs path (world0 tt) = (Raise e, world0 tt) /\
  (isinstance e ValueError = false ->
   opens fs path = false \/ exists e0, ET_parse fs path = Raising e0 /\ e = e0).
Proof.
  intros fs path e. split; [reflexivity|].
  exact (proj2 (proj2 (proj2
           (extract_xml_data_failure unit fs path (world0 tt) (world0 tt) e eq_refl)))).
Defined.

(** X3. A report that cannot be read or lacks a name is rejected before any
    request: the turn of the loop sends nothing.  The full script prints the
    error with the file name and returns; the import-only script does so
    for a [ValueError] and lets any other exception leave the loop. *)
Theorem report_rejected_before_any_request :
  forall (S : Type) (serve : list (string * string) -> request -> S -> result response * S)
         (fs : filesystem) (dir ptn xml_file : string) (w : world S) (e : exn),
    fst (Reimporter.extract_xml_data fs (os_path_join dir xml_file) w) = Raise e ->
    Reimporter.main_iteration serve fs dir ptn xml_file w
    = (Return tt,
       printed w (if isinstance e ValueError then ErrorProcessing xml_file (str e)
                  else UnexpectedErrorProcessing xml_file (str e))) /\
    Importer.main_iteration serve fs dir ptn xml_file w
    = (if isinstance e ValueError
       then (Return tt, printed w (ErrorProcessing xml_file (str e)))
       else (Raise e, w)) /\
    sent (snd (Reimporter.main_iteration serve fs dir ptn xml_file w)) = sent w /\
    sent (snd (Importer.main_iteration serve fs dir ptn xml_file w)) = sent w.
Proof.
  intros S serve fs dir ptn xml_file w e Hextract.
  pose proof (extract_xml_data_world S fs (os_path_join dir xml_file) w) as Hworld.
  assert (Hfull : Reimporter.main_process serve fs dir ptn xml_file w = (Raise e, w)).
  { unfold Reimporter.main_process. unfold bind at 1.
    destruct (Reimporter.extract_xml_data fs (os_path_join dir xml_file) w) as [out w0].
    cbn [fst snd] in Hextract, Hworld. subst out w0. reflexivity. }
  assert (Hsimple : Importer.main_process serve fs dir ptn xml_file w = (Raise e, w)).
  { unfold Importer.main_process. unfold bind at 1.
    change (Importer.extract_xml_data fs (os_path_join dir xml_file) w)
      with (Reimporter.extract_xml_data fs (os_path_join dir xml_file) w).
    destruct (Reimporter.extract_xml_data fs (os_path_join dir xml_file) w) as [out w0].
    cbn [fst snd] in Hextract, Hworld. subst out w0. reflexivity. }
  assert (H1 : Reimporter.main_iteration serve fs dir ptn xml_file w
               = (Return tt,
                  printed w (if isinstance e ValueError
                             then ErrorProcessing xml_file (str e)
                             else UnexpectedErrorProcessing xml_file (str e)))).
  { rewrite main_iteration_catches, Hfull. reflexivity. }
  assert (H2 : Importer.main_iteration serve fs dir ptn xml_file w
               = (if isinstance e ValueError
                  then (Return tt, printed w (ErrorProcessing xml_file (str e)))
                  else (Raise e, w))).
  { unfold Importer.main_iteration, try_. rewrite Hsimple. cbn [find fst snd].
    destruct (isinstance e ValueError); reflexivity. }
  split; [exact H1|]. split; [exact H2|].
  rewrite H1, H2. split; [reflexivity|].
  destruct (isinstance e ValueError); reflexivity.
Qed.

Lemma report_rejected_before_any_request_witness :
  let fs := Scenario.directory ["malformed.xml"] in
  let serve := Canned.serve Scenario.no_engagement in
  let reason :=
    FailedToParse (os_path_join Scenario.reports_dir "malformed.xml")
                  (External "syntax error: line 1, column 0") in
  Reimporter.main_iteration serve fs Scenario.reports_dir "Security" "malformed.xml"
                            (world0 tt)
  = (Return tt, printed (world0 tt) (ErrorProcessing "malformed.xml" reason)) /\
  Importer.main_iteration serve fs Scenario.reports_dir "Security" "malformed.xml"
                          (world0 tt)
  = (Return tt, printed (world0 tt) (ErrorProcessing "malformed.xml" reason)).
Proof.
  intros fs serve reason.
  destruct (report_rejected_before_any_request
              unit serve fs Scenario.reports_dir "Security" "malformed.xml" (world0 tt)
              (mk_exn ValueError reason) eq_refl) as (Hfull & Hsimple & _).
  split; [exact Hfull|exact Hsimple].
Defined.

(** ** The session *)

Lemma assoc_update_same (key v : string) (d : list (string * string)) :
  assoc key (update key v d) = Some v.
Proof.
  induction d as [|[k v'] d IH]; cbn.
  - rewrite String.eqb_refl. reflexivity.
  - destruct (String.eqb_spec k key) as [->|Hk]; cbn.
    + rewrite String.eqb_refl. reflexivity.
    + destruct (String.eqb_spec k key); [contradiction|exact IH].
Qed.

Lemma assoc_update_other (key v k : string) (d : list (string * string)) :
  k <> key -> assoc k (update key v d) = assoc k d.
Proof.
  intros Hk. induction d as [|[k' v'] d IH]; cbn.
  - destruct (String.eqb_spec key k); [congruence|reflexivity].
  - destruct (String.eqb_spec k' key) as [->|Hk']; cbn.
    + destruct (String.eqb_spec key k); [congruence|reflexivity].
    + destruct (String.eqb_spec k' k); [reflexivity|exact IH].
Qed.

Lemma update_update (key v v' : string) (d : list (string * string)) :
  update key v' (update key v d) = update key v' d.
Proof.
  induction d as [|[k u] d IH]; cbn.
  - rewrite String.eqb_refl. reflexivity.
  - destruct (String.eqb_spec k key) as [->|Hk]; cbn.
    + rewrite String.eqb_refl. reflexivity.
    + destruct (String.eqb_spec k key); [contradiction|]. rewrite IH. reflexivity.
Qed.

(** X4. After [set_auth_token] the session has the header
    [Authorization: Token <token>] and its other headers as before; nothing
    is sent or printed.  A second call replaces the token of the first: the
    session is as if the second call alone had been made. *)
Theorem set_auth_token_header :
  forall (S : Type) (token : string) (w : world S),
    let w' := snd (Reimporter.set_auth_token token w) in
    assoc "Authorization" (headers w') = Some ("Token " ++ token) /\
    (forall k, k <> "Authorization" -> assoc k (headers w') = assoc k (headers w)) /\
    sent w' = sent w /\ stdout w' = stdout w /\ written w' = written w /\
    (forall token',
        snd (Reimporter.set_auth_token token' w')
        = snd (Reimporter.set_auth_token token' w)).
Proof.
  intros S token w w'. subst w'. cbn.
  split; [apply assoc_update_same|].
  split; [intros k Hk; apply assoc_update_other; exact Hk|].
  repeat (split; [reflexivity|]).
  intros token'. rewrite update_update. reflexivity.
Qed.

(** X5. [get_auth_token] posts the user name and the password to the token
    endpoint.  On status 200 it returns the token of the answer and writes
    it to [auth_token.json]; on another status it raises "authentication
    failed" with the status and the content, and writes nothing.  It does
    not set the header of the session itself. *)
Theorem get_auth_token_exchange :
  forall (S : Type) (serve : list (string * string) -> request -> S -> result response * S)
         (username password : string) (w : world S) (r : response) (s' : S),
    serve (headers w) (token_exchange username password) (server w) = (Return r, s') ->
    (status_code r = 200 ->
     forall o, body r = Some (Object o) ->
       Reimporter.get_auth_token serve username password w
       = (Return (token o),
          mk_world s' (headers w) (sent w ++ [token_exchange username password])
                   (stdout w) (written w ++ [("auth_token.json", token o)]))) /\
    (status_code r <> 200 ->
     Reimporter.get_auth_token serve username password w
     = (Raise (mk_exn Exception_ (AuthenticationFailed (status_code r) (content r))),
        answered w (token_exchange username password) s')).
Proof.
  intros S serve username password w r s' Hserve.
  unfold Reimporter.get_auth_token. answer_with Hserve. split.
  - intros Hstatus o Hbody. rewrite Hstatus, Hbody. reflexivity.
  - intros Hstatus. destruct (Z.eqb_spec (status_code r) 200); [contradiction|].
    reflexivity.
Qed.

Lemma get_auth_token_exchange_witness :
  Reimporter.get_auth_token (Canned.serve Scenario.token_refusing)
                            "importer" "wrong" (world0 tt)
  = (Raise (mk_exn Exception_
              (AuthenticationFailed 400 "Unable to log in with provided credentials.")),
     answered (world0 tt) (token_exchange "importer" "wrong") tt).
Proof.
  destruct (get_auth_token_exchange
              unit (Canned.serve Scenario.token_refusing) "importer" "wrong" (world0 tt)
              (mk_response 400 "Unable to log in with provided credentials." None) tt
              eq_refl) as [_ Hrefused].
  apply Hrefused. discriminate.
Defined.

(** ** Authentication *)

(** X6. An API key in the settings takes precedence: whether or not a user
    name and a password are there too, the key becomes the token of the
    session and is written to [auth_token.json], and no request is sent. *)
Theorem api_key_takes_precedence :
  forall (S : Type) (serve : list (string * string) -> request -> S -> result response * S)
         (config : ini) (w : world S) (api_key : string),
    setting config "credentials" "api_key" = Some api_key ->
    Reimporter.main_authenticate serve config w
    = (Return tt,
       mk_world (server w) (update "Authorization" ("Token " ++ api_key) (headers w))
                (sent w) (stdout w) (written w ++ [("auth_token.json", api_key)])) /\
    Importer.main_authenticate serve config w
    = Reimporter.main_authenticate serve config w.
Proof.
  intros S serve config w api_key Hkey. split; [|reflexivity].
  unfold Reimporter.main_authenticate. run.
  rewrite (config_get_some S config _ _ api_key w Hkey). reflexivity.
Qed.

Lemma api_key_takes_precedence_witness :
  let config := [("credentials", [("username", "importer"); ("password", "wrong");
                                  ("api_key", "0123456789abcdef")]);
                 ("configuration", [("product_type_name", "Security")])] in
  Reimporter.main_authenticate (Canned.serve Scenario.token_refusing) config (world0 tt)
  = (Return tt,
     mk_world tt [("Authorization", "Token 0123456789abcdef")] [] []
              [("auth_token.json", "0123456789abcdef")]).
Proof.
  intros config.
  exact (proj1 (api_key_takes_precedence
                  unit (Canned.serve Scenario.token_refusing) config (world0 tt)
                  "0123456789abcdef" eq_refl)).
Defined.

(** X7. Without an API key, the user name and the password are exchanged
    for a token.  When the exchange is answered 200 with a token, the token
    is written to [auth_token.json] and becomes the token of the session.
    When it is answered 200 with a JSON body that has no token, the
    [KeyError] is caught with the ones of the settings and the script
    reports missing credentials; a body that is not JSON raises as it is. *)
Theorem token_authentication :
  forall (S : Type) (serve : list (string * string) -> request -> S -> result response * S)
         (config : ini) (username password : string) (w : world S)
         (r : response) (s' : S),
    setting config "credentials" "api_key" = None ->
    setting config "credentials" "username" = Some username ->
    setting config "credentials" "password" = Some password ->
    serve (headers w) (token_exchange username password) (server w) = (Return r, s') ->
    status_code r = 200 ->
    match body r with
    | Some (Object o) =>
        Reimporter.main_authenticate serve config w
        = (Return tt,
           mk_world s' (update "Authorization" ("Token " ++ token o) (headers w))
                    (sent w ++ [token_exchange username password]) (stdout w)
                    (written w ++ [("auth_token.json", token o)]))
    | Some (Page _) =>
        Reimporter.main_authenticate serve config w
        = (Raise (mk_exn KeyError MissingCredentials),
           answered w (token_exchange username password) s')
    | None =>
        Reimporter.main_authenticate serve config w
        = (Raise (mk_exn JSONDecodeError (External "response.json()")),
           answered w (token_exchange username password) s')
    end.
Proof.
  intros S serve config username password w r s' Hkey Huser Hpassword Hserve Hstatus.
  rewrite (main_authenticate_token S serve config username password w
             Hkey Huser Hpassword).
  unfold Reimporter.get_auth_token. answer_with Hserve. rewrite Hstatus.
  destruct (body r) as [[rs|o]|]; reflexivity.
Qed.

Lemma token_authentication_witness :
  let serve :=
    Canned.serve [(true, Scenario.url "/api/v2/api-token-auth/",
                   Canned.object 200 (mk_obj 0 0 "" "9f8e7d"))] in
  Reimporter.main_authenticate serve Scenario.password_settings (world0 tt)
  = (Return tt,
     mk_world tt [("Authorization", "Token 9f8e7d")]
              [token_exchange "importer" "wrong"] []
              [("auth_token.json", "9f8e7d")]).
Proof.
  intros serve.
  exact (token_authentication
           unit serve Scenario.password_settings "importer" "wrong" (world0 tt)
           (mk_response 200 "" (Some (Object (mk_obj 0 0 "" "9f8e7d")))) tt
           eq_refl eq_refl eq_refl eq_refl eq_refl).
Defined.

(** ** The lookups *)

(** X8. Each of the three lookups sends its one GET request whatever the
    server answers, prints nothing and leaves the session as it is; when the
    request fails in the transport the exception is raised as it is, and not
    turned into "not found". *)
Theorem lookups_send_one_request :
  forall (S : Type) (serve : list (string * string) -> request -> S -> result response * S)
         (w : world S),
    (forall ptn,
        let request := product_types_search ptn in
        let answer := serve (headers w) request (server w) in
        snd (Reimporter.get_product_type_id serve ptn w) = answered w request (snd answer) /\
        forall e, fst answer = Raise e ->
                  fst (Reimporter.get_product_type_id serve ptn w) = Raise e) /\
    (forall product_id en,
        let request := engagements_search product_id en in
        let answer := serve (headers w) request (server w) in
        snd (Reimporter.get_engagement_id serve product_id en w)
        = answered w request (snd answer) /\
        forall e, fst answer = Raise e ->
                  fst (Reimporter.get_engagement_id serve product_id en w) = Raise e) /\
    (forall engagement_id scan_type,
        let request := tests_search engagement_id scan_type in
        let answer := serve (headers w) request (server w) in
        snd (Reimporter.get_latest_test_id serve engagement_id scan_type w)
        = answered w request (snd answer) /\
        forall e, fst answer = Raise e ->
                  fst (Reimporter.get_latest_test_id serve engagement_id scan_type w)
                  = Raise e).
Proof.
  intros S serve w. split; [|split].
  - intros ptn request answer. split; [apply get_product_type_id_world|].
    intros e. subst answer request.
    unfold Reimporter.get_product_type_id, product_types_search. run.
    destruct (serve _ _ _) as [[r|e'] s']; cbn; [discriminate|]. intros [= ->]. reflexivity.
  - intros product_id en request answer. split; [apply get_engagement_id_world|].
    intros e. subst answer request.
    unfold Reimporter.get_engagement_id, engagements_search. run.
    destruct (serve _ _ _) as [[r|e'] s']; cbn; [discriminate|]. intros [= ->]. reflexivity.
  - intros engagement_id scan_type request answer.
    split; [apply get_latest_test_id_world|].
    intros e. subst answer request.
    unfold Reimporter.get_latest_test_id, tests_search. run.
    destruct (serve _ _ _) as [[r|e'] s']; cbn; [discriminate|]. intros [= ->]. reflexivity.
Qed.

Lemma get_latest_test_id_page :
  forall (S : Type) (serve : list (string * string) -> request -> S -> result response * S)
         (w : world S) (engagement_id : Z) (scan_type : string)
         (r : response) (s' : S) (results : list obj),
    serve (headers w) (tests_search engagement_id scan_type) (server w) = (Return r, s') ->
    status_code r = 200 ->
    body r = Some (Page results) ->
    fst (Reimporter.get_latest_test_id serve engagement_id scan_type w)
    = Return (option_map id (hd_error (sorted_by_updated_reverse results))).
Proof.
  intros S serve w engagement_id scan_type r s' results Hserve Hstatus Hbody.
  unfold Reimporter.get_latest_test_id. answer_with Hserve.
  rewrite (ok_results_200 _ _ _ _ Hstatus Hbody).
  destruct results as [|x xs]; [reflexivity|].
  destruct (sorted_by_updated_reverse_head (x :: xs)) as (t & rest & _ & _ & Hsorted & _);
    [discriminate|].
  cbv iota. rewrite Hsorted. reflexivity.
Qed.

Lemma NoDup_map_injective {A B} (f : A -> B) (l : list A) (x y : A) :
  NoDup (map f l) -> In x l -> In y l -> f x = f y -> x = y.
Proof.
  induction l as [|a l IH]; [intros _ []|].
  cbn. intros Hnodup. inversion Hnodup as [|b l' Hnotin Hrest]; subst.
  intros [->|Hx] [->|Hy] Heq; auto.
  - exfalso. apply Hnotin. rewrite Heq. apply in_map. exact Hy.
  - exfalso. apply Hnotin. rewrite <- Heq. apply in_map. exact Hx.
Qed.

(** X9. When the tests of a page have pairwise different [updated]
    timestamps, the test that [get_latest_test_id] locates does not depend
    on the order in which the server lists them. *)
Theorem get_latest_test_id_order_independent :
  forall (S : Type) (serve serve' : list (string * string) -> request -> S -> result response * S)
         (w w' : world S) (engagement_id : Z) (scan_type : string)
         (r r' : response) (s1 s1' : S) (results results' : list obj),
    serve (headers w) (tests_search engagement_id scan_type) (server w) = (Return r, s1) ->
    status_code r = 200 ->
    body r = Some (Page results) ->
    serve' (headers w') (tests_search engagement_id scan_type) (server w')
    = (Return r', s1') ->
    status_code r' = 200 ->
    body r' = Some (Page results') ->
    Permutation results results' ->
    NoDup (map updated results) ->
    fst (Reimporter.get_latest_test_id serve engagement_id scan_type w)
    = fst (Reimporter.get_latest_test_id serve' engagement_id scan_type w').
Proof.
  intros S serve serve' w w' engagement_id scan_type r r' s1 s1' results results'
         Hserve Hstatus Hbody Hserve' Hstatus' Hbody' Hperm Hnodup.
  rewrite (get_latest_test_id_page S serve w engagement_id scan_type r s1 results
             Hserve Hstatus Hbody).
  rewrite (get_latest_test_id_page S serve' w' engagement_id scan_type r' s1' results'
             Hserve' Hstatus' Hbody').
  destruct results as [|x xs].
  - apply Permutation_nil in Hperm. subst results'. reflexivity.
  - destruct results' as [|x' xs'];
      [apply Permutation_sym, Permutation_nil in Hperm; discriminate|].
    destruct (sorted_by_updated_reverse_head (x :: xs))
      as (t & rest & before & after & Hsorted & Hsplit & Hbefore & Hafter);
      [discriminate|].
    destruct (sorted_by_updated_reverse_head (x' :: xs'))
      as (t' & rest' & before' & after' & Hsorted' & Hsplit' & Hbefore' & Hafter');
      [discriminate|].
    rewrite Hsorted, Hsorted'. cbn.
    assert (Hin : In t (x :: xs)) by (rewrite Hsplit; apply in_elt).
    assert (Hin' : In t' (x' :: xs')) by (rewrite Hsplit'; apply in_elt).
    assert (Hmax : forall y, In y (x :: xs) -> String.leb (updated y) (updated t) = true).
    { intros y Hy. rewrite Hsplit in Hy. apply in_app_or in Hy.
      destruct Hy as [Hy|[<-|Hy]]; auto using string_ltb_leb, string_leb_refl. }
    assert (Hmax' : forall y, In y (x' :: xs') ->
                              String.leb (updated y) (updated t') = true).
    { intros y Hy. rewrite Hsplit' in Hy. apply in_app_or in Hy.
      destruct Hy as [Hy|[<-|Hy]]; auto using string_ltb_leb, string_leb_refl. }
    assert (Hsame : t' = t).
    { apply (NoDup_map_injective updated (x :: xs)); auto.
      - apply (Permutation_in _ (Permutation_sym Hperm)). exact Hin'.
      - apply String.leb_antisym.
        + apply Hmax. apply (Permutation_in _ (Permutation_sym Hperm)). exact Hin'.
        + apply Hmax'. apply (Permutation_in _ Hperm). exact Hin. }
    rewrite Hsame. reflexivity.
Qed.

Lemma get_latest_test_id_order_independent_witness :
  let listed tests :=
    Canned.serve [(false, Scenario.url "/api/v2/tests/", Canned.page 200 tests)] in
  fst (Reimporter.get_latest_test_id (listed [Scenario.test_T0; Scenario.test_T1])
                                     5 scan_type_name (world0 tt))
  = fst (Reimporter.get_latest_test_id (listed [Scenario.test_T1; Scenario.test_T0])
                                       5 scan_type_name (world0 tt)).
Proof.
  intros listed.
  apply (get_latest_test_id_order_independent
           unit (listed [Scenario.test_T0; Scenario.test_T1])
           (listed [Scenario.test_T1; Scenario.test_T0]) (world0 tt) (world0 tt)
           5 scan_type_name
           (mk_response 200 "" (Some (Page [Scenario.test_T0; Scenario.test_T1])))
           (mk_response 200 "" (Some (Page [Scenario.test_T1; Scenario.test_T0])))
           tt tt _ _ eq_refl eq_refl eq_refl eq_refl eq_refl eq_refl).
  - apply perm_swap.
  - repeat constructor; cbn; intuition discriminate.
Defined.

(** With equal timestamps the order of the page decides: the first of the
    tests updated last is located. *)
Example get_latest_test_id_tie :
  let listed tests :=
    Canned.serve [(false, Scenario.url "/api/v2/tests/", Canned.page 200 tests)] in
  let a := mk_obj 21 0 "2025-03-02T09:00:00Z" "" in
  let b := mk_obj 22 0 "2025-03-02T09:00:00Z" "" in
  fst (Reimporter.get_latest_test_id (listed [a; b]) 5 scan_type_name (world0 tt))
  = Return (Some 21) /\
  fst (Reimporter.get_latest_test_id (listed [b; a]) 5 scan_type_name (world0 tt))
  = Return (Some 22).
Proof. split; reflexivity. Qed.

(** ** The import *)

(** X10. An import by the full script of a report that opens posts it to
    the import endpoint with the scan type of the script, the three names
    as given, [auto_create_context] set and the deduplication on the
    engagement and the closing of old findings unset.  An answer of status
    201 is printed as a success, any other as a failure with the status and
    the content, and the function returns in both cases.  A report that
    does not open raises an [OSError] before anything is sent. *)
Theorem import_scan_request_and_status :
  forall (S : Type) (serve : list (string * string) -> request -> S -> result response * S)
         (fs : filesystem) (w : world S) (path ptn pn en : string),
    let data := Reimporter.import_data ptn pn en in
    let upload := POST (base_url ++ "/api/v2/import-scan/") data [("file", path)] in
    lookup "scan_type" data = Some (Str "HCL AppScan on Cloud SAST XML") /\
    lookup "product_type_name" data = Some (Str ptn) /\
    lookup "product_name" data = Some (Str pn) /\
    lookup "engagement_name" data = Some (Str en) /\
    lookup "auto_create_context" data = Some (Str "true") /\
    lookup "test" data = None /\
    (opens fs path = true ->
     sent (snd (Reimporter.import_scan serve fs path ptn pn en w))
     = (sent w ++ [upload])%list /\
     forall r s',
       serve (headers w) upload (server w) = (Return r, s') ->
       Reimporter.import_scan serve fs path ptn pn en w
       = (Return tt,
          printed (answered w upload s')
                  (if status_code r =? 201 then SuccessfullyImported path
                   else FailedToImport path (status_code r) (content r)))) /\
    (forall detail,
        ET_parse fs path = Unreadable detail ->
        Reimporter.import_scan serve fs path ptn pn en w
        = (Raise (mk_exn OSError (External detail)), w)).
Proof.
  intros S serve fs w path ptn pn en data upload.
  repeat (split; [reflexivity|]). split.
  - intros Hopen. split; [apply import_scan_sent; exact Hopen|].
    intros r s' Hserve.
    exact (import_scan_answered S serve fs path ptn pn en w r s' Hopen Hserve).
  - intros detail Hparse. apply import_scan_unreadable. exact Hparse.
Qed.

Lemma import_scan_request_and_status_witness :
  let fs := Scenario.directory ["nightly.xml"] in
  opens fs Scenario.xml_file_path = true /\
  Reimporter.import_scan (Canned.serve Scenario.refusing) fs Scenario.xml_file_path
                         "Security" "PayGateway" "Nightly-SAST" (world0 tt)
  = (Return tt,
     printed (answered (world0 tt)
                (import_upload Scenario.xml_file_path
                   (Reimporter.import_data "Security" "PayGateway" "Nightly-SAST")) tt)
             (FailedToImport Scenario.xml_file_path 400 "invalid scan")).
Proof.
  intros fs. split; [reflexivity|].
  destruct (import_scan_request_and_status
              unit (Canned.serve Scenario.refusing) fs (world0 tt)
              Scenario.xml_file_path "Security" "PayGateway" "Nightly-SAST")
    as (_ & _ & _ & _ & _ & _ & Hopens & _).
  destruct (Hopens eq_refl) as [_ Hanswer].
  exact (Hanswer (mk_response 400 "invalid scan" None) tt eq_refl).
Defined.

(** ** The requests of a product resolution *)

(** The world [get_product_id] leaves: the product-type search has been
    sent, then at most the product search and one creation. *)
Lemma get_product_id_world :
  forall (S : Type) (serve : list (string * string) -> request -> S -> result response * S)
         (ptn pn : string) (w : world S),
  exists s' more,
    snd (Reimporter.get_product_id serve ptn pn w)
    = mk_world s' (headers w) (sent w ++ product_types_search ptn :: more)%list
               (stdout w) (written w) /\
    (more = [] \/ more = [products_search pn]
     \/ exists prod_type_id, more = [products_search pn; products_create pn prod_type_id]).
Proof.
  intros S serve ptn pn w.
  assert (Hpure : forall (r : response),
             exists out, forall w0 : world S, Reimporter.ok_results r w0 = (out, w0)).
  { intros r. unfold Reimporter.ok_results, json_results.
    destruct (status_code r =? 200); [|eexists; reflexivity].
    destruct (body r) as [[rs|o]|]; eexists; reflexivity. }
  set (out := Reimporter.get_product_id serve ptn pn w).
  assert (Hout : out = Reimporter.get_product_id serve ptn pn w) by reflexivity.
  clearbody out.
  unfold Reimporter.get_product_id in Hout. unfold bind at 1 in Hout.
  pose proof (get_product_type_id_world S serve ptn w) as Hworld.
  destruct (Reimporter.get_product_type_id serve ptn w) as [[prod_type_id|e] w1];
    cbn [snd] in Hworld; subst w1.
  2: { subst out. eexists. exists []. split; [reflexivity|left; reflexivity]. }
  unfold products_search, products_create. unfold bind at 1 in Hout.
  unfold session_get, send in Hout. cbn [answered headers server] in Hout.
  destruct (serve (headers w) (GET (base_url ++ "/api/v2/products/") [("name", Str pn)])
                  (snd (serve (headers w) (product_types_search ptn) (server w))))
    as [[r2|e2] s2].
  2: { subst out. eexists. exists [products_search pn]. cbn.
       rewrite <- app_assoc. split; [reflexivity|right; left; reflexivity]. }
  unfold bind at 1 in Hout.
  destruct (Hpure r2) as [results Hresults]. rewrite Hresults in Hout.
  destruct results as [candidates|e2].
  2: { subst out. eexists. exists [products_search pn]. cbn.
       rewrite <- app_assoc. split; [reflexivity|right; left; reflexivity]. }
  destruct (find (fun product => prod_type product =? prod_type_id) candidates)
    as [product|].
  { subst out. eexists. exists [products_search pn]. cbn.
    rewrite <- app_assoc. split; [reflexivity|right; left; reflexivity]. }
  unfold bind at 1, session_post, send in Hout. cbn [headers server] in Hout.
  match type of Hout with
  | context [serve ?h (POST ?u ?d ?f) ?s] =>
      destruct (serve h (POST u d f) s) as [[r3|e3] s3]
  end.
  2: { subst out. eexists. exists [products_search pn; products_create pn prod_type_id].
       cbn. rewrite <- !app_assoc. split; [reflexivity|].
       right; right. exists prod_type_id. reflexivity. }
  assert (Hsent : snd out
                  = mk_world s3 (headers w)
                             (((sent w ++ [product_types_search ptn])
                                 ++ [products_search pn])
                                ++ [products_create pn prod_type_id])
                             (stdout w) (written w)).
  { subst out. unfold bind, json_object, raise, ret.
    destruct (status_code r3 =? 201); [|reflexivity].
    destruct (body r3) as [[rs|o]|]; reflexivity. }
  rewrite Hsent. eexists. exists [products_search pn; products_create pn prod_type_id].
  rewrite <- !app_assoc.
  split; [reflexivity|]. right; right. exists prod_type_id. reflexivity.
Qed.

(** X11. Whatever the server answers, [get_product_id] sends the
    product-type search, then at most the product search, then at most one
    creation of a product, under a product type the search returned first;
    it prints nothing and leaves the session as it is.  So a call creates at
    most one product, and none when the product type is not found or the
    product search cannot be made. *)
Theorem get_product_id_requests :
  forall (S : Type) (serve : list (string * string) -> request -> S -> result response * S)
         (ptn pn : string) (w : world S),
    let w' := snd (Reimporter.get_product_id serve ptn pn w) in
    (sent w' = (sent w ++ [product_types_search ptn])%list
     \/ sent w' = (sent w ++ [product_types_search ptn; products_search pn])%list
     \/ exists prod_type_id,
         sent w' = (sent w ++ [product_types_search ptn; products_search pn;
                               products_create pn prod_type_id])%list) /\
    stdout w' = stdout w /\ headers w' = headers w /\ written w' = written w.
Proof.
  intros S serve ptn pn w w'. subst w'.
  destruct (get_product_id_world S serve ptn pn w) as (s' & more & Hworld & Hmore).
  rewrite Hworld. cbn [sent stdout headers written].
  split; [|repeat split].
  destruct Hmore as [->|[->|[prod_type_id ->]]].
  - left. reflexivity.
  - right; left. reflexivity.
  - right; right. exists prod_type_id. reflexivity.
Qed.

(** ** The exit status *)

(** X12. Each script runs to its end and the interpreter exits with status
    0, whatever the settings, the directory and the answers of the server:
    no failure of the start or of a report shows in the exit status. *)
Theorem scripts_always_exit_zero :
  forall (S : Type) (serve : list (string * string) -> request -> S -> result response * S)
         (fs : filesystem) (w : world S),
    fst (Reimporter.script serve fs w) = Return tt /\
    exit_status (Reimporter.script serve fs) w = 0 /\
    fst (Importer.script serve fs w) = Return tt /\
    exit_status (Importer.script serve fs) w = 0.
Proof.
  intros S serve fs w.
  destruct (script_exit_status S serve fs w) as [Hfull Hsimple].
  unfold exit_status in *.
  destruct (fst (Reimporter.script serve fs w)) as [[]|e]; [|discriminate].
  destruct (fst (Importer.script serve fs w)) as [[]|e]; [|discriminate].
  repeat split.
Qed.

(** ** The directory of the reports *)

Lemma filter_none {A} (f : A -> bool) (l : list A) :
  (forall x, In x l -> f x = false) -> filter f l = [].
Proof.
  induction l as [|a l IH]; intros H; [reflexivity|]. cbn.
  rewrite (H a (or_introl eq_refl)). apply IH. intros x Hx. apply H. now right.
Qed.

(** X13. Only the entries of the directory whose name ends in [.xml]
    count: two listings with the same such entries, in the same order, give
    the same run of either script, whatever other entries they have. *)
Theorem entries_without_xml_suffix_ignored :
  forall (S : Type) (serve : list (string * string) -> request -> S -> result response * S)
         (fs : filesystem) (entries entries' : list string) (w : world S),
    listdir fs "asoc_sast_reports" = Some entries ->
    filter (fun f => endswith f ".xml") entries'
    = filter (fun f => endswith f ".xml") entries ->
    Reimporter.main serve (with_entries fs entries') w = Reimporter.main serve fs w /\
    Importer.main serve (with_entries fs entries') w = Importer.main serve fs w.
Proof.
  intros S serve fs entries entries' w Hlist Hfilter.
  unfold Reimporter.main, Importer.main.
  change (Reimporter.main_iteration serve (with_entries fs entries'))
    with (Reimporter.main_iteration serve fs).
  change (Importer.main_iteration serve (with_entries fs entries'))
    with (Importer.main_iteration serve fs).
  cbn [settings_ini with_entries listdir String.eqb Ascii.eqb Bool.eqb].
  rewrite Hlist, Hfilter. split; reflexivity.
Qed.

Lemma entries_without_xml_suffix_ignored_witness :
  let fs := Scenario.directory ["nightly.xml"] in
  let serve := Canned.serve Scenario.no_engagement in
  Reimporter.main serve (with_entries fs ["notes.txt"; "nightly.xml"; "xml"]) (world0 tt)
  = Reimporter.main serve fs (world0 tt).
Proof.
  intros fs serve.
  exact (proj1 (entries_without_xml_suffix_ignored
                  unit serve fs ["nightly.xml"] ["notes.txt"; "nightly.xml"; "xml"]
                  (world0 tt) eq_refl eq_refl)).
Defined.

(** X14. A directory without any entry ending in [.xml] is not an error:
    once authenticated and with the product-type name at hand, either
    script prints that no XML file was found and returns, sending nothing. *)
Theorem no_xml_files_is_not_an_error :
  forall (S : Type) (serve : list (string * string) -> request -> S -> result response * S)
         (fs : filesystem) (config : ini) (ptn : string) (entries : list string)
         (w w1 : world S),
    settings_ini fs = Some config ->
    Reimporter.main_authenticate serve config w = (Return tt, w1) ->
    setting config "configuration" "product_type_name" = Some ptn ->
    listdir fs "asoc_sast_reports" = Some entries ->
    (forall f, In f entries -> endswith f ".xml" = false) ->
    Reimporter.main serve fs w
    = (Return tt, printed w1 (NoXmlFilesFound "asoc_sast_reports")) /\
    Importer.main serve fs w
    = (Return tt, printed w1 (NoXmlFilesFound "asoc_sast_reports")).
Proof.
  intros S serve fs config ptn entries w w1 Hset Hauth Hname Hlist Hnone.
  unfold Reimporter.main, Importer.main.
  change (@Importer.main_authenticate S) with (@Reimporter.main_authenticate S).
  change (@Importer.config_get S) with (@Reimporter.config_get S).
  rewrite Hset. run. rewrite Hauth.
  rewrite (config_get_some S config _ _ ptn w1 Hname).
  rewrite Hlist, (filter_none _ _ Hnone). split; reflexivity.
Qed.

Lemma no_xml_files_is_not_an_error_witness :
  let fs := Scenario.directory ["notes.txt"; "report.xml.bak"] in
  let serve := Canned.serve Scenario.no_engagement in
  stdout (snd (Reimporter.main serve fs (world0 tt)))
  = [NoXmlFilesFound "asoc_sast_reports"] /\
  sent (snd (Reimporter.main serve fs (world0 tt))) = [].
Proof.
  intros fs serve.
  destruct (no_xml_files_is_not_an_error
              unit serve fs Scenario.settings "Security" ["notes.txt"; "report.xml.bak"]
              (world0 tt)
              (snd (Reimporter.main_authenticate serve Scenario.settings (world0 tt)))
              eq_refl eq_refl eq_refl eq_refl) as [Hfull _].
  - intros f [<-|[<-|[]]]; reflexivity.
  - rewrite Hfull. split; reflexivity.
Defined.

(** ** What the scripts do to the world *)

Create HintDb frames.

Section Frames.

Variable S : Type.
Variable serve : list (string * string) -> request -> S -> result response * S.
Variable fs : filesystem.

(** A relation between worlds that the steps of a script compose: it is
    reflexive and transitive, printing a line is in it, and so are sending
    a request of the kind [sends], writing a file and setting a header. *)
Variable R : world S -> world S -> Prop.
Variable sends : request -> Prop.
Hypothesis R_refl : forall w, R w w.
Hypothesis R_trans : forall w1 w2 w3, R w1 w2 -> R w2 w3 -> R w1 w3.
Hypothesis R_printed : forall w l, R w (printed w l).
Hypothesis R_answered : forall w r s', sends r -> R w (answered w r s').
Hypothesis R_written :
  forall w name text,
    R w (mk_world (server w) (headers w) (sent w) (stdout w) (written w ++ [(name, text)])).
Hypothesis R_headers :
  forall w hs, R w (mk_world (server w) hs (sent w) (stdout w) (written w)).
Hypothesis sends_token : forall username password, sends (token_exchange username password).
Hypothesis sends_full : forall r, full_script_request r -> sends r.
Hypothesis sends_simple : forall r, simple_script_request r -> sends r.

Lemma frames_ret {A} (a : A) : frames R (ret a).
Proof. intros w. apply R_refl. Qed.

Lemma frames_raise {A} (c : exn_class) (m : message) : @frames S A R (raise c m).
Proof. intros w. apply R_refl. Qed.

Lemma frames_bind {A B} (m : M S A) (f : A -> M S B) :
  frames R m -> (forall a, frames R (f a)) -> frames R (bind m f).
Proof.
  intros Hm Hf w. unfold bind. specialize (Hm w).
  destruct (m w) as [[a|e] w1]; cbn in *; [|exact Hm].
  apply R_trans with w1; [exact Hm|apply Hf].
Qed.

Lemma frames_try {A} (body : M S A) (handlers : list (exn_class * (exn -> M S A))) :
  frames R body ->
  Forall (fun h => forall e, frames R (snd h e)) handlers ->
  frames R (try_ body handlers).
Proof.
  intros Hbody Hhandlers w. unfold try_. specialize (Hbody w).
  destruct (body w) as [[a|e] w1]; cbn in *; [exact Hbody|].
  destruct (find _ handlers) as [h|] eqn:Hfind; [|exact Hbody].
  apply find_some in Hfind. destruct Hfind as [Hin _].
  rewrite Forall_forall in Hhandlers.
  apply R_trans with w1; [exact Hbody|apply (Hhandlers h Hin)].
Qed.

Lemma frames_for {A} (xs : list A) (body : A -> M S unit) :
  (forall x, frames R (body x)) -> frames R (for_ xs body).
Proof.
  intros Hbody. induction xs as [|x xs IH]; cbn [for_].
  - apply frames_ret.
  - apply frames_bind; [apply Hbody|intros _; exact IH].
Qed.

Lemma frames_print (l : line) : frames R (print l).
Proof. intros w. apply R_printed. Qed.

Lemma frames_write_file (name text : string) : frames R (write_file name text).
Proof. intros w. apply R_written. Qed.

Lemma frames_set_auth_token (token : string) :
  frames R (Reimporter.set_auth_token token).
Proof. intros w. apply R_headers. Qed.

Lemma frames_send (r : request) : sends r -> frames R (send serve r).
Proof.
  intros Hr w. unfold send. destruct (serve (headers w) r (server w)) as [answer s'].
  apply R_answered. exact Hr.
Qed.

Ltac frame :=
  repeat first
    [ solve [auto with frames]
    | progress (unfold session_get, session_post, if_truthy)
    | progress (cbv zeta)
    | apply frames_ret
    | apply frames_raise
    | apply frames_print
    | apply frames_write_file
    | apply frames_set_auth_token
    | apply frames_send;
      first [apply sends_token
            |apply sends_full; constructor
            |apply sends_simple; constructor]
    | apply frames_bind; [|intros ?]
    | apply frames_try; [|repeat constructor; intros ?; cbn [snd]]
    | apply frames_for; intros ?
    | match goal with
      | |- frames _ (match ?x with _ => _ end) => destruct x
      | |- frames _ (if ?b then _ else _) => destruct b
      | |- frames _ (let (_, _) := ?p in _) => destruct p
      end ].

Lemma frames_open_rb (path : string) : frames R (open_rb (S:=S) fs path).
Proof. unfold open_rb. frame. Qed.

Lemma frames_ok_results (r : response) : frames R (Reimporter.ok_results (S:=S) r).
Proof. unfold Reimporter.ok_results, json_results. frame. Qed.

Lemma frames_json_object (r : response) (key : string) :
  frames R (json_object (S:=S) r key).
Proof. unfold json_object. frame. Qed.

Lemma frames_config_get (config : ini) (section key : string) :
  frames R (Reimporter.config_get (S:=S) config section key).
Proof. unfold Reimporter.config_get. frame. Qed.

Lemma frames_extract_xml_data (path : string) :
  frames R (Reimporter.extract_xml_data (S:=S) fs path).
Proof. unfold Reimporter.extract_xml_data. frame. Qed.

#[local] Hint Resolve frames_open_rb frames_ok_results frames_json_object
  frames_config_get frames_extract_xml_data : frames.

(** *** The full script *)

Lemma frames_get_product_type_id (ptn : string) :
  frames R (Reimporter.get_product_type_id serve ptn).
Proof. unfold Reimporter.get_product_type_id. frame. Qed.

#[local] Hint Resolve frames_get_product_type_id : frames.

Lemma frames_get_product_id (ptn pn : string) :
  frames R (Reimporter.get_product_id serve ptn pn).
Proof. unfold Reimporter.get_product_id. frame. Qed.

Lemma frames_get_engagement_id (product_id : Z) (en : string) :
  frames R (Reimporter.get_engagement_id serve product_id en).
Proof. unfold Reimporter.get_engagement_id. frame. Qed.

Lemma frames_get_latest_test_id (engagement_id : Z) (scan_type : string) :
  frames R (Reimporter.get_latest_test_id serve engagement_id scan_type).
Proof. unfold Reimporter.get_latest_test_id. frame. Qed.

Lemma frames_import_scan (path ptn pn en : string) :
  frames R (Reimporter.import_scan serve fs path ptn pn en).
Proof. unfold Reimporter.import_scan. frame. Qed.

Lemma frames_reimport_scan (path : string) (test_id : Z) (ptn pn en : string) :
  frames R (Reimporter.reimport_scan serve fs path test_id ptn pn en).
Proof. unfold Reimporter.reimport_scan. frame. Qed.

#[local] Hint Resolve frames_get_product_id frames_get_engagement_id
  frames_get_latest_test_id frames_import_scan frames_reimport_scan : frames.

Lemma frames_main_dispatch (path ptn pn en : string) (product_id : Z) :
  frames R (Reimporter.main_dispatch serve fs path ptn pn en product_id).
Proof. unfold Reimporter.main_dispatch. frame. Qed.

#[local] Hint Resolve frames_main_dispatch : frames.

Lemma frames_main_process (dir ptn xml_file : string) :
  frames R (Reimporter.main_process serve fs dir ptn xml_file).
Proof.
  unfold Reimporter.main_process.
  apply frames_bind; [frame|intros [pn en]; frame].
Qed.

#[local] Hint Resolve frames_main_process : frames.

Lemma frames_main_iteration (dir ptn xml_file : string) :
  frames R (Reimporter.main_iteration serve fs dir ptn xml_file).
Proof. unfold Reimporter.main_iteration. frame. Qed.

Lemma frames_get_auth_token (username password : string) :
  frames R (Reimporter.get_auth_token serve username password).
Proof. unfold Reimporter.get_auth_token. frame. Qed.

#[local] Hint Resolve frames_main_iteration frames_get_auth_token : frames.

Lemma frames_main_authenticate (config : ini) :
  frames R (Reimporter.main_authenticate serve config).
Proof. unfold Reimporter.main_authenticate. frame. Qed.

#[local] Hint Resolve frames_main_authenticate : frames.

Lemma frames_main : frames R (Reimporter.main serve fs).
Proof. unfold Reimporter.main. frame. Qed.

Lemma frames_script : frames R (Reimporter.script serve fs).
Proof. unfold Reimporter.script. frame. apply frames_main. Qed.

(** *** The import-only script *)

Lemma frames_importer_import_scan (path ptn pn en : string) :
  frames R (Importer.import_scan serve fs path ptn pn en).
Proof. unfold Importer.import_scan. frame. Qed.

#[local] Hint Resolve frames_importer_import_scan : frames.

Lemma frames_importer_main_process (dir ptn xml_file : string) :
  frames R (Importer.main_process serve fs dir ptn xml_file).
Proof.
  unfold Importer.main_process.
  change (Importer.extract_xml_data fs) with (Reimporter.extract_xml_data (S:=S) fs).
  apply frames_bind; [frame|intros [pn en]; frame].
Qed.

#[local] Hint Resolve frames_importer_main_process : frames.

Lemma frames_importer_main_iteration (dir ptn xml_file : string) :
  frames R (Importer.main_iteration serve fs dir ptn xml_file).
Proof. unfold Importer.main_iteration. frame. Qed.

#[local] Hint Resolve frames_importer_main_iteration : frames.

Lemma frames_importer_main : frames R (Importer.main serve fs).
Proof.
  unfold Importer.main.
  change (@Importer.main_authenticate S) with (@Reimporter.main_authenticate S).
  change (@Importer.config_get S) with (@Reimporter.config_get S).
  frame.
Qed.

Lemma frames_importer_script : frames R (Importer.script serve fs).
Proof. unfold Importer.script. frame. apply frames_importer_main. Qed.

End Frames.

(** The two relations are of that kind. *)
Lemma extends_by_refl {S} (P : request -> Prop) (w : world S) : extends_by P w w.
Proof. exists [], []. rewrite !app_nil_r. repeat split. constructor. Qed.

Lemma extends_by_trans {S} (P : request -> Prop) (w1 w2 w3 : world S) :
  extends_by P w1 w2 -> extends_by P w2 w3 -> extends_by P w1 w3.
Proof.
  intros (rs & ls & Hs & HP & Ho) (rs' & ls' & Hs' & HP' & Ho').
  exists (rs ++ rs')%list, (ls ++ ls')%list.
  rewrite Hs', Hs, Ho', Ho, !app_assoc. repeat split.
  apply Forall_app. split; assumption.
Qed.

Lemma extends_by_printed {S} (P : request -> Prop) (w : world S) (l : line) :
  extends_by P w (printed w l).
Proof. exists [], [l]. cbn. rewrite app_nil_r. repeat split. constructor. Qed.

Lemma extends_by_answered {S} (P : request -> Prop) (w : world S) (r : request) (s' : S) :
  P r -> extends_by P w (answered w r s').
Proof. intros Hr. exists [r], []. cbn. rewrite app_nil_r. repeat split. auto. Qed.

Lemma extends_by_session {S} (P : request -> Prop) (w : world S) hs files :
  extends_by P w (mk_world (server w) hs (sent w) (stdout w) files).
Proof. exists [], []. cbn. rewrite !app_nil_r. repeat split. constructor. Qed.

Lemma same_session_trans {S} (w1 w2 w3 : world S) :
  same_session w1 w2 -> same_session w2 w3 -> same_session w1 w3.
Proof. intros [Hh Hw] [Hh' Hw']. split; congruence. Qed.

Lemma full_script_request_urls (r : request) :
  full_script_request r ->
  match r with
  | GET url _ =>
      In url [base_url ++ "/api/v2/product_types/"; base_url ++ "/api/v2/products/";
              base_url ++ "/api/v2/engagements/"; base_url ++ "/api/v2/tests/"]
  | POST url _ _ =>
      In url [base_url ++ "/api/v2/api-token-auth/"; base_url ++ "/api/v2/products/";
              base_url ++ "/api/v2/import-scan/"; base_url ++ "/api/v2/reimport-scan/"]
  end.
Proof. intros []; cbn; auto 6. Qed.

(** X15. Every request the full script sends is one of eight kinds: the
    token exchange, the searches of product types, products, engagements
    and tests, the creation of a product, the import and the reimport.  So
    it never posts to the product types, the engagements or the tests: of
    these it creates none itself.  The import-only script sends the token
    exchange and imports only.  Neither script removes what was sent or
    printed before. *)
Theorem scripts_send_their_requests_only :
  forall (S : Type) (serve : list (string * string) -> request -> S -> result response * S)
         (fs : filesystem) (w : world S),
    (exists requests lines,
        sent (snd (Reimporter.script serve fs w)) = (sent w ++ requests)%list /\
        stdout (snd (Reimporter.script serve fs w)) = (stdout w ++ lines)%list /\
        Forall full_script_request requests /\
        Forall (fun r =>
                  match r with
                  | GET url _ =>
                      In url [base_url ++ "/api/v2/product_types/";
                              base_url ++ "/api/v2/products/";
                              base_url ++ "/api/v2/engagements/";
                              base_url ++ "/api/v2/tests/"]
                  | POST url _ _ =>
                      In url [base_url ++ "/api/v2/api-token-auth/";
                              base_url ++ "/api/v2/products/";
                              base_url ++ "/api/v2/import-scan/";
                              base_url ++ "/api/v2/reimport-scan/"]
                  end) requests) /\
    (exists requests lines,
        sent (snd (Importer.script serve fs w)) = (sent w ++ requests)%list /\
        stdout (snd (Importer.script serve fs w)) = (stdout w ++ lines)%list /\
        Forall simple_script_request requests /\
        Forall (fun r => is_POST r = true) requests).
Proof.
  intros S serve fs w. split.
  - destruct (frames_script S serve fs (extends_by full_script_request)
                full_script_request
                (extends_by_refl _) (extends_by_trans _) (extends_by_printed _)
                (extends_by_answered _)
                (fun w name text => extends_by_session _ w _ _)
                (fun w hs => extends_by_session _ w _ _)
                full_token_exchange (fun r H => H) w)
      as (requests & lines & Hsent & Hkinds & Hout).
    exists requests, lines. repeat split; try assumption.
    eapply Forall_impl; [|exact Hkinds]. exact full_script_request_urls.
  - destruct (frames_importer_script S serve fs (extends_by simple_script_request)
                simple_script_request
                (extends_by_refl _) (extends_by_trans _) (extends_by_printed _)
                (extends_by_answered _)
                (fun w name text => extends_by_session _ w _ _)
                (fun w hs => extends_by_session _ w _ _)
                simple_token_exchange (fun r H => H) w)
      as (requests & lines & Hsent & Hkinds & Hout).
    exists requests, lines. repeat split; try assumption.
    eapply Forall_impl; [|exact Hkinds]. intros r []; reflexivity.
Qed.

(** X16. While the reports are processed the session is not touched: the
    loop of either script leaves the headers, the token among them, as they
    were set at the start, and writes no file. *)
Theorem loop_keeps_session :
  forall (S : Type) (serve : list (string * string) -> request -> S -> result response * S)
         (fs : filesystem) (dir ptn : string) (xml_files : list string) (w : world S),
    same_session w (snd (for_ xml_files (Reimporter.main_iteration serve fs dir ptn) w)) /\
    same_session w (snd (for_ xml_files (Importer.main_iteration serve fs dir ptn) w)).
Proof.
  intros S serve fs dir ptn xml_files w.
  assert (Hrefl : forall w0 : world S, same_session w0 w0) by (split; reflexivity).
  assert (Hprinted : forall (w0 : world S) l, same_session w0 (printed w0 l))
    by (split; reflexivity).
  assert (Hanswered : forall (w0 : world S) r s',
             (fun _ : request => True) r -> same_session w0 (answered w0 r s'))
    by (split; reflexivity).
  split.
  - apply (frames_for S same_session Hrefl same_session_trans). intros xml_file.
    exact (frames_main_iteration S serve fs same_session (fun _ => True)
             Hrefl same_session_trans Hprinted Hanswered (fun _ _ => I)
             dir ptn xml_file).
  - apply (frames_for S same_session Hrefl same_session_trans). intros xml_file.
    exact (frames_importer_main_iteration S serve fs same_session (fun _ => True)
             Hrefl same_session_trans Hprinted Hanswered (fun _ _ => I)
             dir ptn xml_file).
Qed.

Lemma main_iteration_names_file :
  forall (S : Type) (serve : list (string * string) -> request -> S -> result response * S)
         (fs : filesystem) (dir ptn xml_file : string) (w : world S),
  exists lines,
    stdout (snd (Reimporter.main_iteration serve fs dir ptn xml_file w))
    = (stdout w ++ lines)%list /\
    exists l, In l lines /\ names_file xml_file l = true.
Proof.
  intros S serve fs dir ptn xml_file w.
  rewrite main_iteration_catches. unfold Reimporter.main_process. unfold bind at 1.
  pose proof (extract_xml_data_world S fs (os_path_join dir xml_file) w) as Hworld.
  destruct (Reimporter.extract_xml_data fs (os_path_join dir xml_file) w)
    as [[[pn en]|e] w0]; cbn [snd] in Hworld; subst w0.
  - unfold bind at 1, print at 1.
    set (w1 := mk_world (server w) (headers w) (sent w)
                        (stdout w ++ [Processing xml_file pn en]) (written w)).
    set (rest := bind (Reimporter.get_product_id serve ptn pn)
                      (fun product_id =>
                         Reimporter.main_dispatch serve fs (os_path_join dir xml_file)
                                                  ptn pn en product_id)).
    assert (Hrest : extends_by (fun _ => True) w1 (snd (rest w1))).
    { apply (frames_bind S (extends_by (fun _ => True))
               (extends_by_trans _)).
      - apply (frames_get_product_id S serve (extends_by (fun _ => True)) (fun _ => True)
                 (extends_by_refl _) (extends_by_trans _)
                 (extends_by_answered _) (fun _ _ => I)).
      - intros product_id.
        apply (frames_main_dispatch S serve fs (extends_by (fun _ => True)) (fun _ => True)
                 (extends_by_refl _) (extends_by_trans _) (extends_by_printed _)
                 (extends_by_answered _) (fun _ _ => I)). }
    destruct Hrest as (requests & lines & _ & _ & Hout).
    assert (Hname : names_file xml_file (Processing xml_file pn en) = true)
      by (cbn; apply String.eqb_refl).
    destruct (rest w1) as [[[]|e] w2]; cbn [snd] in Hout |- *.
    + exists (Processing xml_file pn en :: lines). split.
      * rewrite Hout. subst w1. cbn. rewrite <- app_assoc. reflexivity.
      * exists (Processing xml_file pn en). split; [left; reflexivity|exact Hname].
    + eexists (Processing xml_file pn en :: lines ++ [_])%list. split.
      * cbn [printed stdout]. rewrite Hout. subst w1. cbn.
        rewrite <- !app_assoc. reflexivity.
      * exists (Processing xml_file pn en). split; [left; reflexivity|exact Hname].
  - eexists [_]. split; [reflexivity|].
    eexists. split; [left; reflexivity|].
    destruct (isinstance e ValueError); cbn; apply String.eqb_refl.
Qed.

(** X17. The loop of the full script gives every report its turn: it ends
    without an exception whatever the reports and the server do, it keeps
    what was printed before, and for each file of the list it prints at
    least one line that names the file. *)
Theorem every_report_is_accounted_for :
  forall (S : Type) (serve : list (string * string) -> request -> S -> result response * S)
         (fs : filesystem) (dir ptn : string) (xml_files : list string) (w : world S),
    fst (for_ xml_files (Reimporter.main_iteration serve fs dir ptn) w) = Return tt /\
    exists lines,
      stdout (snd (for_ xml_files (Reimporter.main_iteration serve fs dir ptn) w))
      = (stdout w ++ lines)%list /\
      forall xml_file,
        In xml_file xml_files ->
        exists l, In l lines /\ names_file xml_file l = true.
Proof.
  intros S serve fs dir ptn xml_files w.
  split; [apply for_main_iteration_returns|].
  revert w. induction xml_files as [|xml_file rest IH]; intros w.
  - exists []. cbn. rewrite app_nil_r. split; [reflexivity|intros ? []].
  - rewrite for_main_iteration_cons.
    destruct (main_iteration_names_file S serve fs dir ptn xml_file w)
      as (lines & Hout & l & Hl & Hname).
    destruct (IH (snd (Reimporter.main_iteration serve fs dir ptn xml_file w)))
      as (lines' & Hout' & Hrest).
    exists (lines ++ lines')%list. split.
    + rewrite Hout', Hout, app_assoc. reflexivity.
    + intros f [<-|Hf].
      * exists l. split; [apply in_or_app; left; exact Hl|exact Hname].
      * destruct (Hrest f Hf) as (l' & Hl' & Hname').
        exists l'. split; [apply in_or_app; right; exact Hl'|exact Hname'].
Qed.

(** ** The requests of a turn *)

(** X18. The dispatcher uploads a report that opens at most once: after
    its searches, which are GET requests, it sends one import, or one
    reimport into a test whose identity is not 0, or no upload at all.  When
    it returns it has sent its upload: none is sent only when it raises. *)
Theorem main_dispatch_uploads_once :
  forall (S : Type) (serve : list (string * string) -> request -> S -> result response * S)
         (fs : filesystem) (w : world S) (path ptn pn en : string) (product_id : Z),
    opens fs path = true ->
    exists searches uploads,
      sent (snd (Reimporter.main_dispatch serve fs path ptn pn en product_id w))
      = (sent w ++ searches ++ uploads)%list /\
      Forall (fun r => is_POST r = false) searches /\
      (uploads = []
       \/ uploads = [import_upload path (Reimporter.import_data ptn pn en)]
       \/ exists test_id,
           test_id <> 0 /\
           uploads = [reimport_upload path
                        (Reimporter.reimport_data test_id ptn pn en)]) /\
      (fst (Reimporter.main_dispatch serve fs path ptn pn en product_id w) = Return tt ->
       uploads <> []).
Proof.
  intros S serve fs w path ptn pn en product_id Hopen.
  remember (Reimporter.main_dispatch serve fs path ptn pn en product_id w) as out eqn:Hout.
  unfold Reimporter.main_dispatch in Hout. unfold bind at 1 in Hout.
  pose proof (get_engagement_id_world S serve product_id en w) as Hw1.
  destruct (Reimporter.get_engagement_id serve product_id en w) as [[engagement|e] w1];
    cbn [snd] in Hw1.
  2: { exists [engagements_search product_id en], []. subst out w1. cbn [snd fst].
       split; [rewrite app_nil_r; reflexivity|].
       split; [repeat constructor|].
       split; [left; reflexivity|discriminate]. }
  assert (Himport :
            forall out', out' = Reimporter.import_scan serve fs path ptn pn en w1 ->
            exists searches uploads,
              sent (snd out') = (sent w ++ searches ++ uploads)%list /\
              Forall (fun r => is_POST r = false) searches /\
              (uploads = []
               \/ uploads = [import_upload path (Reimporter.import_data ptn pn en)]
               \/ exists test_id,
                   test_id <> 0 /\
                   uploads = [reimport_upload path
                                (Reimporter.reimport_data test_id ptn pn en)]) /\
              (fst out' = Return tt -> uploads <> [])).
  { intros out' ->.
    exists [engagements_search product_id en],
           [import_upload path (Reimporter.import_data ptn pn en)].
    rewrite import_scan_sent by exact Hopen. subst w1. cbn [sent answered].
    rewrite <- app_assoc.
    split; [reflexivity|].
    split; [repeat constructor|].
    split; [right; left; reflexivity|discriminate]. }
  unfold if_truthy at 1 in Hout.
  destruct engagement as [engagement_id|]; [|exact (Himport out Hout)].
  destruct (engagement_id =? 0); [exact (Himport out Hout)|]. clear Himport.
  unfold bind at 1 in Hout.
  pose proof (get_latest_test_id_world S serve engagement_id scan_type_name w1) as Hw2.
  destruct (Reimporter.get_latest_test_id serve engagement_id scan_type_name w1)
    as [[test|e] w2]; cbn [snd] in Hw2.
  2: { exists [engagements_search product_id en;
               tests_search engagement_id scan_type_name], [].
       subst out w2 w1. cbn [snd fst sent answered].
       rewrite app_nil_r, <- app_assoc.
       split; [reflexivity|].
       split; [repeat constructor|].
       split; [left; reflexivity|discriminate]. }
  assert (Hsearches : sent w2 = (sent w ++ [engagements_search product_id en;
                                            tests_search engagement_id scan_type_name])%list).
  { subst w2 w1. cbn [sent answered]. rewrite <- app_assoc. reflexivity. }
  unfold if_truthy in Hout.
  destruct test as [test_id|].
  2: { subst out.
       exists [engagements_search product_id en; tests_search engagement_id scan_type_name],
              [import_upload path (Reimporter.import_data ptn pn en)].
       rewrite import_scan_sent, Hsearches by exact Hopen.
       rewrite <- app_assoc.
       split; [reflexivity|].
       split; [repeat constructor|].
       split; [right; left; reflexivity|discriminate]. }
  destruct (Z.eqb_spec test_id 0) as [|Htest].
  { subst out.
    exists [engagements_search product_id en; tests_search engagement_id scan_type_name],
           [import_upload path (Reimporter.import_data ptn pn en)].
    rewrite import_scan_sent, Hsearches by exact Hopen.
    rewrite <- app_assoc.
    split; [reflexivity|].
    split; [repeat constructor|].
    split; [right; left; reflexivity|discriminate]. }
  subst out.
  exists [engagements_search product_id en; tests_search engagement_id scan_type_name],
         [reimport_upload path (Reimporter.reimport_data test_id ptn pn en)].
  rewrite reimport_scan_sent, Hsearches by exact Hopen.
  rewrite <- app_assoc.
  split; [reflexivity|].
  split; [repeat constructor|].
  split; [|discriminate].
  right; right. exists test_id. split; [exact Htest|reflexivity].
Qed.

Lemma main_dispatch_uploads_once_witness :
  let fs := Scenario.directory ["nightly.xml"] in
  opens fs Scenario.xml_file_path = true /\
  exists searches uploads,
    sent (snd (Reimporter.main_dispatch (Canned.serve Scenario.two_tests) fs
                 Scenario.xml_file_path "Security" "PayGateway" "Nightly-SAST" 7
                 (world0 tt)))
    = ([] ++ searches ++ uploads)%list /\
    Forall (fun r => is_POST r = false) searches /\
    (uploads = []
     \/ uploads = [import_upload Scenario.xml_file_path
                     (Reimporter.import_data "Security" "PayGateway" "Nightly-SAST")]
     \/ exists test_id,
         test_id <> 0 /\
         uploads = [reimport_upload Scenario.xml_file_path
                      (Reimporter.reimport_data test_id "Security" "PayGateway"
                                                "Nightly-SAST")]) /\
    (fst (Reimporter.main_dispatch (Canned.serve Scenario.two_tests) fs
            Scenario.xml_file_path "Security" "PayGateway" "Nightly-SAST" 7
            (world0 tt)) = Return tt ->
     uploads <> []).
Proof.
  intros fs. split; [reflexivity|].
  exact (main_dispatch_uploads_once
           unit (Canned.serve Scenario.two_tests) fs (world0 tt)
           Scenario.xml_file_path "Security" "PayGateway" "Nightly-SAST" 7 eq_refl).
Defined.

(** X19. Nothing is kept from one report to the next: the turn of every
    report that can be read starts with the search of the product type,
    also when an earlier report has found it already, and goes on from
    there. *)
Theorem every_report_searches_product_type :
  forall (S : Type) (serve : list (string * string) -> request -> S -> result response * S)
         (fs : filesystem) (dir ptn xml_file pn en : string) (w : world S),
    fst (Reimporter.extract_xml_data fs (os_path_join dir xml_file) w) = Return (pn, en) ->
    exists more,
      sent (snd (Reimporter.main_iteration serve fs dir ptn xml_file w))
      = (sent w ++ product_types_search ptn :: more)%list.
Proof.
  intros S serve fs dir ptn xml_file pn en w Hextract.
  assert (Hprocess : exists more,
             sent (snd (Reimporter.main_process serve fs dir ptn xml_file w))
             = (sent w ++ product_types_search ptn :: more)%list).
  { unfold Reimporter.main_process. unfold bind at 1.
    pose proof (extract_xml_data_world S fs (os_path_join dir xml_file) w) as Hworld.
    destruct (Reimporter.extract_xml_data fs (os_path_join dir xml_file) w)
      as [[names|e] w0]; cbn [fst snd] in Hextract, Hworld; [|discriminate].
    injection Hextract as ->. subst w0.
    unfold bind at 1, print. unfold bind at 1.
    set (w1 := mk_world (server w) (headers w) (sent w)
                        (stdout w ++ [Processing xml_file pn en]) (written w)).
    destruct (get_product_id_world S serve ptn pn w1) as (s' & first & Hworld & _).
    destruct (Reimporter.get_product_id serve ptn pn w1) as [[product_id|e] w2];
      cbn [snd] in Hworld; subst w2; [|exists first; reflexivity].
    match goal with
    | |- context [Reimporter.main_dispatch serve fs ?path ptn pn en product_id ?w2] =>
        destruct (frames_main_dispatch S serve fs (extends_by (fun _ => True))
                    (fun _ => True)
                    (extends_by_refl _) (extends_by_trans _) (extends_by_printed _)
                    (extends_by_answered _) (fun _ _ => I)
                    path ptn pn en product_id w2)
          as (requests & lines & Hsent & _ & _)
    end.
    rewrite Hsent. cbn [sent]. exists (first ++ requests)%list.
    rewrite <- app_assoc. reflexivity. }
  destruct Hprocess as [more Hprocess]. exists more.
  rewrite main_iteration_catches.
  destruct (Reimporter.main_process serve fs dir ptn xml_file w) as [[[]|e] w'];
    exact Hprocess.
Qed.

Lemma every_report_searches_product_type_witness :
  let fs := Scenario.directory ["nightly.xml"] in
  fst (Reimporter.extract_xml_data (S:=unit) fs
         (os_path_join Scenario.reports_dir Scenario.xml_file) (world0 tt))
  = Return ("PayGateway", "Nightly-SAST") /\
  exists more,
    sent (snd (Reimporter.main_iteration (Canned.serve Scenario.two_tests) fs
                 Scenario.reports_dir "Security" Scenario.xml_file (world0 tt)))
    = ([] ++ product_types_search "Security" :: more)%list.
Proof.
  intros fs. split; [reflexivity|].
  exact (every_report_searches_product_type
           unit (Canned.serve Scenario.two_tests) fs
           Scenario.reports_dir "Security" Scenario.xml_file "PayGateway" "Nightly-SAST"
           (world0 tt) eq_refl).
Defined.
